(** * Cricket match statistics: the aggregation engine

    A shallow embedding of the two ball-by-ball aggregators of the repository,
    [process_stats] (reportdeepseek_v3.py) and [process_match_data]
    (yamlopenrouteragent.py), with the part of the Python runtime they rely
    on: exceptions, insertion-ordered dictionaries with default values, and
    binary64 floating-point numbers. *)

From Stdlib Require Import ZArith List String Bool Lia.
From Stdlib Require Import Floats.SpecFloat.
From Stdlib Require Import Permutation Sorted.
Import ListNotations.

Local Open Scope string_scope.
Local Open Scope Z_scope.

(** ** Python runtime *)

(** The exceptions the aggregators can raise.  [KeyError] carries the key that
    was looked up, as Python's does. *)
Inductive exn : Type :=
| KeyError (key : string)
| ZeroDivisionError
| OverflowError.

(** The class name of an exception, as [type(e).__name__] gives it. *)
Definition exn_class (e : exn) : string :=
  match e with
  | KeyError _ => "KeyError"
  | ZeroDivisionError => "ZeroDivisionError"
  | OverflowError => "OverflowError"
  end.

(** A computation either returns a value or raises. *)
Inductive result (A : Type) : Type :=
| Ok (a : A)
| Raise (e : exn).

Arguments Ok {A} a.
Arguments Raise {A} e.

Definition bind {A B : Type} (c : result A) (k : A -> result B) : result B :=
  match c with
  | Ok a => k a
  | Raise e => Raise e
  end.

Notation "x <- c ;; k" := (bind c (fun x => k))
  (at level 61, c at next level, right associativity).

(** [d[key]] on a plain dict: a missing key raises [KeyError key]. *)
Definition getitem {A : Type} (key : string) (field : option A) : result A :=
  match field with
  | Some a => Ok a
  | None => Raise (KeyError key)
  end.

(** A [for] loop whose body may raise: the state is threaded through the
    iterations and the first exception leaves the loop. *)
Fixpoint for_each {A S : Type} (body : S -> A -> result S) (xs : list A) (s : S)
  : result S :=
  match xs with
  | [] => Ok s
  | x :: xs' => s' <- body s x ;; for_each body xs' s'
  end.

(** *** Dictionaries

    A Python dict keeps its keys in insertion order; it is an association
    list with one pair per key. *)
Definition dict (V : Type) : Type := list (string * V).

Fixpoint get {V : Type} (k : string) (d : dict V) : option V :=
  match d with
  | [] => None
  | (k', v) :: d' => if String.eqb k k' then Some v else get k d'
  end.

(** [d[k] = f(d[k])] on a [defaultdict]: a missing key is first inserted, at
    the end, with the value of the default factory. *)
Fixpoint defaultdict_update {V : Type} (dflt : V) (k : string) (f : V -> V)
  (d : dict V) : dict V :=
  match d with
  | [] => [(k, f dflt)]
  | (k', v) :: d' =>
      if String.eqb k k' then (k', f v) :: d'
      else (k', v) :: defaultdict_update dflt k f d'
  end.

(** The value a [defaultdict] holds for [k]: the default when [k] is absent. *)
Definition get_default {V : Type} (dflt : V) (k : string) (d : dict V) : V :=
  match get k d with
  | Some v => v
  | None => dflt
  end.

(** [for k, v in d.items(): v[...] = ...]: the values are rewritten in
    insertion order and the first exception leaves the loop. *)
Fixpoint map_values {V W : Type} (f : V -> result W) (d : dict V)
  : result (dict W) :=
  match d with
  | [] => Ok []
  | (k, v) :: d' => w <- f v ;; d'' <- map_values f d' ;; Ok ((k, w) :: d'')
  end.

Definition keys {V : Type} (d : dict V) : list string := map fst d.
Definition values {V : Type} (d : dict V) : list V := map snd d.

Definition sum (l : list Z) : Z := fold_right Z.add 0 l.

(** *** Floating-point numbers

    A Python float is an IEEE 754 binary64 number. *)
Definition prec : Z := 53.
Definition emax : Z := 1024.

Definition float : Type := spec_float.

(** An int read as the exact quotient's operand: mantissa [|a|], exponent 0. *)
Definition exact_of_int (a : Z) : float :=
  match a with
  | Z0 => S754_zero false
  | Zpos p => S754_finite false p 0
  | Zneg p => S754_finite true p 0
  end.

(** A result that rounds beyond the largest float raises in the operations
    that start from an int. *)
Definition finite_or_overflow (f : float) : result float :=
  match f with
  | S754_infinity _ => Raise OverflowError
  | _ => Ok f
  end.

(** [a / b] on two ints: the correctly rounded quotient. *)
Definition int_truediv (a b : Z) : result float :=
  if b =? 0 then Raise ZeroDivisionError
  else finite_or_overflow (SFdiv prec emax (exact_of_int a) (exact_of_int b)).

(** [float(a)] on an int, rounded to nearest, ties to even. *)
Definition float_of_int (a : Z) : result float :=
  finite_or_overflow (binary_normalize prec emax a 0 false).

(** [x == 0.0]. *)
Definition float_is_zero (x : float) : bool := SFeqb x (S754_zero false).

(** [x > 0]. *)
Definition float_gt0 (x : float) : bool := SFltb (S754_zero false) x.

(** [x / y] on two floats. *)
Definition float_truediv (x y : float) : result float :=
  if float_is_zero y then Raise ZeroDivisionError
  else Ok (SFdiv prec emax x y).

(** [a / y], an int by a float: the int is converted first. *)
Definition int_float_truediv (a : Z) (y : float) : result float :=
  x <- float_of_int a ;; float_truediv x y.

(** [x * n], a float by an int: the int is converted first. *)
Definition float_mul_int (x : float) (n : Z) : result float :=
  y <- float_of_int n ;; Ok (SFmul prec emax x y).

(** The integer nearest to [n / d], ties to the even one ([0 <= n], [0 < d]). *)
Definition rne_div (n d : Z) : Z :=
  let q := n / d in
  match 2 * (n mod d) ?= d with
  | Lt => q
  | Eq => if Z.even q then q else q + 1
  | Gt => q + 1
  end.

(** [round(x, ndigits)] for [0 <= ndigits]: the exact value of [x] is rounded
    to [ndigits] decimal places, ties to even, and the decimal obtained is
    converted back to the nearest float.  Zeros, infinities and NaN round to
    themselves.  CPython raises [OverflowError] when the conversion back
    overflows; with [0 <= ndigits] it cannot, a float from [2^53] on being an
    integer and so its own decimal. *)
Definition round (x : float) (ndigits : Z) : float :=
  match x with
  | S754_finite s m e =>
      let p := 10 ^ ndigits in
      let q := if 0 <=? e then Zpos m * 2 ^ e * p
               else rne_div (Zpos m * p) (2 ^ (- e)) in
      match q with
      | Zpos q' =>
          SFdiv prec emax (S754_finite s q' 0) (S754_finite false (Z.to_pos p) 0)
      | _ => S754_zero s
      end
  | _ => x
  end.

(** A number stored in a statistics entry: Python keeps the int [0] of a
    guarded rate apart from a float. *)
Inductive number : Type :=
| Int (z : Z)
| Float (f : float).

(** ** The match record

    The parsed YAML: [data['innings']] is a list of one-key mappings
    [{name: {'team': ..., 'deliveries': [...]}}], and a delivery is a one-key
    mapping [{ball: {...}}].  The keys a delivery may lack are options. *)
Record Runs : Type := {
  runs_batsman : option Z;
  runs_extras : option Z;
  runs_total : option Z
}.

Record Wicket : Type := {
  kind : string;
  player_out : string
}.

Record BallData : Type := {
  batsman : option string;
  bowler : option string;
  non_striker : option string;
  runs : option Runs;
  wicket : option Wicket;
  extras : option (dict Z)
}.

Record Delivery : Type := {
  ball : string;
  ball_data : BallData
}.

Record InningsData : Type := {
  team : string;
  deliveries : list Delivery
}.

Record Innings : Type := {
  inns_name : string;
  inns_data : InningsData
}.

Record MatchRecord : Type := {
  innings : list Innings
}.

(** ** reportdeepseek_v3.py *)
Module reportdeepseek_v3.

Record BattingEntry : Type := {
  bat_runs : Z;
  bat_balls : Z;
  bat_4s : Z;
  bat_6s : Z;
  strike_rate : option number
}.

Record BowlingEntry : Type := {
  bowl_runs : Z;
  bowl_wickets : Z;
  bowl_balls : Z;
  economy : option number;
  overs : option number
}.

Record Stats : Type := {
  batting : dict BattingEntry;
  bowling : dict BowlingEntry;
  team_scores : dict Z
}.

(** The default factories of the three [defaultdict]s. *)
Definition new_batting : BattingEntry :=
  {| bat_runs := 0; bat_balls := 0; bat_4s := 0; bat_6s := 0;
     strike_rate := None |}.

Definition new_bowling : BowlingEntry :=
  {| bowl_runs := 0; bowl_wickets := 0; bowl_balls := 0;
     economy := None; overs := None |}.

Definition new_stats : Stats :=
  {| batting := []; bowling := []; team_scores := [] |}.

Definition add_bat_runs (n : Z) (e : BattingEntry) : BattingEntry :=
  {| bat_runs := bat_runs e + n; bat_balls := bat_balls e;
     bat_4s := bat_4s e; bat_6s := bat_6s e; strike_rate := strike_rate e |}.

Definition add_bat_balls (n : Z) (e : BattingEntry) : BattingEntry :=
  {| bat_runs := bat_runs e; bat_balls := bat_balls e + n;
     bat_4s := bat_4s e; bat_6s := bat_6s e; strike_rate := strike_rate e |}.

Definition add_bat_4s (n : Z) (e : BattingEntry) : BattingEntry :=
  {| bat_runs := bat_runs e; bat_balls := bat_balls e;
     bat_4s := bat_4s e + n; bat_6s := bat_6s e; strike_rate := strike_rate e |}.

Definition add_bat_6s (n : Z) (e : BattingEntry) : BattingEntry :=
  {| bat_runs := bat_runs e; bat_balls := bat_balls e;
     bat_4s := bat_4s e; bat_6s := bat_6s e + n; strike_rate := strike_rate e |}.

Definition set_strike_rate (v : number) (e : BattingEntry) : BattingEntry :=
  {| bat_runs := bat_runs e; bat_balls := bat_balls e;
     bat_4s := bat_4s e; bat_6s := bat_6s e; strike_rate := Some v |}.

Definition add_bowl_runs (n : Z) (e : BowlingEntry) : BowlingEntry :=
  {| bowl_runs := bowl_runs e + n; bowl_wickets := bowl_wickets e;
     bowl_balls := bowl_balls e; economy := economy e; overs := overs e |}.

Definition add_bowl_balls (n : Z) (e : BowlingEntry) : BowlingEntry :=
  {| bowl_runs := bowl_runs e; bowl_wickets := bowl_wickets e;
     bowl_balls := bowl_balls e + n; economy := economy e; overs := overs e |}.

Definition add_bowl_wickets (n : Z) (e : BowlingEntry) : BowlingEntry :=
  {| bowl_runs := bowl_runs e; bowl_wickets := bowl_wickets e + n;
     bowl_balls := bowl_balls e; economy := economy e; overs := overs e |}.

Definition set_economy_overs (ec ov : number) (e : BowlingEntry)
  : BowlingEntry :=
  {| bowl_runs := bowl_runs e; bowl_wickets := bowl_wickets e;
     bowl_balls := bowl_balls e; economy := Some ec; overs := Some ov |}.

(** [update_batting_stats(batting_stats, ball_data)]. *)
Definition update_batting_stats (batting_stats : dict BattingEntry)
  (ball_data : BallData) : result (dict BattingEntry) :=
  batsman <- getitem "batsman" (batsman ball_data) ;;
  rs <- getitem "runs" (runs ball_data) ;;
  runs <- getitem "batsman" (runs_batsman rs) ;;
  let s1 := defaultdict_update new_batting batsman (add_bat_runs runs)
              batting_stats in
  let s2 := defaultdict_update new_batting batsman (add_bat_balls 1) s1 in
  let s3 := if runs =? 4
            then defaultdict_update new_batting batsman (add_bat_4s 1) s2
            else s2 in
  let s4 := if runs =? 6
            then defaultdict_update new_batting batsman (add_bat_6s 1) s3
            else s3 in
  Ok s4.

(** [update_bowling_stats(bowling_stats, ball_data)]. *)
Definition update_bowling_stats (bowling_stats : dict BowlingEntry)
  (ball_data : BallData) : result (dict BowlingEntry) :=
  bowler <- getitem "bowler" (bowler ball_data) ;;
  rs <- getitem "runs" (runs ball_data) ;;
  total <- getitem "total" (runs_total rs) ;;
  let s1 := defaultdict_update new_bowling bowler (add_bowl_runs total)
              bowling_stats in
  let s2 := defaultdict_update new_bowling bowler (add_bowl_balls 1) s1 in
  let s3 := match wicket ball_data with
            | Some _ =>
                defaultdict_update new_bowling bowler (add_bowl_wickets 1) s2
            | None => s2
            end in
  Ok s3.

(** The body of the inner loop of [process_stats]. *)
Definition process_delivery (team : string) (stats : Stats)
  (delivery : Delivery) : result Stats :=
  let ball_data := ball_data delivery in
  batting' <- update_batting_stats (batting stats) ball_data ;;
  bowling' <- update_bowling_stats (bowling stats) ball_data ;;
  rs <- getitem "runs" (runs ball_data) ;;
  total <- getitem "total" (runs_total rs) ;;
  Ok {| batting := batting';
        bowling := bowling';
        team_scores :=
          defaultdict_update 0 team (fun v => v + total) (team_scores stats) |}.

(** The body of the outer loop of [process_stats]. *)
Definition process_innings (stats : Stats) (innings : Innings)
  : result Stats :=
  let inns_data := inns_data innings in
  let team := team inns_data in
  for_each (process_delivery team) (deliveries inns_data) stats.

(** The two comprehensions of [calculate_derived_metrics], on one entry. *)
Definition derive_batting (data : BattingEntry) : result BattingEntry :=
  if 0 <? bat_balls data then
    q <- int_truediv (bat_runs data) (bat_balls data) ;;
    p <- float_mul_int q 100 ;;
    Ok (set_strike_rate (Float (round p 2)) data)
  else Ok (set_strike_rate (Int 0) data).

Definition derive_bowling (data : BowlingEntry) : result BowlingEntry :=
  overs <- int_truediv (bowl_balls data) 6 ;;
  economy <- (if float_gt0 overs then
                q <- int_float_truediv (bowl_runs data) overs ;;
                Ok (Float (round q 2))
              else Ok (Int 0)) ;;
  Ok (set_economy_overs economy (Float (round overs 1)) data).

(** [calculate_derived_metrics(stats)]. *)
Definition calculate_derived_metrics (stats : Stats) : result Stats :=
  batting' <- map_values derive_batting (batting stats) ;;
  bowling' <- map_values derive_bowling (bowling stats) ;;
  Ok {| batting := batting'; bowling := bowling';
        team_scores := team_scores stats |}.

(** [process_stats(data)]. *)
Definition process_stats (data : MatchRecord) : result Stats :=
  stats <- for_each process_innings (innings data) new_stats ;;
  calculate_derived_metrics stats.

End reportdeepseek_v3.

(** ** yamlopenrouteragent.py *)
Module yamlopenrouteragent.

Record BattingEntry : Type := {
  bat_runs : Z;
  bat_balls : Z;
  strike_rate : option number
}.

Record BowlingEntry : Type := {
  bowl_runs : Z;
  bowl_wickets : Z;
  bowl_balls : Z;
  economy : option number
}.

Record Stats : Type := {
  batting : dict BattingEntry;
  bowling : dict BowlingEntry;
  extras_count : dict Z;
  team_scores : dict Z
}.

Definition new_batting : BattingEntry :=
  {| bat_runs := 0; bat_balls := 0; strike_rate := None |}.

Definition new_bowling : BowlingEntry :=
  {| bowl_runs := 0; bowl_wickets := 0; bowl_balls := 0; economy := None |}.

Definition new_stats : Stats :=
  {| batting := []; bowling := []; extras_count := []; team_scores := [] |}.

Definition add_bat_runs (n : Z) (e : BattingEntry) : BattingEntry :=
  {| bat_runs := bat_runs e + n; bat_balls := bat_balls e;
     strike_rate := strike_rate e |}.

Definition add_bat_balls (n : Z) (e : BattingEntry) : BattingEntry :=
  {| bat_runs := bat_runs e; bat_balls := bat_balls e + n;
     strike_rate := strike_rate e |}.

Definition set_strike_rate (v : number) (e : BattingEntry) : BattingEntry :=
  {| bat_runs := bat_runs e; bat_balls := bat_balls e;
     strike_rate := Some v |}.

Definition add_bowl_runs (n : Z) (e : BowlingEntry) : BowlingEntry :=
  {| bowl_runs := bowl_runs e + n; bowl_wickets := bowl_wickets e;
     bowl_balls := bowl_balls e; economy := economy e |}.

Definition add_bowl_balls (n : Z) (e : BowlingEntry) : BowlingEntry :=
  {| bowl_runs := bowl_runs e; bowl_wickets := bowl_wickets e;
     bowl_balls := bowl_balls e + n; economy := economy e |}.

Definition set_economy (v : number) (e : BowlingEntry) : BowlingEntry :=
  {| bowl_runs := bowl_runs e; bowl_wickets := bowl_wickets e;
     bowl_balls := bowl_balls e; economy := Some v |}.

(** The extras block of the loop body: one count per extra type of the
    delivery and one on ['total'] each time. *)
Definition count_extra (extras_count : dict Z) (extra_type : string)
  : dict Z :=
  let s1 := defaultdict_update 0 extra_type (fun v => v + 1) extras_count in
  defaultdict_update 0 "total" (fun v => v + 1) s1.

Definition count_extras (extras_count : dict Z) (ball_data : BallData)
  : dict Z :=
  match extras ball_data with
  | Some ex => fold_left count_extra (keys ex) extras_count
  | None => extras_count
  end.

(** The body of the inner loop of [process_match_data]. *)
Definition process_delivery (team : string) (stats : Stats)
  (delivery : Delivery) : result Stats :=
  let ball_data := ball_data delivery in
  batsman <- getitem "batsman" (batsman ball_data) ;;
  rs <- getitem "runs" (runs ball_data) ;;
  runs_b <- getitem "batsman" (runs_batsman rs) ;;
  let bat1 := defaultdict_update new_batting batsman (add_bat_runs runs_b)
                (batting stats) in
  let bat2 := defaultdict_update new_batting batsman (add_bat_balls 1) bat1 in
  bowler <- getitem "bowler" (bowler ball_data) ;;
  total <- getitem "total" (runs_total rs) ;;
  let bowl1 := defaultdict_update new_bowling bowler (add_bowl_runs total)
                 (bowling stats) in
  let bowl2 := defaultdict_update new_bowling bowler (add_bowl_balls 1) bowl1 in
  let extras' := count_extras (extras_count stats) ball_data in
  Ok {| batting := bat2;
        bowling := bowl2;
        extras_count := extras';
        team_scores :=
          defaultdict_update 0 team (fun v => v + total) (team_scores stats) |}.

(** The body of the outer loop of [process_match_data]. *)
Definition process_innings (stats : Stats) (innings : Innings)
  : result Stats :=
  let inns_data := inns_data innings in
  let team := team inns_data in
  for_each (process_delivery team) (deliveries inns_data) stats.

(** The two loops that follow, on one entry: no guard on [balls]. *)
Definition derive_batting (data : BattingEntry) : result BattingEntry :=
  q <- int_truediv (bat_runs data) (bat_balls data) ;;
  p <- float_mul_int q 100 ;;
  Ok (set_strike_rate (Float (round p 2)) data).

Definition derive_bowling (data : BowlingEntry) : result BowlingEntry :=
  overs <- int_truediv (bowl_balls data) 6 ;;
  q <- int_float_truediv (bowl_runs data) overs ;;
  Ok (set_economy (Float (round q 2)) data).

(** [process_match_data(data)]. *)
Definition process_match_data (data : MatchRecord) : result Stats :=
  stats <- for_each process_innings (innings data) new_stats ;;
  batting' <- map_values derive_batting (batting stats) ;;
  bowling' <- map_values derive_bowling (bowling stats) ;;
  Ok {| batting := batting'; bowling := bowling';
        extras_count := extras_count stats;
        team_scores := team_scores stats |}.

End yamlopenrouteragent.

(** ** Vocabulary of the specification *)

(** The deliveries of a record in the order the loops visit them, each with
    the batting team of its innings. *)
Definition tagged_deliveries (data : MatchRecord) : list (string * Delivery) :=
  flat_map (fun i => map (pair (team (inns_data i))) (deliveries (inns_data i)))
    (innings data).

Definition all_deliveries (data : MatchRecord) : list Delivery :=
  flat_map (fun i => deliveries (inns_data i)) (innings data).

(** The first key whose lookup fails on a delivery, in the order the loop body
    reads them: ['batsman'], ['runs'], ['runs']['batsman'], ['bowler'],
    ['runs']['total']. *)
Definition missing_key (bd : BallData) : option string :=
  match batsman bd with
  | None => Some "batsman"
  | Some _ =>
      match runs bd with
      | None => Some "runs"
      | Some rs =>
          match runs_batsman rs with
          | None => Some "batsman"
          | Some _ =>
              match bowler bd with
              | None => Some "bowler"
              | Some _ =>
                  match runs_total rs with
                  | None => Some "total"
                  | Some _ => None
                  end
              end
          end
      end
  end.

Fixpoint first_missing (ds : list Delivery) : option string :=
  match ds with
  | [] => None
  | d :: ds' =>
      match missing_key (ball_data d) with
      | Some k => Some k
      | None => first_missing ds'
      end
  end.

(** A delivery lacks a required field: batsman id, bowler id, the runs
    breakdown, or one of its two totals. *)
Definition lacks_required_field (bd : BallData) : Prop :=
  batsman bd = None \/ bowler bd = None \/
  match runs bd with
  | None => True
  | Some rs => runs_batsman rs = None \/ runs_total rs = None
  end.

Definition required_keys : list string := ["batsman"; "bowler"; "runs"; "total"].

(** The fields of a delivery, with a default where the key is absent. *)
Definition batsman_of (bd : BallData) : string :=
  match batsman bd with Some b => b | None => "" end.

Definition bowler_of (bd : BallData) : string :=
  match bowler bd with Some b => b | None => "" end.

Definition batsman_runs_of (bd : BallData) : Z :=
  match runs bd with
  | Some rs => match runs_batsman rs with Some r => r | None => 0 end
  | None => 0
  end.

Definition total_runs_of (bd : BallData) : Z :=
  match runs bd with
  | Some rs => match runs_total rs with Some t => t | None => 0 end
  | None => 0
  end.

Definition has_wicket (bd : BallData) : bool :=
  match wicket bd with Some _ => true | None => false end.

Definition extra_types_of (bd : BallData) : list string :=
  match extras bd with Some ex => keys ex | None => [] end.

(** The sum of the total-runs field over every delivery of every innings. *)
Definition total_runs_sum (data : MatchRecord) : Z :=
  sum (map (fun d => total_runs_of (ball_data d)) (all_deliveries data)).

(** Ints beyond the binary64 range cannot take part in a true division.  The
    magnitude of a record bounds every count and every sum of runs the
    aggregation forms. *)
Definition float_range : Z := 2 ^ 1023.

Definition delivery_magnitude (bd : BallData) : Z :=
  1 + Z.abs (batsman_runs_of bd) + Z.abs (total_runs_of bd).

Definition magnitude (data : MatchRecord) : Z :=
  sum (map (fun d => delivery_magnitude (ball_data d)) (all_deliveries data)).

(** A record the aggregators accept: every delivery has its required fields
    and the numbers stay within the range of a float. *)
Definition well_formed (data : MatchRecord) : Prop :=
  Forall (fun d => missing_key (ball_data d) = None) (all_deliveries data) /\
  magnitude data < float_range.

Definition is_finite (f : float) : bool :=
  match f with
  | S754_zero _ | S754_finite _ _ _ => true
  | _ => false
  end.

(** The rates as the specification words them. *)
Definition spec_strike_rate (runs balls : Z) : result number :=
  if 0 <? balls then
    q <- int_truediv runs balls ;;
    p <- float_mul_int q 100 ;;
    Ok (Float (round p 2))
  else Ok (Int 0).

Definition spec_economy (runs balls : Z) : result number :=
  if 0 <? balls then
    o <- int_truediv balls 6 ;;
    q <- int_float_truediv runs o ;;
    Ok (Float (round q 2))
  else Ok (Int 0).

Definition spec_overs (balls : Z) : result number :=
  o <- int_truediv balls 6 ;; Ok (Float (round o 1)).

(** The floats 1.0 and 6.0: [2^52 * 2^-52] and [1.5 * 2^52 * 2^-50]. *)
Definition float_1_0 : float := S754_finite false 4503599627370496 (-52).
Definition float_6_0 : float := S754_finite false 6755399441055744 (-50).

(** The floats 400.0, 24.0 and 0.2 of Scenario A. *)
Definition float_400_0 : float := S754_finite false 7036874417766400 (-44).
Definition float_24_0 : float := S754_finite false 6755399441055744 (-48).
Definition float_0_2 : float := S754_finite false 7205759403792794 (-55).

(** ** Net effect of one delivery *)

Definition v3_bat_step (r : Z) (e : reportdeepseek_v3.BattingEntry)
  : reportdeepseek_v3.BattingEntry :=
  {| reportdeepseek_v3.bat_runs := reportdeepseek_v3.bat_runs e + r;
     reportdeepseek_v3.bat_balls := reportdeepseek_v3.bat_balls e + 1;
     reportdeepseek_v3.bat_4s :=
       reportdeepseek_v3.bat_4s e + (if r =? 4 then 1 else 0);
     reportdeepseek_v3.bat_6s :=
       reportdeepseek_v3.bat_6s e + (if r =? 6 then 1 else 0);
     reportdeepseek_v3.strike_rate := reportdeepseek_v3.strike_rate e |}.

Definition v3_bowl_step (t : Z) (w : bool) (e : reportdeepseek_v3.BowlingEntry)
  : reportdeepseek_v3.BowlingEntry :=
  {| reportdeepseek_v3.bowl_runs := reportdeepseek_v3.bowl_runs e + t;
     reportdeepseek_v3.bowl_wickets :=
       reportdeepseek_v3.bowl_wickets e + (if w then 1 else 0);
     reportdeepseek_v3.bowl_balls := reportdeepseek_v3.bowl_balls e + 1;
     reportdeepseek_v3.economy := reportdeepseek_v3.economy e;
     reportdeepseek_v3.overs := reportdeepseek_v3.overs e |}.

Definition v3_apply (s : reportdeepseek_v3.Stats) (td : string * Delivery)
  : reportdeepseek_v3.Stats :=
  let bd := ball_data (snd td) in
  {| reportdeepseek_v3.batting :=
       defaultdict_update reportdeepseek_v3.new_batting (batsman_of bd)
         (v3_bat_step (batsman_runs_of bd)) (reportdeepseek_v3.batting s);
     reportdeepseek_v3.bowling :=
       defaultdict_update reportdeepseek_v3.new_bowling (bowler_of bd)
         (v3_bowl_step (total_runs_of bd) (has_wicket bd))
         (reportdeepseek_v3.bowling s);
     reportdeepseek_v3.team_scores :=
       defaultdict_update 0 (fst td) (fun v => v + total_runs_of bd)
         (reportdeepseek_v3.team_scores s) |}.

Definition yaml_bat_step (r : Z) (e : yamlopenrouteragent.BattingEntry)
  : yamlopenrouteragent.BattingEntry :=
  {| yamlopenrouteragent.bat_runs := yamlopenrouteragent.bat_runs e + r;
     yamlopenrouteragent.bat_balls := yamlopenrouteragent.bat_balls e + 1;
     yamlopenrouteragent.strike_rate := yamlopenrouteragent.strike_rate e |}.

Definition yaml_bowl_step (t : Z) (e : yamlopenrouteragent.BowlingEntry)
  : yamlopenrouteragent.BowlingEntry :=
  {| yamlopenrouteragent.bowl_runs := yamlopenrouteragent.bowl_runs e + t;
     yamlopenrouteragent.bowl_wickets := yamlopenrouteragent.bowl_wickets e;
     yamlopenrouteragent.bowl_balls := yamlopenrouteragent.bowl_balls e + 1;
     yamlopenrouteragent.economy := yamlopenrouteragent.economy e |}.

Definition yaml_apply (s : yamlopenrouteragent.Stats) (td : string * Delivery)
  : yamlopenrouteragent.Stats :=
  let bd := ball_data (snd td) in
  {| yamlopenrouteragent.batting :=
       defaultdict_update yamlopenrouteragent.new_batting (batsman_of bd)
         (yaml_bat_step (batsman_runs_of bd)) (yamlopenrouteragent.batting s);
     yamlopenrouteragent.bowling :=
       defaultdict_update yamlopenrouteragent.new_bowling (bowler_of bd)
         (yaml_bowl_step (total_runs_of bd)) (yamlopenrouteragent.bowling s);
     yamlopenrouteragent.extras_count :=
       yamlopenrouteragent.count_extras (yamlopenrouteragent.extras_count s) bd;
     yamlopenrouteragent.team_scores :=
       defaultdict_update 0 (fst td) (fun v => v + total_runs_of bd)
         (yamlopenrouteragent.team_scores s) |}.

(** What the second aggregator keeps of an entry of the first. *)
Definition yaml_of_batting (e : reportdeepseek_v3.BattingEntry)
  : yamlopenrouteragent.BattingEntry :=
  {| yamlopenrouteragent.bat_runs := reportdeepseek_v3.bat_runs e;
     yamlopenrouteragent.bat_balls := reportdeepseek_v3.bat_balls e;
     yamlopenrouteragent.strike_rate := reportdeepseek_v3.strike_rate e |}.

Definition yaml_of_bowling (e : reportdeepseek_v3.BowlingEntry)
  : yamlopenrouteragent.BowlingEntry :=
  {| yamlopenrouteragent.bowl_runs := reportdeepseek_v3.bowl_runs e;
     yamlopenrouteragent.bowl_wickets := 0;
     yamlopenrouteragent.bowl_balls := reportdeepseek_v3.bowl_balls e;
     yamlopenrouteragent.economy := reportdeepseek_v3.economy e |}.

Definition map_dict {V W : Type} (f : V -> W) (d : dict V) : dict W :=
  map (fun kv => (fst kv, f (snd kv))) d.

(** ** Invariants of the loops

    Every entry was created by a delivery, so it has at least one ball, and
    its numbers are bounded by the magnitude of the deliveries seen so far. *)
Definition batting_bounded (w : Z) (e : reportdeepseek_v3.BattingEntry) : Prop :=
  1 <= reportdeepseek_v3.bat_balls e /\
  Z.abs (reportdeepseek_v3.bat_runs e) + reportdeepseek_v3.bat_balls e <= w.

Definition bowling_bounded (w : Z) (e : reportdeepseek_v3.BowlingEntry) : Prop :=
  1 <= reportdeepseek_v3.bowl_balls e /\
  Z.abs (reportdeepseek_v3.bowl_runs e) + reportdeepseek_v3.bowl_balls e <= w.

Definition stats_bounded (w : Z) (s : reportdeepseek_v3.Stats) : Prop :=
  Forall (batting_bounded w) (values (reportdeepseek_v3.batting s)) /\
  Forall (bowling_bounded w) (values (reportdeepseek_v3.bowling s)).

(** The state of the first aggregator after its loops, and the extras the
    second one has counted by then. *)
Definition v3_loop (data : MatchRecord) : reportdeepseek_v3.Stats :=
  fold_left v3_apply (tagged_deliveries data) reportdeepseek_v3.new_stats.

Definition yaml_loop (data : MatchRecord) : yamlopenrouteragent.Stats :=
  fold_left yaml_apply (tagged_deliveries data) yamlopenrouteragent.new_stats.

(** The snapshot of the second aggregator that corresponds to one of the
    first: the fours, sixes and overs are dropped and no wicket is counted. *)
Definition yaml_of_stats (ex : dict Z) (s : reportdeepseek_v3.Stats)
  : yamlopenrouteragent.Stats :=
  {| yamlopenrouteragent.batting :=
       map_dict yaml_of_batting (reportdeepseek_v3.batting s);
     yamlopenrouteragent.bowling :=
       map_dict yaml_of_bowling (reportdeepseek_v3.bowling s);
     yamlopenrouteragent.extras_count := ex;
     yamlopenrouteragent.team_scores := reportdeepseek_v3.team_scores s |}.

(** ** Statements of the specification that name an error class *)

(** The call raises an exception of class [cls]. *)
Definition raises_class {A : Type} (cls : string) (o : result A) : Prop :=
  exists e, o = Raise e /\ exn_class e = cls.

(** An over as Scenario D describes it: six deliveries, all bowled by B1, one
    total run each, a wicket on the fourth and on no other. *)
Definition scenario_D_over (ds : list Delivery) : Prop :=
  Forall (fun d => bowler (ball_data d) = Some "B1" /\
                   total_runs_of (ball_data d) = 1) ds /\
  map (fun d => has_wicket (ball_data d)) ds =
    [false; false; false; true; false; false].

(** How often [k] occurs in [l]. *)
Definition occurrences (k : string) (l : list string) : Z :=
  Z.of_nat (count_occ string_dec l k).

(** ** Sample records *)

Definition mk_ball (label bat bowl : string) (rb rt : Z) (w : option Wicket)
  (ex : option (dict Z)) : Delivery :=
  {| ball := label;
     ball_data :=
       {| batsman := Some bat; bowler := Some bowl; non_striker := None;
          runs := Some {| runs_batsman := Some rb; runs_extras := Some (rt - rb);
                          runs_total := Some rt |};
          wicket := w; extras := ex |} |}.

Definition one_innings (t : string) (ds : list Delivery) : MatchRecord :=
  {| innings := [ {| inns_name := "1st innings";
                     inns_data := {| team := t; deliveries := ds |} |} ] |}.

Definition bowled : Wicket := {| kind := "bowled"; player_out := "P1" |}.

(** Scenario A: one delivery, a four. *)
Definition scenario_A : MatchRecord :=
  one_innings "T1" [ mk_ball "0.1" "P1" "B1" 4 4 None None ].

(** Scenario B: no innings. *)
Definition scenario_B : MatchRecord := {| innings := [] |}.

(** Scenario C: the second delivery has no ['bowler'] key. *)
Definition no_bowler : Delivery :=
  {| ball := "0.2";
     ball_data :=
       {| batsman := Some "P1"; bowler := None; non_striker := None;
          runs := Some {| runs_batsman := Some 1; runs_extras := Some 0;
                          runs_total := Some 1 |};
          wicket := None; extras := None |} |}.

Definition scenario_C : MatchRecord :=
  one_innings "T1" [ mk_ball "0.1" "P1" "B1" 4 4 None None; no_bowler ].

(** Scenario D: an over of singles by B1, a wicket on the fourth ball. *)
Definition leg_bye_and_out : Delivery :=
  mk_ball "0.4" "P1" "B1" 0 1 (Some bowled) (Some [("legbyes", 1)]).

Definition scenario_D_deliveries : list Delivery :=
  [ mk_ball "0.1" "P1" "B1" 1 1 None None;
    mk_ball "0.2" "P2" "B1" 1 1 None None;
    mk_ball "0.3" "P1" "B1" 1 1 None None;
    leg_bye_and_out;
    mk_ball "0.5" "P3" "B1" 1 1 None None;
    mk_ball "0.6" "P2" "B1" 1 1 None None ].

Definition scenario_D : MatchRecord := one_innings "T1" scenario_D_deliveries.

(** One delivery on which a wicket falls. *)
Definition one_wicket : MatchRecord :=
  one_innings "T1" [ mk_ball "0.1" "P1" "B1" 0 0 (Some bowled) None ].

(** Four bowlers, one ball each; only the fourth takes a wicket. *)
Definition four_bowlers : MatchRecord :=
  one_innings "T1"
    [ mk_ball "0.1" "P1" "B1" 1 1 None None;
      mk_ball "1.1" "P1" "B2" 0 0 None None;
      mk_ball "2.1" "P1" "B3" 4 4 None None;
      mk_ball "3.1" "P1" "B4" 0 0 (Some bowled) None ].

(** Scenario D bowled in the opposite order. *)
Definition scenario_D_reversed : MatchRecord :=
  one_innings "T1" (rev scenario_D_deliveries).

(** A two-line analysis without markup, and a line in bold. *)
Definition plain_analysis : string :=
  "Good match." ++ String (Ascii.ascii_of_nat 10) "Team A won.".

Definition bold_line : string := "**Key** moments: **two**".

(** ** Whole-match views of a record *)

(** The deliveries a batsman faced, a bowler bowled, a team batted. *)
Definition faced_by (name : string) (d : Delivery) : bool :=
  String.eqb (batsman_of (ball_data d)) name.

Definition bowled_by (name : string) (d : Delivery) : bool :=
  String.eqb (bowler_of (ball_data d)) name.

Definition batted_by (name : string) (td : string * Delivery) : bool :=
  String.eqb (fst td) name.

Definition count_if {A : Type} (p : A -> bool) (l : list A) : Z :=
  Z.of_nat (List.length (filter p l)).

(** The names of a list in the order of their first occurrence. *)
Fixpoint first_seen (l : list string) : list string :=
  match l with
  | [] => []
  | k :: l' => k :: filter (fun x => negb (String.eqb x k)) (first_seen l')
  end.

(** Every extra type of every delivery, one item per delivery that has it. *)
Definition all_extra_types (data : MatchRecord) : list string :=
  flat_map (fun d => extra_types_of (ball_data d)) (all_deliveries data).

(** [x >= 0] on a float: false on NaN and on the negative numbers. *)
Definition float_ge0 (x : float) : bool := SFleb (S754_zero false) x.

(** The number stored as a rate is not negative. *)
Definition rate_ge0 (v : option number) : Prop :=
  match v with
  | Some (Int z) => 0 <= z
  | Some (Float f) => float_ge0 f = true
  | None => False
  end.

(** No delivery of the record has a negative run value. *)
Definition runs_nonnegative (data : MatchRecord) : Prop :=
  Forall (fun d => 0 <= batsman_runs_of (ball_data d) /\
                   0 <= total_runs_of (ball_data d)) (all_deliveries data).

(** ** The leaders of generate_match_report (yamlopenrouteragent.py)

    [sorted(items, key=..., reverse=True)] is a stable sort into descending
    order of the key: items of equal key keep their order. *)
Fixpoint insert_desc {A : Type} (key : A -> Z) (x : A) (l : list A) : list A :=
  match l with
  | [] => [x]
  | y :: l' => if key x <? key y then y :: insert_desc key x l'
               else x :: y :: l'
  end.

Definition sorted_reverse {A : Type} (key : A -> Z) (l : list A) : list A :=
  fold_right (insert_desc key) [] l.

(** The ['batting_leaders'] and ['bowling_leaders'] entries of the summary:
    [sorted(stats['batting'].items(), key=lambda x: x[1]['runs'],
    reverse=True)[:3]] and the same on ['bowling'] by ['wickets']. *)
Definition batting_leaders (stats : yamlopenrouteragent.Stats)
  : list (string * yamlopenrouteragent.BattingEntry) :=
  firstn 3
    (sorted_reverse (fun x => yamlopenrouteragent.bat_runs (snd x))
       (yamlopenrouteragent.batting stats)).

Definition bowling_leaders (stats : yamlopenrouteragent.Stats)
  : list (string * yamlopenrouteragent.BowlingEntry) :=
  firstn 3
    (sorted_reverse (fun x => yamlopenrouteragent.bowl_wickets (snd x))
       (yamlopenrouteragent.bowling stats)).

(** ** create_analysis_section (reportdeepseek_v3.py) *)

(** The newline character and [s.split('\n')]: one piece more than there are
    newlines, the empty string giving one empty piece. *)
Definition newline : Ascii.ascii := Ascii.ascii_of_nat 10.

Fixpoint split_lines (s : string) : list string :=
  match s with
  | EmptyString => [EmptyString]
  | String c s' =>
      if Ascii.eqb c newline then EmptyString :: split_lines s'
      else match split_lines s' with
           | l :: ls => String c l :: ls
           | [] => [String c EmptyString]
           end
  end.

(** ['\n'.join(lines)]. *)
Fixpoint join_lines (lines : list string) : string :=
  match lines with
  | [] => EmptyString
  | [l] => l
  | l :: ls => l ++ String newline (join_lines ls)
  end.

(** [line[n:]]. *)
Fixpoint drop_chars (n : nat) (s : string) : string :=
  match n, s with
  | O, _ => s
  | S n', String _ s' => drop_chars n' s'
  | S _, EmptyString => EmptyString
  end.

(** The character [*]. *)
Definition star : Ascii.ascii := Ascii.ascii_of_nat 42.

(** [line.replace('**', '')]: every occurrence of two stars is removed,
    scanning from the left without overlap. *)
Fixpoint remove_bold (s : string) : string :=
  match s with
  | EmptyString => EmptyString
  | String c s' =>
      match s' with
      | String c' s'' =>
          if Ascii.eqb c star && Ascii.eqb c' star then remove_bold s''
          else String c (remove_bold s')
      | EmptyString => String c EmptyString
      end
  end.

(** Whether two stars occur side by side in [s]. *)
Fixpoint has_bold (s : string) : bool :=
  match s with
  | EmptyString => false
  | String c s' =>
      match s' with
      | String c' _ =>
          (Ascii.eqb c star && Ascii.eqb c' star) || has_bold s'
      | EmptyString => false
      end
  end.

(** The elements of the report are reportlab's flowables.  [Paragraph(text,
    style)] belongs to the library: it parses the markup of [text] when it is
    built, raises on markup it cannot parse, and keeps the text in a form of
    its own.  It is therefore a parameter of the functions below, from the
    text and the name of the style to an exception of the library ([E]) or a
    paragraph of the library ([P]).  A [Spacer] and a [PageBreak] only store
    their arguments. *)
Inductive flowable (P : Type) : Type :=
| Para (p : P)
| Spacer (width : Z) (height : float)
| PageBreak.

Arguments Para {P} p.
Arguments Spacer {P} width height.
Arguments PageBreak {P}.

(** The float literals 0.1 and 0.05. *)
Definition float_0_1 : float := S754_finite false 7205759403792794 (-56).
Definition float_0_05 : float := S754_finite false 7205759403792794 (-57).

(** The call of [Paragraph] in the body of the loop over the lines. *)
Definition line_paragraph {E P : Type} (Paragraph : string -> string -> E + P)
  (line : string) : E + P :=
  if String.prefix "## " line
  then Paragraph (drop_chars 3 line) "Header2"
  else if String.prefix "**" line
       then Paragraph (remove_bold line) "Header2"
       else Paragraph line "Analysis".

(** The body of the loop over the lines: two [append]s, the second one not
    reached when [Paragraph] raises. *)
Definition analysis_line {E P : Type} (Paragraph : string -> string -> E + P)
  (inch : float) (line : string) (section : list (flowable P))
  : E + list (flowable P) :=
  match line_paragraph Paragraph line with
  | inl e => inl e
  | inr p =>
      inr (section ++ [Para p; Spacer 1 (SFmul prec emax float_0_05 inch)])%list
  end.

(** The loop over the lines. *)
Fixpoint analysis_loop {E P : Type} (Paragraph : string -> string -> E + P)
  (inch : float) (lines : list string) (section : list (flowable P))
  : E + list (flowable P) :=
  match lines with
  | [] => inr section
  | line :: rest =>
      match analysis_line Paragraph inch line section with
      | inl e => inl e
      | inr section' => analysis_loop Paragraph inch rest section'
      end
  end.

(** [create_analysis_section(analysis)]; [inch] is reportlab's unit. *)
Definition create_analysis_section {E P : Type}
  (Paragraph : string -> string -> E + P) (inch : float) (analysis : string)
  : E + list (flowable P) :=
  match Paragraph "Expert Analysis" "Header1" with
  | inl e => inl e
  | inr heading =>
      match analysis_loop Paragraph inch (split_lines analysis)
              [Para heading; Spacer 1 (SFmul prec emax float_0_1 inch)] with
      | inl e => inl e
      | inr section => inr (section ++ [PageBreak])%list
      end
  end.

(** The paragraphs of a section, in order. *)
Definition paragraphs {P : Type} (section : list (flowable P)) : list P :=
  flat_map (fun f => match f with Para p => [p] | _ => [] end) section.

(** What the loop appends for the paragraphs [ps]. *)
Definition line_elements {P : Type} (inch : float) (ps : list P)
  : list (flowable P) :=
  flat_map (fun p => [Para p; Spacer 1 (SFmul prec emax float_0_05 inch)]) ps.

(** A stand-in for the library's constructor in the examples: it refuses a
    text that opens with a tag and keeps any other text with the name of its
    style. *)
Definition sample_Paragraph (text style : string) : string + string * string :=
  if String.prefix "<" text then inl "ValueError" else inr (text, style).

(** Two lines, the second of which the stand-in refuses. *)
Definition tagged_analysis : string :=
  "Good match." ++ String newline "<b>unclosed".

(** ** The callers

    [analyze_match(file_path)] of reportdeepseek_v3.py.  Opening and parsing
    the file and the request to the text-generation service are outside the
    repository: [loaded] is the parsed record, [None] when opening or parsing
    raised, and [get_ai_analysis] is the function called on it.  The blanket
    [except] turns every exception into the same pair. *)
Definition analyze_match (loaded : option MatchRecord)
  (get_ai_analysis : MatchRecord -> result string)
  : option reportdeepseek_v3.Stats * string :=
  let failed := (None, "Analysis unavailable due to an error.") in
  match loaded with
  | None => failed
  | Some data =>
      match reportdeepseek_v3.process_stats data with
      | Raise _ => failed
      | Ok stats =>
          match get_ai_analysis data with
          | Raise _ => failed
          | Ok analysis => (Some stats, analysis)
          end
      end
  end.

(** [analyze_cricket_match(file_path)] of yamlopenrouteragent.py, with
    [generate_match_report] and Python's [str] on exceptions as parameters;
    [loaded] carries the exception that opening or parsing raised. *)
Definition analyze_cricket_match (str_of_exn : exn -> string)
  (loaded : result MatchRecord)
  (generate_match_report :
     MatchRecord -> yamlopenrouteragent.Stats -> result string) : string :=
  match (data <- loaded ;;
         match_stats <- yamlopenrouteragent.process_match_data data ;;
         generate_match_report data match_stats) with
  | Ok report => report
  | Raise e => "Error: " ++ str_of_exn e
  end.

(** * Facts *)

(** ** Binary64 rounding

    What the aggregation needs of the arithmetic: a quotient of ints within
    range is a finite float, and a positive quotient that is not too small
    is a positive float. *)

Lemma digits2_pos_log2 (p : positive) :
  Zpos (digits2_pos p) = Z.log2 (Zpos p) + 1.
Proof.
  induction p as [p IH | p IH |]; simpl digits2_pos.
  - rewrite Pos2Z.inj_succ, IH.
    change (Zpos p~1) with (2 * Zpos p + 1).
    rewrite Z.log2_succ_double by lia. lia.
  - rewrite Pos2Z.inj_succ, IH.
    change (Zpos p~0) with (2 * Zpos p).
    rewrite Z.log2_double by lia. lia.
  - reflexivity.
Qed.

Lemma Zdigits2_bounds (m : Z) :
  0 < m -> 0 < Zdigits2 m /\ 2 ^ (Zdigits2 m - 1) <= m < 2 ^ Zdigits2 m.
Proof.
  intros Hm. destruct m as [| p | p]; try lia.
  unfold Zdigits2. rewrite digits2_pos_log2.
  pose proof (Z.log2_nonneg (Zpos p)).
  pose proof (Z.log2_spec (Zpos p) Hm).
  replace (Z.log2 (Zpos p) + 1 - 1) with (Z.log2 (Zpos p)) by lia.
  replace (Z.log2 (Zpos p) + 1) with (Z.succ (Z.log2 (Zpos p))) by lia.
  lia.
Qed.

Lemma Zdigits2_nonneg (m : Z) : 0 <= Zdigits2 m.
Proof. destruct m; simpl; lia. Qed.

Lemma Zdigits2_le (m k : Z) : 0 <= m -> 0 <= k -> m < 2 ^ k -> Zdigits2 m <= k.
Proof.
  intros Hm Hk Hlt.
  destruct (Z.eq_dec m 0) as [-> | Hne]; [simpl; lia |].
  destruct (Zdigits2_bounds m ltac:(lia)) as [Hd [Hlo _]].
  destruct (Z_lt_le_dec k (Zdigits2 m)) as [Hc | Hc]; [| lia].
  exfalso.
  assert (2 ^ k <= 2 ^ (Zdigits2 m - 1)) by (apply Z.pow_le_mono_r; lia).
  lia.
Qed.

Lemma Zdigits2_gt (m k : Z) : 0 <= k -> 2 ^ k <= m -> k < Zdigits2 m.
Proof.
  intros Hk Hle.
  assert (Hm : 0 < m) by (pose proof (Z.pow_pos_nonneg 2 k); lia).
  destruct (Zdigits2_bounds m Hm) as [Hd [_ Hhi]].
  destruct (Z_lt_le_dec k (Zdigits2 m)) as [Hc | Hc]; [lia |].
  exfalso.
  assert (2 ^ Zdigits2 m <= 2 ^ k) by (apply Z.pow_le_mono_r; lia).
  lia.
Qed.

Lemma Zdigits2_mono (m m' : Z) : 0 <= m <= m' -> Zdigits2 m <= Zdigits2 m'.
Proof.
  intros [Hm Hle].
  destruct (Z.eq_dec m 0) as [-> | Hne]; [apply Zdigits2_nonneg |].
  destruct (Zdigits2_bounds m ltac:(lia)) as [Hd [Hlo _]].
  pose proof (Zdigits2_gt m' (Zdigits2 m - 1) ltac:(lia) ltac:(lia)). lia.
Qed.

Lemma shr_1_m (mrs : shr_record) :
  0 <= shr_m mrs -> shr_m (shr_1 mrs) = shr_m mrs / 2.
Proof.
  destruct mrs as [m r s]. simpl. intros Hm.
  destruct m as [| p | p]; [reflexivity | | lia].
  destruct p as [p | p |]; simpl.
  - apply Z.div_unique with (r := 1); lia.
  - apply Z.div_unique with (r := 0); lia.
  - reflexivity.
Qed.

Lemma iter_pos_shr_1_m (n : positive) (mrs : shr_record) :
  0 <= shr_m mrs ->
  shr_m (iter_pos shr_1 n mrs) = shr_m mrs / 2 ^ Zpos n.
Proof.
  revert mrs. induction n as [n IH | n IH |]; intros mrs Hm; simpl iter_pos.
  - assert (H1 : 0 <= shr_m (shr_1 mrs)) by (rewrite shr_1_m by lia; apply Z.div_pos; lia).
    assert (H2 : 0 <= shr_m (iter_pos shr_1 n (shr_1 mrs)))
      by (rewrite IH by lia; apply Z.div_pos; [lia | apply Z.pow_pos_nonneg; lia]).
    rewrite IH, IH, shr_1_m by lia.
    assert (0 < 2 ^ Zpos n) by (apply Z.pow_pos_nonneg; lia).
    rewrite !Z.div_div by lia.
    f_equal. rewrite (Pos2Z.inj_xI n).
    replace (2 * Zpos n + 1) with (1 + Zpos n + Zpos n) by lia.
    rewrite Z.pow_add_r, Z.pow_add_r; lia.
  - assert (H2 : 0 <= shr_m (iter_pos shr_1 n mrs))
      by (rewrite IH by lia; apply Z.div_pos; [lia | apply Z.pow_pos_nonneg; lia]).
    rewrite IH, IH by lia.
    assert (0 < 2 ^ Zpos n) by (apply Z.pow_pos_nonneg; lia).
    rewrite !Z.div_div by lia.
    f_equal. rewrite (Pos2Z.inj_xO n).
    replace (2 * Zpos n) with (Zpos n + Zpos n) by lia.
    rewrite Z.pow_add_r; lia.
  - rewrite shr_1_m by lia. reflexivity.
Qed.

Lemma shr_spec (mrs mrs' : shr_record) (e n e' : Z) :
  0 <= shr_m mrs ->
  shr mrs e n = (mrs', e') ->
  shr_m mrs' = shr_m mrs / 2 ^ Z.max 0 n /\ e' = e + Z.max 0 n.
Proof.
  intros Hm Hs. unfold shr in Hs.
  destruct n as [| p | p]; inversion Hs; subst; clear Hs.
  - simpl. rewrite Z.div_1_r. lia.
  - rewrite iter_pos_shr_1_m by lia.
    replace (Z.max 0 (Zpos p)) with (Zpos p) by lia. lia.
  - replace (Z.max 0 (Zneg p)) with 0 by lia. simpl. rewrite Z.div_1_r. lia.
Qed.

Lemma shr_m_record_of_loc (m : Z) (l : location) :
  shr_m (shr_record_of_loc m l) = m.
Proof. destruct l as [| []]; reflexivity. Qed.

Lemma shr_fexp_spec (m e : Z) (l : location) (mrs : shr_record) (e' : Z) :
  0 <= m ->
  shr_fexp prec emax m e l = (mrs, e') ->
  let k := Z.max 0 (fexp prec emax (Zdigits2 m + e) - e) in
  shr_m mrs = m / 2 ^ k /\ e' = e + k.
Proof.
  intros Hm Hs k. unfold shr_fexp in Hs.
  apply shr_spec in Hs; rewrite shr_m_record_of_loc in *; auto.
Qed.

Lemma round_nearest_even_bounds (m : Z) (l : location) :
  m <= round_nearest_even m l <= m + 1.
Proof.
  unfold round_nearest_even.
  destruct l as [| []]; try destruct (Z.even m); lia.
Qed.

Lemma div_pow2_digits_upper (m k : Z) :
  0 <= m -> 0 <= k -> Zdigits2 (m / 2 ^ k) <= Z.max 0 (Zdigits2 m - k).
Proof.
  intros Hm Hk.
  assert (Hp : 0 < 2 ^ k) by (apply Z.pow_pos_nonneg; lia).
  destruct (Z.eq_dec m 0) as [-> | Hne].
  { rewrite Z.div_0_l by lia. simpl. lia. }
  destruct (Zdigits2_bounds m ltac:(lia)) as [Hd [Hlo Hhi]].
  destruct (Z_lt_le_dec (Zdigits2 m) k) as [Hc | Hc].
  - rewrite Z.div_small; [simpl; lia |].
    split; [lia |].
    assert (2 ^ Zdigits2 m <= 2 ^ k) by (apply Z.pow_le_mono_r; lia). lia.
  - apply Zdigits2_le; [apply Z.div_pos; lia | lia |].
    apply Z.div_lt_upper_bound; [lia |].
    replace (Z.max 0 (Zdigits2 m - k)) with (Zdigits2 m - k) by lia.
    rewrite <- Z.pow_add_r by lia.
    replace (k + (Zdigits2 m - k)) with (Zdigits2 m) by lia. lia.
Qed.

Lemma div_pow2_digits_lower (m k : Z) :
  0 < m -> 0 <= k < Zdigits2 m ->
  0 < m / 2 ^ k /\ Zdigits2 m - k <= Zdigits2 (m / 2 ^ k).
Proof.
  intros Hm Hk.
  assert (Hp : 0 < 2 ^ k) by (apply Z.pow_pos_nonneg; lia).
  destruct (Zdigits2_bounds m Hm) as [Hd [Hlo Hhi]].
  assert (Hq : 2 ^ (Zdigits2 m - 1 - k) <= m / 2 ^ k).
  { apply Z.div_le_lower_bound; [lia |].
    rewrite <- Z.pow_add_r by lia.
    replace (k + (Zdigits2 m - 1 - k)) with (Zdigits2 m - 1) by lia. lia. }
  assert (0 < 2 ^ (Zdigits2 m - 1 - k)) by (apply Z.pow_pos_nonneg; lia).
  split; [lia |].
  pose proof (Zdigits2_gt (m / 2 ^ k) (Zdigits2 m - 1 - k) ltac:(lia) Hq). lia.
Qed.

Lemma binary_round_aux_spec (sx : bool) (mx ex : Z) (lx : location) :
  0 <= mx ->
  exists m3 e2,
    0 <= m3 /\
    binary_round_aux prec emax sx mx ex lx =
      match m3 with
      | Z0 => S754_zero sx
      | Zpos m => if e2 <=? emax - prec then S754_finite sx m e2
                  else S754_infinity sx
      | Zneg _ => S754_nan
      end /\
    (ex <= 971 -> Zdigits2 mx + ex <= 1023 -> e2 <= 971) /\
    (0 < mx -> -1074 < Zdigits2 mx + ex -> 0 < m3).
Proof.
  intros Hmx. unfold binary_round_aux.
  destruct (shr_fexp prec emax mx ex lx) as [mrs1 e1] eqn:H1.
  apply shr_fexp_spec in H1; [| lia]. destruct H1 as [Hm1 He1].
  set (k1 := Z.max 0 (fexp prec emax (Zdigits2 mx + ex) - ex)) in *.
  set (m2 := round_nearest_even (shr_m mrs1) (loc_of_shr_record mrs1)).
  assert (Hk1 : 0 <= k1) by (unfold k1; lia).
  assert (Hp1 : 0 < 2 ^ k1) by (apply Z.pow_pos_nonneg; lia).
  assert (Hm1n : 0 <= shr_m mrs1) by (rewrite Hm1; apply Z.div_pos; lia).
  pose proof (round_nearest_even_bounds (shr_m mrs1) (loc_of_shr_record mrs1)) as Hr.
  fold m2 in Hr.
  destruct (shr_fexp prec emax m2 e1 loc_Exact) as [mrs2 e2] eqn:H2.
  apply shr_fexp_spec in H2; [| lia]. destruct H2 as [Hm3 He2].
  set (k2 := Z.max 0 (fexp prec emax (Zdigits2 m2 + e1) - e1)) in *.
  assert (Hk2 : 0 <= k2) by (unfold k2; lia).
  assert (Hp2 : 0 < 2 ^ k2) by (apply Z.pow_pos_nonneg; lia).
  assert (Hm3n : 0 <= shr_m mrs2) by (rewrite Hm3; apply Z.div_pos; lia).
  exists (shr_m mrs2), e2. split; [exact Hm3n |]. split.
  { destruct (shr_m mrs2); reflexivity. }
  split.
  - intros Hex Hd.
    pose proof (div_pow2_digits_upper mx k1 Hmx Hk1) as Hu. rewrite <- Hm1 in Hu.
    assert (Hd2 : Zdigits2 m2 <= Zdigits2 (shr_m mrs1) + 1).
    { apply Zdigits2_le; [lia | pose proof (Zdigits2_nonneg (shr_m mrs1)); lia |].
      destruct (Z.eq_dec (shr_m mrs1) 0) as [E | E].
      - rewrite E in *. simpl. lia.
      - destruct (Zdigits2_bounds (shr_m mrs1) ltac:(lia)) as [? [_ Hhi]].
        rewrite Z.pow_add_r by lia. lia. }
    unfold k1, k2, fexp, emin, prec, emax in *. lia.
  - intros Hpos Hd.
    destruct (div_pow2_digits_lower mx k1 Hpos) as [Hq1 Hl1].
    { unfold k1, fexp, emin, prec, emax.
      pose proof (Zdigits2_bounds mx Hpos). lia. }
    rewrite <- Hm1 in Hq1, Hl1.
    pose proof (Zdigits2_mono (shr_m mrs1) m2 ltac:(lia)) as Hmono.
    destruct (div_pow2_digits_lower m2 k2 ltac:(lia)) as [Hq2 _].
    { unfold k2, fexp, emin, prec, emax.
      pose proof (Zdigits2_bounds m2 ltac:(lia)). lia. }
    lia.
Qed.

Lemma SFdiv_core_int (a b : positive) :
  let e' := Z.min (fexp prec emax (Zdigits2 (Zpos a) - Zdigits2 (Zpos b))) 0 in
  exists l,
    SFdiv_core_binary prec emax (Zpos a) 0 (Zpos b) 0 =
      (Zpos a * 2 ^ (- e') / Zpos b, e', l).
Proof.
  intros e'. unfold SFdiv_core_binary.
  rewrite !Z.add_0_r. change (0 - 0) with 0. fold e'.
  assert (He : e' <= 0) by (unfold e'; lia).
  set (m' := match 0 - e' with
             | 0 => Zpos a
             | Zpos _ => Z.shiftl (Zpos a) (0 - e')
             | Zneg _ => 0
             end).
  assert (Hm' : m' = Zpos a * 2 ^ (- e')).
  { unfold m'. replace (0 - e') with (- e') by lia.
    destruct (- e') as [| p | p] eqn:E; [simpl; lia | | lia].
    rewrite Z.shiftl_mul_pow2 by lia. reflexivity. }
  rewrite <- Hm'.
  pose proof (Z.div_eucl_eq m' (Zpos b) ltac:(lia)) as Hdm.
  unfold Z.div. destruct (Z.div_eucl m' (Zpos b)) as [q r].
  eexists. reflexivity.
Qed.

Lemma finite_or_overflow_finite (f : float) :
  is_finite f = true -> finite_or_overflow f = Ok f.
Proof. destruct f; simpl; congruence. Qed.

Lemma binary_round_aux_finite (sx : bool) (mx ex : Z) (lx : location) :
  0 <= mx -> ex <= 971 -> Zdigits2 mx + ex <= 1023 ->
  is_finite (binary_round_aux prec emax sx mx ex lx) = true.
Proof.
  intros Hmx Hex Hd.
  destruct (binary_round_aux_spec sx mx ex lx Hmx) as (m3 & e2 & Hm3 & -> & He2 & _).
  specialize (He2 Hex Hd).
  destruct m3 as [| p | p]; [reflexivity | | lia].
  replace (e2 <=? emax - prec) with true; [reflexivity |].
  symmetry. apply Z.leb_le. unfold emax, prec. lia.
Qed.

Lemma binary_round_aux_nonzero (sx : bool) (mx ex : Z) (lx : location) :
  0 < mx -> -1074 < Zdigits2 mx + ex ->
  (exists m e, binary_round_aux prec emax sx mx ex lx = S754_finite sx m e) \/
  binary_round_aux prec emax sx mx ex lx = S754_infinity sx.
Proof.
  intros Hmx Hd.
  destruct (binary_round_aux_spec sx mx ex lx ltac:(lia)) as (m3 & e2 & Hm3 & -> & _ & Hp).
  specialize (Hp Hmx Hd).
  destruct m3 as [| p | p]; [lia | | lia].
  destruct (e2 <=? emax - prec); [left; eauto | right; reflexivity].
Qed.

Lemma int_truediv_total (a b : Z) :
  b <> 0 -> Z.abs a < float_range ->
  exists f, int_truediv a b = Ok f /\ is_finite f = true.
Proof.
  intros Hb Ha. unfold int_truediv.
  destruct (Z.eqb_spec b 0) as [E | _]; [contradiction |].
  assert (Hgen : forall sa sb pa pb, Zpos pa < float_range ->
            is_finite (SFdiv prec emax (S754_finite sa pa 0) (S754_finite sb pb 0)) = true).
  { intros sa sb pa pb Hpa. unfold SFdiv.
    destruct (SFdiv_core_int pa pb) as [l ->].
    set (e' := Z.min (fexp prec emax (Zdigits2 (Zpos pa) - Zdigits2 (Zpos pb))) 0).
    assert (He : e' <= 0) by (unfold e'; lia).
    assert (Hp : 0 < 2 ^ (- e')) by (apply Z.pow_pos_nonneg; lia).
    assert (Hq : 0 <= Zpos pa * 2 ^ (- e') / Zpos pb) by (apply Z.div_pos; lia).
    apply binary_round_aux_finite; [exact Hq | lia |].
    assert (Hda : Zdigits2 (Zpos pa) <= 1023)
      by (apply Zdigits2_le; [lia | lia | exact Hpa]).
    assert (Hdq : Zdigits2 (Zpos pa * 2 ^ (- e') / Zpos pb) <= Zdigits2 (Zpos pa) - e').
    { destruct (Zdigits2_bounds (Zpos pa) ltac:(lia)) as [? [_ Hhi]].
      apply Zdigits2_le; [exact Hq | lia |].
      apply Z.le_lt_trans with (Zpos pa * 2 ^ (- e')).
      - apply Z.div_le_upper_bound; [lia |]. nia.
      - replace (Zdigits2 (Zpos pa) - e') with (Zdigits2 (Zpos pa) + - e') by lia.
        rewrite Z.pow_add_r by lia. nia. }
    lia. }
  destruct a as [| pa | pa]; destruct b as [| pb | pb]; try contradiction;
    simpl exact_of_int.
  1-2: eexists; split; reflexivity.
  all: eexists; split; [apply finite_or_overflow_finite | ]; apply Hgen; exact Ha.
Qed.

Lemma iter_xO_pow2 (m d : positive) :
  Zpos (Pos.iter xO m d) = Zpos m * 2 ^ Zpos d.
Proof.
  induction d as [| d IH] using Pos.peano_ind.
  - simpl. lia.
  - rewrite Pos.iter_succ, Pos2Z.inj_xO, IH, Pos2Z.inj_succ, Z.pow_succ_r by lia.
    lia.
Qed.

Lemma float_of_int_total (a : Z) :
  Z.abs a < float_range ->
  exists f, float_of_int a = Ok f /\ is_finite f = true.
Proof.
  intros Ha. unfold float_of_int.
  assert (Hgen : forall s p, Zpos p < float_range ->
            is_finite (binary_round prec emax s p 0) = true).
  { intros s p Hp. unfold binary_round, shl_align.
    rewrite Z.add_0_r.
    assert (Hd : Zdigits2 (Zpos p) <= 1023)
      by (apply Zdigits2_le; [lia | lia | exact Hp]).
    destruct (Zdigits2_bounds (Zpos p) ltac:(lia)) as [Hd0 [_ Hhi]].
    simpl Zdigits2 in Hd, Hd0, Hhi.
    destruct (fexp prec emax (Zpos (digits2_pos p)) - 0) as [| d | d] eqn:E.
    - apply binary_round_aux_finite; simpl Zdigits2; lia.
    - apply binary_round_aux_finite; simpl Zdigits2; lia.
    - apply binary_round_aux_finite; [lia | lia |].
      assert (Hz : Zdigits2 (Zpos (Pos.iter xO p d)) <= Zpos (digits2_pos p) + Zpos d).
      { apply Zdigits2_le; [lia | lia |].
        rewrite iter_xO_pow2, Z.pow_add_r by lia.
        assert (0 < 2 ^ Zpos d) by (apply Z.pow_pos_nonneg; lia). nia. }
      lia. }
  destruct a as [| p | p]; simpl binary_normalize.
  - eexists; split; reflexivity.
  - eexists; split; [apply finite_or_overflow_finite |]; apply Hgen; exact Ha.
  - eexists; split; [apply finite_or_overflow_finite |]; apply Hgen; exact Ha.
Qed.

Lemma int_truediv_positive (a b : Z) (f : float) :
  0 < a -> 0 < b -> Zdigits2 b - Zdigits2 a <= 1021 ->
  int_truediv a b = Ok f ->
  float_gt0 f = true /\ float_is_zero f = false.
Proof.
  intros Ha Hb Hd. unfold int_truediv.
  destruct (Z.eqb_spec b 0) as [E | _]; [lia |].
  destruct a as [| pa | pa]; try lia. destruct b as [| pb | pb]; try lia.
  simpl exact_of_int. unfold SFdiv.
  destruct (SFdiv_core_int pa pb) as [l ->].
  set (e' := Z.min (fexp prec emax (Zdigits2 (Zpos pa) - Zdigits2 (Zpos pb))) 0).
  set (q := Zpos pa * 2 ^ (- e') / Zpos pb).
  destruct (Zdigits2_bounds (Zpos pa) ltac:(lia)) as [Hda [Halo Hahi]].
  destruct (Zdigits2_bounds (Zpos pb) ltac:(lia)) as [Hdb [Hblo Hbhi]].
  assert (He : e' <= 0) by (unfold e'; lia).
  assert (Hp : 0 < 2 ^ (- e')) by (apply Z.pow_pos_nonneg; lia).
  assert (Hq : 0 < q /\ -1074 < Zdigits2 q + e').
  { destruct (Z_le_gt_dec (Zdigits2 (Zpos pa) - Zdigits2 (Zpos pb) - 53) 0) as [Hc | Hc].
    - assert (Ee : e' = Zdigits2 (Zpos pa) - Zdigits2 (Zpos pb) - 53)
        by (unfold e', fexp, emin, prec, emax; lia).
      assert (H52 : 2 ^ 52 <= q).
      { unfold q. apply Z.div_le_lower_bound; [lia |].
        apply Z.le_trans with (2 ^ Zdigits2 (Zpos pb) * 2 ^ 52); [nia |].
        apply Z.le_trans with (2 ^ (Zdigits2 (Zpos pa) - 1) * 2 ^ (- e')).
        - rewrite <- !Z.pow_add_r by lia. apply Z.pow_le_mono_r; lia.
        - apply Z.mul_le_mono_nonneg_r; lia. }
      pose proof (Zdigits2_gt q 52 ltac:(lia) H52).
      assert (0 < 2 ^ 52) by (apply Z.pow_pos_nonneg; lia). lia.
    - assert (Ee : e' = 0) by (unfold e', fexp, emin, prec, emax; lia).
      assert (H1 : 1 <= q).
      { unfold q. rewrite Ee. simpl (2 ^ (- 0)). rewrite Z.mul_1_r.
        apply Z.div_le_lower_bound; [lia |].
        assert (2 ^ Zdigits2 (Zpos pb) <= 2 ^ (Zdigits2 (Zpos pa) - 1))
          by (apply Z.pow_le_mono_r; lia).
        lia. }
      pose proof (Zdigits2_gt q 0 ltac:(lia) ltac:(simpl; lia)). lia. }
  destruct Hq as [Hq0 Hqd].
  destruct (binary_round_aux_nonzero (xorb false false) q e' l Hq0 Hqd)
    as [(m & e & ->) | ->]; simpl; intros H; inversion H; subst.
  split; reflexivity.
Qed.

(** ** Dictionaries *)

Section DictFacts.
Context {V : Type}.
Variable dflt : V.

Lemma get_update_same (k : string) (f : V -> V) (d : dict V) :
  get k (defaultdict_update dflt k f d) = Some (f (get_default dflt k d)).
Proof.
  unfold get_default.
  induction d as [| [k' v] d IH]; simpl.
  - rewrite String.eqb_refl. reflexivity.
  - destruct (String.eqb k k') eqn:E; simpl; rewrite E; [reflexivity | exact IH].
Qed.

Lemma get_update_other (k k' : string) (f : V -> V) (d : dict V) :
  k' <> k -> get k' (defaultdict_update dflt k f d) = get k' d.
Proof.
  intros Hne. apply String.eqb_neq in Hne.
  induction d as [| [k0 v] d IH]; simpl.
  - rewrite Hne. reflexivity.
  - destruct (String.eqb k k0) eqn:E; simpl.
    + apply String.eqb_eq in E. subst k0. rewrite Hne. reflexivity.
    + rewrite IH. reflexivity.
Qed.

Lemma update_update (k : string) (f g : V -> V) (d : dict V) :
  defaultdict_update dflt k g (defaultdict_update dflt k f d) =
  defaultdict_update dflt k (fun v => g (f v)) d.
Proof.
  induction d as [| [k' v] d IH]; simpl.
  - rewrite String.eqb_refl. reflexivity.
  - destruct (String.eqb k k') eqn:E; simpl; rewrite E; [reflexivity |].
    rewrite IH. reflexivity.
Qed.

Lemma update_ext (k : string) (f g : V -> V) (d : dict V) :
  (forall v, f v = g v) ->
  defaultdict_update dflt k f d = defaultdict_update dflt k g d.
Proof.
  intros Hfg. induction d as [| [k' v] d IH]; simpl.
  - rewrite Hfg. reflexivity.
  - rewrite Hfg, IH. reflexivity.
Qed.

Lemma Forall_values_update (P Q : V -> Prop) (k : string) (f : V -> V)
  (d : dict V) :
  Q (f dflt) -> (forall v, P v -> Q (f v)) -> (forall v, P v -> Q v) ->
  Forall P (values d) ->
  Forall Q (values (defaultdict_update dflt k f d)).
Proof.
  intros Hnew Hupd Hkeep. unfold values.
  induction d as [| [k' v] d IH]; simpl; intros HP.
  - constructor; [exact Hnew | constructor].
  - inversion HP as [| ? ? Hv Hd]; subst.
    destruct (String.eqb k k'); simpl; constructor; auto.
    eapply Forall_impl; [| exact Hd]. exact Hkeep.
Qed.

Lemma get_In_values (k : string) (d : dict V) (v : V) :
  get k d = Some v -> In v (values d).
Proof.
  unfold values. induction d as [| [k' v'] d IH]; simpl; [discriminate |].
  destruct (String.eqb k k'); intros H.
  - inversion H. left. reflexivity.
  - right. auto.
Qed.
End DictFacts.

Lemma sum_values_update (k : string) (t : Z) (d : dict Z) :
  sum (values (defaultdict_update 0 k (fun v => v + t) d)) = sum (values d) + t.
Proof.
  unfold sum, values. induction d as [| [k' v] d IH]; simpl.
  - lia.
  - destruct (String.eqb k k'); simpl; lia.
Qed.

Lemma map_dict_update {V W : Type} (p : V -> W) (dv : V) (dw : W)
  (f : V -> V) (g : W -> W) (k : string) (d : dict V) :
  p dv = dw -> (forall v, p (f v) = g (p v)) ->
  map_dict p (defaultdict_update dv k f d) =
  defaultdict_update dw k g (map_dict p d).
Proof.
  intros Hd Hfg. unfold map_dict.
  induction d as [| [k' v] d IH]; simpl.
  - rewrite Hfg, Hd. reflexivity.
  - destruct (String.eqb k k'); simpl; [rewrite Hfg | rewrite IH]; reflexivity.
Qed.

Lemma get_map_dict {V W : Type} (p : V -> W) (k : string) (d : dict V) :
  get k (map_dict p d) = option_map p (get k d).
Proof.
  unfold map_dict. induction d as [| [k' v] d IH]; simpl; [reflexivity |].
  destruct (String.eqb k k'); [reflexivity | exact IH].
Qed.

Section MapValues.
Context {V W : Type}.
Variable f : V -> result W.

Lemma map_values_total (d : dict V) :
  (forall v, In v (values d) -> exists w, f v = Ok w) ->
  exists d', map_values f d = Ok d'.
Proof.
  unfold values. induction d as [| [k v] d IH]; simpl; intros H.
  - eauto.
  - destruct (H v (or_introl eq_refl)) as [w ->].
    destruct IH as [d' ->]; [intros; apply H; right; assumption |].
    simpl. eauto.
Qed.

Lemma map_values_get (d : dict V) (d' : dict W) (k : string) (w : W) :
  map_values f d = Ok d' -> get k d' = Some w ->
  exists v, get k d = Some v /\ f v = Ok w.
Proof.
  revert d'. induction d as [| [k0 v] d IH]; simpl; intros d' H Hg.
  - inversion H; subst. discriminate.
  - destruct (f v) as [w0 |] eqn:Ef; [| discriminate]. simpl in H.
    destruct (map_values f d) as [d0 |] eqn:Em; [| discriminate].
    simpl in H. inversion H; subst. simpl in Hg.
    destruct (String.eqb k k0).
    + inversion Hg; subst. eauto.
    + eapply IH; eauto.
Qed.

Lemma map_values_raise (d : dict V) (e : exn) :
  map_values f d = Raise e -> exists v, In v (values d) /\ f v = Raise e.
Proof.
  unfold values. induction d as [| [k v] d IH]; simpl; [discriminate |].
  destruct (f v) as [w |] eqn:Ef; simpl.
  - destruct (map_values f d) as [d0 |]; simpl; [discriminate |].
    intros H. destruct (IH H) as (v' & Hin & Hv'). eauto.
  - intros H. inversion H; subst. eauto.
Qed.
End MapValues.

Lemma map_values_map_dict {V V' W W' : Type} (f : V -> result W)
  (g : V' -> result W') (p : V -> V') (q : W -> W') (d : dict V) :
  (forall v, In v (values d) ->
     g (p v) = match f v with Ok w => Ok (q w) | Raise e => Raise e end) ->
  map_values g (map_dict p d) =
  match map_values f d with
  | Ok d' => Ok (map_dict q d')
  | Raise e => Raise e
  end.
Proof.
  unfold values, map_dict. induction d as [| [k v] d IH]; simpl; intros H.
  - reflexivity.
  - rewrite (H v (or_introl eq_refl)).
    destruct (f v) as [w |]; simpl; [| reflexivity].
    rewrite IH by (intros; apply H; right; assumption).
    destruct (map_values f d); reflexivity.
Qed.

(** ** Loops *)

Section Loops.
Context {A S : Type}.
Variable body : S -> A -> result S.

Lemma for_each_app (xs ys : list A) (s : S) :
  for_each body (xs ++ ys) s =
  (s' <- for_each body xs s ;; for_each body ys s').
Proof.
  revert s. induction xs as [| x xs IH]; intros s; simpl; [reflexivity |].
  destruct (body s x); simpl; [apply IH | reflexivity].
Qed.

(** A loop whose body acts as a total function [step] on the elements that
    satisfy [good] is a left fold. *)
Lemma for_each_fold (good : A -> Prop) (step : S -> A -> S) (xs : list A)
  (s : S) :
  (forall s x, good x -> body s x = Ok (step s x)) ->
  Forall good xs ->
  for_each body xs s = Ok (fold_left step xs s).
Proof.
  intros Hstep Hgood. revert s.
  induction Hgood as [| x xs Hx _ IH]; intros s; simpl; [reflexivity |].
  rewrite (Hstep s x Hx). simpl. apply IH.
Qed.
End Loops.

Lemma for_each_map {A B S : Type} (body : S -> B -> result S) (g : A -> B)
  (xs : list A) (s : S) :
  for_each body (map g xs) s = for_each (fun s x => body s (g x)) xs s.
Proof.
  revert s. induction xs as [| x xs IH]; intros s; simpl; [reflexivity |].
  destruct (body s (g x)); simpl; [apply IH | reflexivity].
Qed.

Lemma all_deliveries_tagged (data : MatchRecord) :
  all_deliveries data = map snd (tagged_deliveries data).
Proof.
  unfold all_deliveries, tagged_deliveries.
  induction (innings data) as [| i rest IH]; simpl; [reflexivity |].
  rewrite map_app, map_map, IH. simpl. rewrite map_id. reflexivity.
Qed.

(** ** One delivery *)

Ltac present H :=
  unfold missing_key in H;
  repeat match type of H with
         | match ?x with _ => _ end = _ => destruct x eqn:?; try discriminate H
         end.

Lemma v3_update_batting_ok (stats : dict reportdeepseek_v3.BattingEntry)
  (bd : BallData) (b : string) (rs : Runs) (r : Z) :
  batsman bd = Some b -> runs bd = Some rs -> runs_batsman rs = Some r ->
  reportdeepseek_v3.update_batting_stats stats bd =
  Ok (defaultdict_update reportdeepseek_v3.new_batting b (v3_bat_step r) stats).
Proof.
  intros Hb Hrs Hr. unfold reportdeepseek_v3.update_batting_stats.
  rewrite Hb, Hrs. simpl. rewrite Hr. simpl. f_equal.
  destruct (r =? 4) eqn:E4; destruct (r =? 6) eqn:E6;
    rewrite ?update_update; apply update_ext; intros e;
    unfold v3_bat_step, reportdeepseek_v3.add_bat_runs,
      reportdeepseek_v3.add_bat_balls, reportdeepseek_v3.add_bat_4s,
      reportdeepseek_v3.add_bat_6s; simpl; rewrite E4, E6; f_equal; lia.
Qed.

Lemma v3_update_bowling_ok (stats : dict reportdeepseek_v3.BowlingEntry)
  (bd : BallData) (b : string) (rs : Runs) (t : Z) :
  bowler bd = Some b -> runs bd = Some rs -> runs_total rs = Some t ->
  reportdeepseek_v3.update_bowling_stats stats bd =
  Ok (defaultdict_update reportdeepseek_v3.new_bowling b
        (v3_bowl_step t (has_wicket bd)) stats).
Proof.
  intros Hb Hrs Ht. unfold reportdeepseek_v3.update_bowling_stats, has_wicket.
  rewrite Hb, Hrs. simpl. rewrite Ht. simpl. f_equal.
  destruct (wicket bd);
    rewrite ?update_update; apply update_ext; intros e;
    unfold v3_bowl_step, reportdeepseek_v3.add_bowl_runs,
      reportdeepseek_v3.add_bowl_balls, reportdeepseek_v3.add_bowl_wickets;
    simpl; f_equal; lia.
Qed.

Lemma v3_process_delivery_ok (team : string) (s : reportdeepseek_v3.Stats)
  (d : Delivery) :
  missing_key (ball_data d) = None ->
  reportdeepseek_v3.process_delivery team s d = Ok (v3_apply s (team, d)).
Proof.
  intros H. present H.
  unfold reportdeepseek_v3.process_delivery.
  erewrite v3_update_batting_ok by eassumption. simpl.
  erewrite v3_update_bowling_ok by eassumption. simpl.
  unfold v3_apply, batsman_of, bowler_of, batsman_runs_of, total_runs_of. simpl.
  repeat match goal with E : _ = Some _ |- _ => rewrite E; simpl end.
  reflexivity.
Qed.

Lemma v3_process_delivery_raise (team : string) (s : reportdeepseek_v3.Stats)
  (d : Delivery) (k : string) :
  missing_key (ball_data d) = Some k ->
  reportdeepseek_v3.process_delivery team s d = Raise (KeyError k).
Proof.
  intros H. unfold missing_key in H.
  unfold reportdeepseek_v3.process_delivery,
    reportdeepseek_v3.update_batting_stats,
    reportdeepseek_v3.update_bowling_stats.
  destruct (batsman (ball_data d)); simpl; [| congruence].
  destruct (runs (ball_data d)) as [rs |]; simpl; [| congruence].
  destruct (runs_batsman rs); simpl; [| congruence].
  destruct (bowler (ball_data d)); simpl; [| congruence].
  destruct (runs_total rs); simpl; congruence.
Qed.

Lemma yaml_process_delivery_ok (team : string) (s : yamlopenrouteragent.Stats)
  (d : Delivery) :
  missing_key (ball_data d) = None ->
  yamlopenrouteragent.process_delivery team s d = Ok (yaml_apply s (team, d)).
Proof.
  intros H. present H.
  unfold yamlopenrouteragent.process_delivery, yaml_apply, batsman_of,
    bowler_of, batsman_runs_of, total_runs_of. simpl.
  repeat match goal with E : _ = Some _ |- _ => rewrite E; simpl end.
  rewrite !update_update. reflexivity.
Qed.

Lemma yaml_process_delivery_raise (team : string)
  (s : yamlopenrouteragent.Stats) (d : Delivery) (k : string) :
  missing_key (ball_data d) = Some k ->
  yamlopenrouteragent.process_delivery team s d = Raise (KeyError k).
Proof.
  intros H. unfold missing_key in H.
  unfold yamlopenrouteragent.process_delivery.
  destruct (batsman (ball_data d)); simpl; [| congruence].
  destruct (runs (ball_data d)) as [rs |]; simpl; [| congruence].
  destruct (runs_batsman rs); simpl; [| congruence].
  destruct (bowler (ball_data d)); simpl; [| congruence].
  destruct (runs_total rs); simpl; congruence.
Qed.

(** ** The two nested loops *)

Section DeliveryLoop.
Context {S : Type}.
Variable body : string -> S -> Delivery -> result S.
Variable step : S -> string * Delivery -> S.

Hypothesis body_ok : forall team s d,
  missing_key (ball_data d) = None -> body team s d = Ok (step s (team, d)).
Hypothesis body_raise : forall team s d k,
  missing_key (ball_data d) = Some k -> body team s d = Raise (KeyError k).

Let innings_body (s : S) (i : Innings) : result S :=
  for_each (body (team (inns_data i))) (deliveries (inns_data i)) s.

Lemma loop_flat (data : MatchRecord) (s : S) :
  for_each innings_body (innings data) s =
  for_each (fun s td => body (fst td) s (snd td)) (tagged_deliveries data) s.
Proof.
  unfold tagged_deliveries. revert s.
  induction (innings data) as [| i rest IH]; intros s; simpl; [reflexivity |].
  rewrite for_each_app, for_each_map. simpl.
  unfold innings_body at 1.
  destruct (for_each (body (team (inns_data i))) (deliveries (inns_data i)) s);
    simpl; [apply IH | reflexivity].
Qed.

Lemma flat_loop_ok (tds : list (string * Delivery)) (s : S) :
  Forall (fun d => missing_key (ball_data d) = None) (map snd tds) ->
  for_each (fun s td => body (fst td) s (snd td)) tds s =
  Ok (fold_left step tds s).
Proof.
  intros H.
  apply for_each_fold
    with (good := fun td => missing_key (ball_data (snd td)) = None).
  - intros s0 [t d] Hd. simpl in *. apply body_ok. exact Hd.
  - rewrite Forall_map in H. exact H.
Qed.

Lemma flat_loop_raise (tds : list (string * Delivery)) (s : S) (k : string) :
  first_missing (map snd tds) = Some k ->
  for_each (fun s td => body (fst td) s (snd td)) tds s = Raise (KeyError k).
Proof.
  revert s. induction tds as [| [t d] tds IH]; intros s; simpl; [discriminate |].
  destruct (missing_key (ball_data d)) as [k' |] eqn:E; intros H.
  - inversion H; subst. rewrite (body_raise _ _ _ _ E). reflexivity.
  - rewrite (body_ok _ _ _ E). simpl. apply IH. exact H.
Qed.

Lemma loop_ok (data : MatchRecord) (s : S) :
  Forall (fun d => missing_key (ball_data d) = None) (all_deliveries data) ->
  for_each innings_body (innings data) s =
  Ok (fold_left step (tagged_deliveries data) s).
Proof.
  intros H. rewrite loop_flat. apply flat_loop_ok.
  rewrite <- all_deliveries_tagged. exact H.
Qed.

Lemma loop_raise (data : MatchRecord) (s : S) (k : string) :
  first_missing (all_deliveries data) = Some k ->
  for_each innings_body (innings data) s = Raise (KeyError k).
Proof.
  intros H. rewrite loop_flat. apply flat_loop_raise.
  rewrite <- all_deliveries_tagged. exact H.
Qed.
End DeliveryLoop.

Lemma first_missing_none (ds : list Delivery) :
  first_missing ds = None <->
  Forall (fun d => missing_key (ball_data d) = None) ds.
Proof.
  induction ds as [| d ds IH]; simpl.
  - split; [constructor | reflexivity].
  - destruct (missing_key (ball_data d)) eqn:E.
    + split; [discriminate |]. intros H. inversion H; congruence.
    + rewrite IH. split; intros H; [constructor; assumption | inversion H; assumption].
Qed.

Lemma missing_key_required (bd : BallData) (k : string) :
  missing_key bd = Some k -> In k required_keys.
Proof.
  unfold missing_key, required_keys.
  destruct (batsman bd); [| intros H; inversion H; simpl; tauto].
  destruct (runs bd) as [rs |]; [| intros H; inversion H; simpl; tauto].
  destruct (runs_batsman rs); [| intros H; inversion H; simpl; tauto].
  destruct (bowler bd); [| intros H; inversion H; simpl; tauto].
  destruct (runs_total rs); [discriminate | intros H; inversion H; simpl; tauto].
Qed.

Lemma lacks_required_field_iff (bd : BallData) :
  lacks_required_field bd <-> missing_key bd <> None.
Proof.
  unfold lacks_required_field, missing_key.
  destruct (batsman bd); [| split; [discriminate | tauto]].
  destruct (runs bd) as [rs |].
  - destruct (runs_batsman rs); [| split; [discriminate | tauto]].
    destruct (bowler bd); [| split; [discriminate | tauto]].
    destruct (runs_total rs); [| split; [discriminate | tauto]].
    split; [| congruence].
    intros [H | [H | [H | H]]]; discriminate.
  - split; [discriminate | tauto].
Qed.

Lemma first_missing_required (ds : list Delivery) :
  (exists d, In d ds /\ lacks_required_field (ball_data d)) ->
  exists k, first_missing ds = Some k /\ In k required_keys.
Proof.
  intros (d & Hin & Hl). apply lacks_required_field_iff in Hl.
  induction ds as [| d0 ds IH]; simpl in *; [contradiction |].
  destruct (missing_key (ball_data d0)) as [k |] eqn:E.
  - exists k. split; [reflexivity | eapply missing_key_required; eassumption].
  - destruct Hin as [-> | Hin]; [congruence | auto].
Qed.

(** ** What the loops establish *)

Lemma v3_process_stats_ok (data : MatchRecord) :
  Forall (fun d => missing_key (ball_data d) = None) (all_deliveries data) ->
  reportdeepseek_v3.process_stats data =
  reportdeepseek_v3.calculate_derived_metrics (v3_loop data).
Proof.
  intros H. unfold reportdeepseek_v3.process_stats, v3_loop.
  rewrite (loop_ok reportdeepseek_v3.process_delivery v3_apply
             v3_process_delivery_ok data _ H).
  reflexivity.
Qed.

Lemma v3_process_stats_raise (data : MatchRecord) (k : string) :
  first_missing (all_deliveries data) = Some k ->
  reportdeepseek_v3.process_stats data = Raise (KeyError k).
Proof.
  intros H. unfold reportdeepseek_v3.process_stats.
  rewrite (loop_raise reportdeepseek_v3.process_delivery v3_apply
             v3_process_delivery_ok v3_process_delivery_raise data _ k H).
  reflexivity.
Qed.

Lemma yaml_process_match_data_ok (data : MatchRecord) :
  Forall (fun d => missing_key (ball_data d) = None) (all_deliveries data) ->
  yamlopenrouteragent.process_match_data data =
  (batting' <- map_values yamlopenrouteragent.derive_batting
                 (yamlopenrouteragent.batting (yaml_loop data)) ;;
   bowling' <- map_values yamlopenrouteragent.derive_bowling
                 (yamlopenrouteragent.bowling (yaml_loop data)) ;;
   Ok {| yamlopenrouteragent.batting := batting';
         yamlopenrouteragent.bowling := bowling';
         yamlopenrouteragent.extras_count :=
           yamlopenrouteragent.extras_count (yaml_loop data);
         yamlopenrouteragent.team_scores :=
           yamlopenrouteragent.team_scores (yaml_loop data) |}).
Proof.
  intros H. unfold yamlopenrouteragent.process_match_data, yaml_loop.
  rewrite (loop_ok yamlopenrouteragent.process_delivery yaml_apply
             yaml_process_delivery_ok data _ H).
  reflexivity.
Qed.

Lemma yaml_process_match_data_raise (data : MatchRecord) (k : string) :
  first_missing (all_deliveries data) = Some k ->
  yamlopenrouteragent.process_match_data data = Raise (KeyError k).
Proof.
  intros H. unfold yamlopenrouteragent.process_match_data.
  rewrite (loop_raise yamlopenrouteragent.process_delivery yaml_apply
             yaml_process_delivery_ok yaml_process_delivery_raise data _ k H).
  reflexivity.
Qed.

Lemma v3_apply_bounded (w : Z) (s : reportdeepseek_v3.Stats)
  (td : string * Delivery) :
  0 <= w -> stats_bounded w s ->
  stats_bounded (w + delivery_magnitude (ball_data (snd td))) (v3_apply s td).
Proof.
  intros Hw [Hbat Hbowl]. unfold delivery_magnitude.
  split; cbn [v3_apply reportdeepseek_v3.batting reportdeepseek_v3.bowling].
  - apply Forall_values_update with (P := batting_bounded w);
      [| | | exact Hbat];
      unfold batting_bounded, v3_bat_step, reportdeepseek_v3.new_batting;
      cbn [reportdeepseek_v3.bat_runs reportdeepseek_v3.bat_balls];
      intros; lia.
  - apply Forall_values_update with (P := bowling_bounded w);
      [| | | exact Hbowl];
      unfold bowling_bounded, v3_bowl_step, reportdeepseek_v3.new_bowling;
      cbn [reportdeepseek_v3.bowl_runs reportdeepseek_v3.bowl_balls];
      intros; lia.
Qed.

Lemma v3_fold_bounded (tds : list (string * Delivery)) (w : Z)
  (s : reportdeepseek_v3.Stats) :
  0 <= w -> stats_bounded w s ->
  stats_bounded
    (w + sum (map (fun d => delivery_magnitude (ball_data d)) (map snd tds)))
    (fold_left v3_apply tds s).
Proof.
  revert w s. induction tds as [| td tds IH]; intros w s Hw Hs; simpl.
  - rewrite Z.add_0_r. exact Hs.
  - pose proof (v3_apply_bounded w s td Hw Hs) as Hstep.
    assert (Hm : 0 <= delivery_magnitude (ball_data (snd td)))
      by (unfold delivery_magnitude; lia).
    assert (Hw' : 0 <= w + delivery_magnitude (ball_data (snd td))) by lia.
    specialize (IH _ _ Hw' Hstep).
    rewrite <- Z.add_assoc in IH. exact IH.
Qed.

Lemma v3_loop_bounded (data : MatchRecord) :
  stats_bounded (magnitude data) (v3_loop data).
Proof.
  unfold v3_loop, magnitude. rewrite all_deliveries_tagged.
  apply (v3_fold_bounded (tagged_deliveries data) 0); [lia |].
  split; constructor.
Qed.

Lemma v3_fold_team_scores (tds : list (string * Delivery))
  (s : reportdeepseek_v3.Stats) :
  sum (values (reportdeepseek_v3.team_scores (fold_left v3_apply tds s))) =
  sum (values (reportdeepseek_v3.team_scores s)) +
  sum (map (fun d => total_runs_of (ball_data d)) (map snd tds)).
Proof.
  revert s. induction tds as [| td tds IH]; intros s; simpl.
  - lia.
  - rewrite IH. simpl. rewrite sum_values_update. lia.
Qed.

Lemma v3_loop_team_scores (data : MatchRecord) :
  sum (values (reportdeepseek_v3.team_scores (v3_loop data))) =
  total_runs_sum data.
Proof.
  unfold v3_loop, total_runs_sum. rewrite v3_fold_team_scores.
  rewrite all_deliveries_tagged. reflexivity.
Qed.

(** The second aggregator's loop state is the image of the first's. *)
Lemma yaml_fold_of_v3 (tds : list (string * Delivery))
  (sv : reportdeepseek_v3.Stats) (sy : yamlopenrouteragent.Stats) :
  sy = yaml_of_stats (yamlopenrouteragent.extras_count sy) sv ->
  let sy' := fold_left yaml_apply tds sy in
  sy' = yaml_of_stats (yamlopenrouteragent.extras_count sy')
          (fold_left v3_apply tds sv).
Proof.
  revert sv sy. induction tds as [| td tds IH]; intros sv sy H; simpl.
  - exact H.
  - apply IH. rewrite H at 1. unfold yaml_apply, yaml_of_stats. simpl.
    f_equal.
    + symmetry. apply map_dict_update; reflexivity.
    + symmetry. apply map_dict_update; reflexivity.
Qed.

Lemma yaml_loop_of_v3 (data : MatchRecord) :
  yaml_loop data =
  yaml_of_stats (yamlopenrouteragent.extras_count (yaml_loop data))
    (v3_loop data).
Proof.
  unfold yaml_loop, v3_loop.
  apply (yaml_fold_of_v3 (tagged_deliveries data)). reflexivity.
Qed.

(** ** Derived metrics *)

Lemma int_truediv_raise (a b : Z) (e : exn) :
  int_truediv a b = Raise e ->
  (b = 0 /\ e = ZeroDivisionError) \/ (b <> 0 /\ e = OverflowError).
Proof.
  unfold int_truediv. destruct (Z.eqb_spec b 0) as [E | E]; intros H.
  - left. inversion H. auto.
  - right. split; [exact E |].
    destruct (SFdiv prec emax (exact_of_int a) (exact_of_int b));
      simpl in H; congruence.
Qed.

Lemma float_of_int_raise (a : Z) (e : exn) :
  float_of_int a = Raise e -> e = OverflowError.
Proof.
  unfold float_of_int.
  destruct (binary_normalize prec emax a 0 false); simpl; congruence.
Qed.

Lemma float_gt0_nonzero (x : float) :
  float_gt0 x = true -> float_is_zero x = false.
Proof.
  unfold float_gt0, float_is_zero, SFltb, SFeqb.
  destruct x as [s | s | | s m e]; try destruct s; simpl; congruence.
Qed.

Lemma float_mul_int_100 (q : float) :
  exists p, float_mul_int q 100 = Ok p.
Proof. unfold float_mul_int. eexists. reflexivity. Qed.

Lemma Zdigits2_6 : Zdigits2 6 = 3.
Proof. reflexivity. Qed.

Lemma overs_positive (balls : Z) (o : float) :
  1 <= balls -> int_truediv balls 6 = Ok o ->
  float_gt0 o = true /\ float_is_zero o = false.
Proof.
  intros Hb Ho. apply (int_truediv_positive balls 6); try lia; [| exact Ho].
  destruct (Zdigits2_bounds balls ltac:(lia)) as [Hd _].
  rewrite Zdigits2_6. lia.
Qed.

Lemma v3_derive_batting_spec (e : reportdeepseek_v3.BattingEntry) :
  reportdeepseek_v3.derive_batting e =
  (v <- spec_strike_rate (reportdeepseek_v3.bat_runs e)
          (reportdeepseek_v3.bat_balls e) ;;
   Ok (reportdeepseek_v3.set_strike_rate v e)).
Proof.
  unfold reportdeepseek_v3.derive_batting, spec_strike_rate.
  destruct (0 <? reportdeepseek_v3.bat_balls e); [| reflexivity].
  destruct (int_truediv _ _) as [q |]; simpl; [| reflexivity].
  destruct (float_mul_int q 100); reflexivity.
Qed.

Lemma v3_derive_bowling_spec (e : reportdeepseek_v3.BowlingEntry) :
  0 <= reportdeepseek_v3.bowl_balls e ->
  reportdeepseek_v3.derive_bowling e =
  (ec <- spec_economy (reportdeepseek_v3.bowl_runs e)
           (reportdeepseek_v3.bowl_balls e) ;;
   ov <- spec_overs (reportdeepseek_v3.bowl_balls e) ;;
   Ok (reportdeepseek_v3.set_economy_overs ec ov e)).
Proof.
  intros Hb.
  unfold reportdeepseek_v3.derive_bowling, spec_economy, spec_overs.
  destruct (Z.ltb_spec 0 (reportdeepseek_v3.bowl_balls e)) as [Hpos | Hzero].
  - destruct (int_truediv (reportdeepseek_v3.bowl_balls e) 6) as [o |] eqn:Eo;
      simpl; [| reflexivity].
    destruct (overs_positive (reportdeepseek_v3.bowl_balls e) o ltac:(lia) Eo)
      as [-> _].
    destruct (int_float_truediv _ o); reflexivity.
  - replace (reportdeepseek_v3.bowl_balls e) with 0 by lia. reflexivity.
Qed.

Lemma spec_strike_rate_total (runs balls : Z) :
  1 <= balls -> Z.abs runs < float_range ->
  exists f, spec_strike_rate runs balls = Ok (Float f).
Proof.
  intros Hb Hr. unfold spec_strike_rate.
  destruct (Z.ltb_spec 0 balls); [| lia].
  destruct (int_truediv_total runs balls ltac:(lia) Hr) as (q & -> & _). cbn [bind].
  destruct (float_mul_int_100 q) as [p ->]. cbn [bind]. eauto.
Qed.

Lemma spec_overs_total (balls : Z) :
  Z.abs balls < float_range ->
  exists f, spec_overs balls = Ok (Float f).
Proof.
  intros Hb. unfold spec_overs.
  destruct (int_truediv_total balls 6 ltac:(lia) Hb) as (o & -> & _). cbn [bind]. eauto.
Qed.

Lemma spec_economy_total (runs balls : Z) :
  1 <= balls < float_range -> Z.abs runs < float_range ->
  exists f, spec_economy runs balls = Ok (Float f).
Proof.
  intros Hb Hr. unfold spec_economy.
  destruct (Z.ltb_spec 0 balls); [| lia].
  destruct (int_truediv_total balls 6 ltac:(lia) ltac:(lia)) as (o & Eo & _).
  rewrite Eo. cbn [bind].
  destruct (overs_positive balls o ltac:(lia) Eo) as [_ Hnz].
  unfold int_float_truediv.
  destruct (float_of_int_total runs Hr) as (x & -> & _). cbn [bind].
  unfold float_truediv. rewrite Hnz. cbn [bind]. eauto.
Qed.

Lemma int_float_truediv_raise (a : Z) (y : float) (e : exn) :
  float_is_zero y = false -> int_float_truediv a y = Raise e ->
  e = OverflowError.
Proof.
  intros Hy. unfold int_float_truediv, float_truediv. rewrite Hy.
  destruct (float_of_int a) eqn:E; simpl; [discriminate |].
  intros H. inversion H; subst. eapply float_of_int_raise; eassumption.
Qed.

(** The guards of the first aggregator keep every division away from zero. *)
Lemma v3_derive_batting_raise (e : reportdeepseek_v3.BattingEntry) (x : exn) :
  reportdeepseek_v3.derive_batting e = Raise x -> x = OverflowError.
Proof.
  unfold reportdeepseek_v3.derive_batting.
  destruct (Z.ltb_spec 0 (reportdeepseek_v3.bat_balls e)) as [Hpos | Hneg];
    [| discriminate].
  destruct (int_truediv _ _) as [q |] eqn:Eq; cbn [bind].
  - destruct (float_mul_int_100 q) as [p ->]. discriminate.
  - intros H. inversion H; subst.
    destruct (int_truediv_raise _ _ _ Eq) as [[? _] | [_ ?]]; [lia | assumption].
Qed.

Lemma v3_derive_bowling_raise (e : reportdeepseek_v3.BowlingEntry) (x : exn) :
  reportdeepseek_v3.derive_bowling e = Raise x -> x = OverflowError.
Proof.
  unfold reportdeepseek_v3.derive_bowling.
  destruct (int_truediv _ 6) as [o |] eqn:Eo; cbn [bind].
  - destruct (float_gt0 o) eqn:Eg; [| discriminate].
    destruct (int_float_truediv _ o) eqn:Eq; cbn [bind]; [discriminate |].
    intros H. inversion H; subst.
    eapply int_float_truediv_raise; [apply float_gt0_nonzero |]; eassumption.
  - intros H. inversion H; subst.
    destruct (int_truediv_raise _ _ _ Eo) as [[? _] | [_ ?]]; [lia | assumption].
Qed.

Lemma v3_calculate_raise (s : reportdeepseek_v3.Stats) (x : exn) :
  reportdeepseek_v3.calculate_derived_metrics s = Raise x -> x = OverflowError.
Proof.
  unfold reportdeepseek_v3.calculate_derived_metrics.
  destruct (map_values _ (reportdeepseek_v3.batting s)) eqn:Eb; cbn [bind].
  - destruct (map_values _ (reportdeepseek_v3.bowling s)) eqn:Ew; cbn [bind];
      [discriminate |].
    intros H. inversion H; subst.
    destruct (map_values_raise _ _ _ Ew) as (v & _ & Hv).
    eapply v3_derive_bowling_raise; eassumption.
  - intros H. inversion H; subst.
    destruct (map_values_raise _ _ _ Eb) as (v & _ & Hv).
    eapply v3_derive_batting_raise; eassumption.
Qed.

Lemma v3_calculate_total (w : Z) (s : reportdeepseek_v3.Stats) :
  stats_bounded w s -> w < float_range ->
  exists s', reportdeepseek_v3.calculate_derived_metrics s = Ok s'.
Proof.
  intros [Hbat Hbowl] Hw. unfold reportdeepseek_v3.calculate_derived_metrics.
  rewrite Forall_forall in Hbat, Hbowl.
  destruct (map_values_total reportdeepseek_v3.derive_batting
              (reportdeepseek_v3.batting s)) as [b' ->].
  { intros e He. destruct (Hbat e He) as [H1 H2].
    rewrite v3_derive_batting_spec.
    destruct (spec_strike_rate_total (reportdeepseek_v3.bat_runs e)
                (reportdeepseek_v3.bat_balls e)) as [f ->]; [lia | lia |].
    simpl. eauto. }
  destruct (map_values_total reportdeepseek_v3.derive_bowling
              (reportdeepseek_v3.bowling s)) as [w' ->].
  { intros e He. destruct (Hbowl e He) as [H1 H2].
    rewrite v3_derive_bowling_spec by lia.
    destruct (spec_economy_total (reportdeepseek_v3.bowl_runs e)
                (reportdeepseek_v3.bowl_balls e)) as [f ->]; [lia | lia |].
    destruct (spec_overs_total (reportdeepseek_v3.bowl_balls e)) as [g ->];
      [lia |].
    simpl. eauto. }
  simpl. eauto.
Qed.

Lemma v3_process_stats_total (data : MatchRecord) :
  well_formed data ->
  exists s, reportdeepseek_v3.process_stats data = Ok s /\
            reportdeepseek_v3.calculate_derived_metrics (v3_loop data) = Ok s.
Proof.
  intros [Hok Hmag]. rewrite v3_process_stats_ok by exact Hok.
  destruct (v3_calculate_total _ _ (v3_loop_bounded data) Hmag) as [s Hs].
  eauto.
Qed.

(** ** The second aggregator against the first *)

Lemma yaml_derive_batting_of_v3 (e : reportdeepseek_v3.BattingEntry) :
  1 <= reportdeepseek_v3.bat_balls e ->
  yamlopenrouteragent.derive_batting (yaml_of_batting e) =
  match reportdeepseek_v3.derive_batting e with
  | Ok e' => Ok (yaml_of_batting e')
  | Raise x => Raise x
  end.
Proof.
  intros Hb.
  unfold yamlopenrouteragent.derive_batting, reportdeepseek_v3.derive_batting.
  cbn [yaml_of_batting yamlopenrouteragent.bat_runs
       yamlopenrouteragent.bat_balls].
  destruct (Z.ltb_spec 0 (reportdeepseek_v3.bat_balls e)) as [_ | Hneg]; [| lia].
  destruct (int_truediv _ _) as [q |]; cbn [bind]; [| reflexivity].
  destruct (float_mul_int q 100); reflexivity.
Qed.

Lemma yaml_derive_bowling_of_v3 (e : reportdeepseek_v3.BowlingEntry) :
  1 <= reportdeepseek_v3.bowl_balls e ->
  yamlopenrouteragent.derive_bowling (yaml_of_bowling e) =
  match reportdeepseek_v3.derive_bowling e with
  | Ok e' => Ok (yaml_of_bowling e')
  | Raise x => Raise x
  end.
Proof.
  intros Hb.
  unfold yamlopenrouteragent.derive_bowling, reportdeepseek_v3.derive_bowling.
  cbn [yaml_of_bowling yamlopenrouteragent.bowl_runs
       yamlopenrouteragent.bowl_balls].
  destruct (int_truediv (reportdeepseek_v3.bowl_balls e) 6) as [o |] eqn:Eo;
    cbn [bind]; [| reflexivity].
  destruct (overs_positive (reportdeepseek_v3.bowl_balls e) o Hb Eo) as [-> _].
  destruct (int_float_truediv _ o); reflexivity.
Qed.

Lemma yaml_refines_v3 (data : MatchRecord) :
  yamlopenrouteragent.process_match_data data =
  match reportdeepseek_v3.process_stats data with
  | Ok s =>
      Ok (yaml_of_stats (yamlopenrouteragent.extras_count (yaml_loop data)) s)
  | Raise x => Raise x
  end.
Proof.
  destruct (first_missing (all_deliveries data)) as [k |] eqn:E.
  - rewrite (yaml_process_match_data_raise data k E),
      (v3_process_stats_raise data k E). reflexivity.
  - apply first_missing_none in E.
    rewrite (yaml_process_match_data_ok data E), (v3_process_stats_ok data E).
    destruct (v3_loop_bounded data) as [Hbat Hbowl].
    rewrite Forall_forall in Hbat, Hbowl.
    pose proof (f_equal yamlopenrouteragent.batting (yaml_loop_of_v3 data))
      as Lbat.
    pose proof (f_equal yamlopenrouteragent.bowling (yaml_loop_of_v3 data))
      as Lbowl.
    pose proof (f_equal yamlopenrouteragent.team_scores (yaml_loop_of_v3 data))
      as Lteam.
    cbn [yaml_of_stats yamlopenrouteragent.batting yamlopenrouteragent.bowling
         yamlopenrouteragent.team_scores] in Lbat, Lbowl, Lteam.
    rewrite Lbat, Lbowl, Lteam.
    unfold reportdeepseek_v3.calculate_derived_metrics.
    rewrite (map_values_map_dict reportdeepseek_v3.derive_batting
               yamlopenrouteragent.derive_batting yaml_of_batting
               yaml_of_batting)
      by (intros e He; apply yaml_derive_batting_of_v3; apply (Hbat e He)).
    destruct (map_values reportdeepseek_v3.derive_batting _); cbn [bind];
      [| reflexivity].
    rewrite (map_values_map_dict reportdeepseek_v3.derive_bowling
               yamlopenrouteragent.derive_bowling yaml_of_bowling
               yaml_of_bowling)
      by (intros e He; apply yaml_derive_bowling_of_v3; apply (Hbowl e He)).
    destruct (map_values reportdeepseek_v3.derive_bowling _); reflexivity.
Qed.

Lemma v3_calculate_fields (s0 s : reportdeepseek_v3.Stats) :
  reportdeepseek_v3.calculate_derived_metrics s0 = Ok s ->
  reportdeepseek_v3.team_scores s = reportdeepseek_v3.team_scores s0 /\
  map_values reportdeepseek_v3.derive_batting (reportdeepseek_v3.batting s0) =
    Ok (reportdeepseek_v3.batting s) /\
  map_values reportdeepseek_v3.derive_bowling (reportdeepseek_v3.bowling s0) =
    Ok (reportdeepseek_v3.bowling s).
Proof.
  unfold reportdeepseek_v3.calculate_derived_metrics.
  destruct (map_values _ (reportdeepseek_v3.batting s0)); cbn [bind];
    [| discriminate].
  destruct (map_values _ (reportdeepseek_v3.bowling s0)); cbn [bind];
    [| discriminate].
  intros H. inversion H; subst. simpl. auto.
Qed.

Lemma v3_fold_bowling (tds : list (string * Delivery))
  (s : reportdeepseek_v3.Stats) :
  reportdeepseek_v3.bowling (fold_left v3_apply tds s) =
  fold_left
    (fun bw td =>
       defaultdict_update reportdeepseek_v3.new_bowling
         (bowler_of (ball_data (snd td)))
         (v3_bowl_step (total_runs_of (ball_data (snd td)))
            (has_wicket (ball_data (snd td)))) bw)
    tds (reportdeepseek_v3.bowling s).
Proof.
  revert s. induction tds as [| td tds IH]; intros s; simpl; [reflexivity |].
  rewrite IH. reflexivity.
Qed.

(** ** The arithmetic on the values CPython prints

    [1/6], [4/(1/6)], [round(2.675, 2)], [round(0.125, 2)],
    [round(1/160*100, 2)], [0/-5] and an int too large for a float. *)

Example truediv_1_6 :
  int_truediv 1 6 = Ok (S754_finite false 6004799503160661 (-55)).
Proof. reflexivity. Qed.

Example truediv_4_sixth :
  (o <- int_truediv 1 6 ;; int_float_truediv 4 o) =
  Ok (S754_finite false 6755399441055744 (-48)).
Proof. reflexivity. Qed.

Example round_2_675 :
  round (S754_finite false 6023564501608038 (-51)) 2 =
  S754_finite false 6012305502539612 (-51).
Proof. reflexivity. Qed.

Example round_0_125 :
  (x <- int_truediv 1 8 ;; Ok (round x 2)) =
  Ok (S754_finite false 8646911284551352 (-56)).
Proof. reflexivity. Qed.

Example round_0_625 :
  (x <- int_truediv 1 160 ;; p <- float_mul_int x 100 ;; Ok (round p 2)) =
  Ok (S754_finite false 5584463537939415 (-53)).
Proof. reflexivity. Qed.

Example truediv_negative_zero : int_truediv 0 (-5) = Ok (S754_zero true).
Proof. reflexivity. Qed.

Example truediv_overflow : int_truediv (10 ^ 400) 1 = Raise OverflowError.
Proof. vm_compute. reflexivity. Qed.

Example float_of_int_1 : float_of_int 1 = Ok float_1_0.
Proof. reflexivity. Qed.

Example float_of_int_6 : float_of_int 6 = Ok float_6_0.
Proof. reflexivity. Qed.

(** Scenario A in full: strike rate 400.0, economy 24.0, overs 0.2. *)
Example scenario_A_snapshot :
  reportdeepseek_v3.process_stats scenario_A =
  Ok {| reportdeepseek_v3.batting :=
          [("P1", {| reportdeepseek_v3.bat_runs := 4;
                     reportdeepseek_v3.bat_balls := 1;
                     reportdeepseek_v3.bat_4s := 1;
                     reportdeepseek_v3.bat_6s := 0;
                     reportdeepseek_v3.strike_rate :=
                       Some (Float (S754_finite false 7036874417766400 (-44))) |})];
        reportdeepseek_v3.bowling :=
          [("B1", {| reportdeepseek_v3.bowl_runs := 4;
                     reportdeepseek_v3.bowl_wickets := 0;
                     reportdeepseek_v3.bowl_balls := 1;
                     reportdeepseek_v3.economy :=
                       Some (Float (S754_finite false 6755399441055744 (-48)));
                     reportdeepseek_v3.overs :=
                       Some (Float (S754_finite false 7205759403792794 (-55))) |})];
        reportdeepseek_v3.team_scores := [("T1", 4)] |}.
Proof. vm_compute. reflexivity. Qed.

(** On a well-formed record the two aggregators agree on every statistic
    both compute, the wickets apart: the second never counts one. *)
Lemma aggregators_agree_except_wickets (data : MatchRecord) :
  well_formed data ->
  exists sv sy,
    reportdeepseek_v3.process_stats data = Ok sv /\
    yamlopenrouteragent.process_match_data data = Ok sy /\
    yamlopenrouteragent.team_scores sy = reportdeepseek_v3.team_scores sv /\
    (forall name,
        option_map (fun e => (yamlopenrouteragent.bat_runs e,
                              yamlopenrouteragent.bat_balls e,
                              yamlopenrouteragent.strike_rate e))
          (get name (yamlopenrouteragent.batting sy)) =
        option_map (fun e => (reportdeepseek_v3.bat_runs e,
                              reportdeepseek_v3.bat_balls e,
                              reportdeepseek_v3.strike_rate e))
          (get name (reportdeepseek_v3.batting sv))) /\
    (forall name,
        option_map (fun e => (yamlopenrouteragent.bowl_runs e,
                              yamlopenrouteragent.bowl_balls e,
                              yamlopenrouteragent.economy e))
          (get name (yamlopenrouteragent.bowling sy)) =
        option_map (fun e => (reportdeepseek_v3.bowl_runs e,
                              reportdeepseek_v3.bowl_balls e,
                              reportdeepseek_v3.economy e))
          (get name (reportdeepseek_v3.bowling sv))) /\
    (forall name e,
        get name (yamlopenrouteragent.bowling sy) = Some e ->
        yamlopenrouteragent.bowl_wickets e = 0).
Proof.
  intros Hwf.
  destruct (v3_process_stats_total data Hwf) as (sv & Hrun & _).
  exists sv. eexists. split; [exact Hrun |].
  split; [rewrite yaml_refines_v3, Hrun; reflexivity |].
  cbn [yaml_of_stats yamlopenrouteragent.batting yamlopenrouteragent.bowling
       yamlopenrouteragent.team_scores].
  split; [reflexivity |]. split; [| split].
  - intros name. rewrite get_map_dict.
    destruct (get name (reportdeepseek_v3.batting sv)); reflexivity.
  - intros name. rewrite get_map_dict.
    destruct (get name (reportdeepseek_v3.bowling sv)); reflexivity.
  - intros name e. rewrite get_map_dict.
    destruct (get name (reportdeepseek_v3.bowling sv)); [| discriminate].
    intros H. inversion H. reflexivity.
Qed.

(** ** Lookups after an update *)

Lemma get_default_update_same {V : Type} (dflt : V) (k : string) (f : V -> V)
  (d : dict V) :
  get_default dflt k (defaultdict_update dflt k f d) = f (get_default dflt k d).
Proof. unfold get_default at 1. rewrite get_update_same. reflexivity. Qed.

Lemma get_default_update_other {V : Type} (dflt : V) (k k' : string)
  (f : V -> V) (d : dict V) :
  k' <> k ->
  get_default dflt k' (defaultdict_update dflt k f d) = get_default dflt k' d.
Proof.
  intros Hne. unfold get_default. rewrite get_update_other by exact Hne.
  reflexivity.
Qed.

Lemma get_default_incr (k x : string) (d : dict Z) :
  get_default 0 k (defaultdict_update 0 x (fun v => v + 1) d) =
  get_default 0 k d + (if String.eqb k x then 1 else 0).
Proof.
  destruct (String.eqb_spec k x) as [-> | Hne].
  - rewrite get_default_update_same. reflexivity.
  - rewrite get_default_update_other by exact Hne. lia.
Qed.

Lemma count_extras_fold (k : string) (l : list string) (ex : dict Z) :
  get_default 0 k (fold_left yamlopenrouteragent.count_extra l ex) =
  get_default 0 k ex + occurrences k l +
  (if String.eqb k "total" then Z.of_nat (List.length l) else 0).
Proof.
  unfold occurrences. revert ex.
  induction l as [| x l IH]; intros ex.
  - simpl. destruct (String.eqb k "total"); lia.
  - cbn [fold_left]. rewrite IH.
    unfold yamlopenrouteragent.count_extra. rewrite !get_default_incr.
    cbn [count_occ List.length].
    destruct (string_dec x k) as [-> | Hne].
    + rewrite String.eqb_refl. destruct (String.eqb k "total"); lia.
    + assert (E : String.eqb k x = false)
        by (apply String.eqb_neq; congruence).
      rewrite E. destruct (String.eqb k "total"); lia.
Qed.

(** ** Folding updates into a dictionary *)

Section FoldUpdates.
Context {A V : Type}.
Variable dflt : V.
Variable key_of : A -> string.
Variable upd : A -> V -> V.

Let apply_all (l : list A) (s : dict V) : dict V :=
  fold_left (fun s a => defaultdict_update dflt (key_of a) (upd a) s) l s.

Lemma get_fold_update (l : list A) (s : dict V) (name : string) :
  get name (apply_all l s) =
  match filter (fun a => String.eqb (key_of a) name) l with
  | [] => get name s
  | mine =>
      Some (fold_left (fun v a => upd a v) mine (get_default dflt name s))
  end.
Proof.
  unfold apply_all. revert s.
  induction l as [| a l IH]; intros s; simpl; [reflexivity |].
  rewrite IH. destruct (String.eqb_spec (key_of a) name) as [E | E].
  - subst name. rewrite get_default_update_same.
    destruct (filter _ l); [apply get_update_same | reflexivity].
  - rewrite get_default_update_other by congruence.
    rewrite get_update_other by congruence. reflexivity.
Qed.

Lemma keys_update (k : string) (f : V -> V) (s : dict V) :
  keys (defaultdict_update dflt k f s) =
  if existsb (String.eqb k) (keys s) then keys s else (keys s ++ [k])%list.
Proof.
  unfold keys. induction s as [| [k' v] s IH]; simpl; [reflexivity |].
  destruct (String.eqb k k'); simpl; [reflexivity |].
  rewrite IH. destruct (existsb _ _); reflexivity.
Qed.

Lemma keys_fold_update (l : list A) (s : dict V) :
  keys (apply_all l s) =
  (keys s ++
   filter (fun k => negb (existsb (String.eqb k) (keys s)))
     (first_seen (map key_of l)))%list.
Proof.
  unfold apply_all. revert s.
  induction l as [| a l IH]; intros s; simpl.
  - rewrite app_nil_r. reflexivity.
  - rewrite IH, keys_update.
    set (fs := first_seen (map key_of l)).
    destruct (existsb (String.eqb (key_of a)) (keys s)) eqn:E; simpl.
    + f_equal. induction fs as [| x fs IHfs]; simpl; [reflexivity |].
      destruct (String.eqb_spec x (key_of a)) as [-> | Hne]; simpl.
      * rewrite E. simpl. exact IHfs.
      * rewrite IHfs. reflexivity.
    + rewrite <- app_assoc. simpl. f_equal. f_equal.
      induction fs as [| x fs IHfs]; simpl; [reflexivity |].
      rewrite existsb_app. simpl. rewrite orb_false_r.
      destruct (String.eqb_spec x (key_of a)) as [-> | Hne]; simpl.
      * rewrite orb_true_r. simpl. exact IHfs.
      * rewrite orb_false_r. rewrite IHfs. reflexivity.
Qed.

Lemma sum_fold_update (g : V -> Z) (delta : A -> Z) (l : list A) (s : dict V) :
  g dflt = 0 -> (forall a v, g (upd a v) = g v + delta a) ->
  sum (map g (values (apply_all l s))) =
  sum (map g (values s)) + sum (map delta l).
Proof.
  intros Hd Hu. unfold apply_all. revert s.
  induction l as [| a l IH]; intros s; simpl; [lia |].
  rewrite IH.
  assert (Hs : forall d : dict V,
             sum (map g (values (defaultdict_update dflt (key_of a) (upd a) d))) =
             sum (map g (values d)) + delta a).
  { unfold values. induction d as [| [k v] d IHd]; simpl.
    - rewrite Hu, Hd. lia.
    - destruct (String.eqb (key_of a) k); simpl; [rewrite Hu | rewrite IHd]; lia. }
  rewrite Hs. lia.
Qed.
End FoldUpdates.

Lemma map_values_lookup {V W : Type} (f : V -> result W) (d : dict V)
  (d' : dict W) (k : string) :
  map_values f d = Ok d' ->
  match get k d with
  | None => get k d' = None
  | Some v => exists w, f v = Ok w /\ get k d' = Some w
  end.
Proof.
  revert d'. induction d as [| [k0 v] d IH]; simpl; intros d' H.
  - inversion H. reflexivity.
  - destruct (f v) as [w0 |] eqn:Ef; [| discriminate]. cbn [bind] in H.
    destruct (map_values f d) as [d0 |]; [| discriminate]. cbn [bind] in H.
    inversion H; subst d'. simpl.
    destruct (String.eqb k k0); [eauto | apply IH; reflexivity].
Qed.

Lemma map_values_keys {V W : Type} (f : V -> result W) (d : dict V)
  (d' : dict W) :
  map_values f d = Ok d' -> keys d' = keys d.
Proof.
  unfold keys. revert d'. induction d as [| [k0 v] d IH]; simpl; intros d' H.
  - inversion H. reflexivity.
  - destruct (f v) as [w0 |]; [| discriminate]. cbn [bind] in H.
    destruct (map_values f d) as [d0 |]; [| discriminate]. cbn [bind] in H.
    inversion H; subst d'. simpl. f_equal. apply IH. reflexivity.
Qed.

Lemma filter_map_snd {A B : Type} (p : B -> bool) (l : list (A * B)) :
  filter p (map snd l) = map snd (filter (fun x => p (snd x)) l).
Proof.
  induction l as [| x l IH]; simpl; [reflexivity |].
  destruct (p (snd x)); simpl; rewrite IH; reflexivity.
Qed.

(** ** The loops of the first aggregator, dictionary by dictionary *)

Lemma v3_fold_batting (tds : list (string * Delivery))
  (s : reportdeepseek_v3.Stats) :
  reportdeepseek_v3.batting (fold_left v3_apply tds s) =
  fold_left
    (fun b d =>
       defaultdict_update reportdeepseek_v3.new_batting
         (batsman_of (ball_data d))
         (v3_bat_step (batsman_runs_of (ball_data d))) b)
    (map snd tds) (reportdeepseek_v3.batting s).
Proof.
  revert s. induction tds as [| td tds IH]; intros s; simpl; [reflexivity |].
  rewrite IH. reflexivity.
Qed.

Lemma v3_fold_bowling_deliveries (tds : list (string * Delivery))
  (s : reportdeepseek_v3.Stats) :
  reportdeepseek_v3.bowling (fold_left v3_apply tds s) =
  fold_left
    (fun b d =>
       defaultdict_update reportdeepseek_v3.new_bowling
         (bowler_of (ball_data d))
         (v3_bowl_step (total_runs_of (ball_data d))
            (has_wicket (ball_data d))) b)
    (map snd tds) (reportdeepseek_v3.bowling s).
Proof.
  revert s. induction tds as [| td tds IH]; intros s; simpl; [reflexivity |].
  rewrite IH. reflexivity.
Qed.

Lemma v3_fold_teams (tds : list (string * Delivery))
  (s : reportdeepseek_v3.Stats) :
  reportdeepseek_v3.team_scores (fold_left v3_apply tds s) =
  fold_left
    (fun t td =>
       defaultdict_update 0 (fst td)
         (fun v => v + total_runs_of (ball_data (snd td))) t)
    tds (reportdeepseek_v3.team_scores s).
Proof.
  revert s. induction tds as [| td tds IH]; intros s; simpl; [reflexivity |].
  rewrite IH. reflexivity.
Qed.

Lemma v3_bat_steps (mine : list Delivery) (e : reportdeepseek_v3.BattingEntry) :
  let e' := fold_left
              (fun v d => v3_bat_step (batsman_runs_of (ball_data d)) v) mine e
  in
  reportdeepseek_v3.bat_runs e' =
    reportdeepseek_v3.bat_runs e +
    sum (map (fun d => batsman_runs_of (ball_data d)) mine) /\
  reportdeepseek_v3.bat_balls e' =
    reportdeepseek_v3.bat_balls e + Z.of_nat (List.length mine) /\
  reportdeepseek_v3.bat_4s e' =
    reportdeepseek_v3.bat_4s e +
    count_if (fun d => batsman_runs_of (ball_data d) =? 4) mine /\
  reportdeepseek_v3.bat_6s e' =
    reportdeepseek_v3.bat_6s e +
    count_if (fun d => batsman_runs_of (ball_data d) =? 6) mine /\
  reportdeepseek_v3.strike_rate e' = reportdeepseek_v3.strike_rate e.
Proof.
  unfold count_if. revert e.
  induction mine as [| d mine IH]; intros e; cbn [fold_left].
  - simpl. repeat split; lia.
  - destruct (IH (v3_bat_step (batsman_runs_of (ball_data d)) e))
      as (H1 & H2 & H3 & H4 & H5).
    cbv zeta. rewrite H1, H2, H3, H4, H5.
    unfold v3_bat_step.
    cbn [reportdeepseek_v3.bat_runs reportdeepseek_v3.bat_balls
         reportdeepseek_v3.bat_4s reportdeepseek_v3.bat_6s
         reportdeepseek_v3.strike_rate map filter sum fold_right].
    fold (sum (map (fun d0 => batsman_runs_of (ball_data d0)) mine)).
    destruct (batsman_runs_of (ball_data d) =? 4);
      destruct (batsman_runs_of (ball_data d) =? 6);
      cbn [List.length]; repeat split; lia.
Qed.

Lemma v3_bowl_steps (mine : list Delivery) (e : reportdeepseek_v3.BowlingEntry) :
  let e' := fold_left
              (fun v d => v3_bowl_step (total_runs_of (ball_data d))
                            (has_wicket (ball_data d)) v) mine e
  in
  reportdeepseek_v3.bowl_runs e' =
    reportdeepseek_v3.bowl_runs e +
    sum (map (fun d => total_runs_of (ball_data d)) mine) /\
  reportdeepseek_v3.bowl_balls e' =
    reportdeepseek_v3.bowl_balls e + Z.of_nat (List.length mine) /\
  reportdeepseek_v3.bowl_wickets e' =
    reportdeepseek_v3.bowl_wickets e +
    count_if (fun d => has_wicket (ball_data d)) mine.
Proof.
  unfold count_if. revert e.
  induction mine as [| d mine IH]; intros e; cbn [fold_left].
  - simpl. repeat split; lia.
  - destruct (IH (v3_bowl_step (total_runs_of (ball_data d))
                    (has_wicket (ball_data d)) e)) as (H1 & H2 & H3).
    cbv zeta. rewrite H1, H2, H3.
    unfold v3_bowl_step.
    cbn [reportdeepseek_v3.bowl_runs reportdeepseek_v3.bowl_balls
         reportdeepseek_v3.bowl_wickets map filter sum fold_right].
    fold (sum (map (fun d0 => total_runs_of (ball_data d0)) mine)).
    destruct (has_wicket (ball_data d)); cbn [List.length];
      repeat split; lia.
Qed.

Lemma v3_snapshot (data : MatchRecord) :
  well_formed data ->
  exists s,
    reportdeepseek_v3.process_stats data = Ok s /\
    reportdeepseek_v3.team_scores s =
      reportdeepseek_v3.team_scores (v3_loop data) /\
    map_values reportdeepseek_v3.derive_batting
      (reportdeepseek_v3.batting (v3_loop data)) =
      Ok (reportdeepseek_v3.batting s) /\
    map_values reportdeepseek_v3.derive_bowling
      (reportdeepseek_v3.bowling (v3_loop data)) =
      Ok (reportdeepseek_v3.bowling s).
Proof.
  intros Hwf.
  destruct (v3_process_stats_total data Hwf) as (s & Hrun & Hcalc).
  exists s. split; [exact Hrun |]. apply v3_calculate_fields. exact Hcalc.
Qed.

Lemma v3_derive_batting_fields (e0 e : reportdeepseek_v3.BattingEntry) :
  reportdeepseek_v3.derive_batting e0 = Ok e ->
  reportdeepseek_v3.bat_runs e = reportdeepseek_v3.bat_runs e0 /\
  reportdeepseek_v3.bat_balls e = reportdeepseek_v3.bat_balls e0 /\
  reportdeepseek_v3.bat_4s e = reportdeepseek_v3.bat_4s e0 /\
  reportdeepseek_v3.bat_6s e = reportdeepseek_v3.bat_6s e0.
Proof.
  rewrite v3_derive_batting_spec.
  destruct (spec_strike_rate _ _); cbn [bind]; [| discriminate].
  intros H. inversion H. cbn. auto.
Qed.

Lemma v3_derive_bowling_fields (e0 e : reportdeepseek_v3.BowlingEntry) :
  reportdeepseek_v3.derive_bowling e0 = Ok e ->
  reportdeepseek_v3.bowl_runs e = reportdeepseek_v3.bowl_runs e0 /\
  reportdeepseek_v3.bowl_balls e = reportdeepseek_v3.bowl_balls e0 /\
  reportdeepseek_v3.bowl_wickets e = reportdeepseek_v3.bowl_wickets e0.
Proof.
  unfold reportdeepseek_v3.derive_bowling.
  destruct (int_truediv _ 6) as [o |]; cbn [bind]; [| discriminate].
  destruct (float_gt0 o); [destruct (int_float_truediv _ o) |]; cbn [bind];
    try discriminate; intros H; inversion H; cbn; auto.
Qed.

Lemma v3_loop_batting_get (data : MatchRecord) (name : string) :
  get name (reportdeepseek_v3.batting (v3_loop data)) =
  match filter (faced_by name) (all_deliveries data) with
  | [] => None
  | mine =>
      Some (fold_left
              (fun v d => v3_bat_step (batsman_runs_of (ball_data d)) v)
              mine reportdeepseek_v3.new_batting)
  end.
Proof.
  unfold v3_loop. rewrite v3_fold_batting, all_deliveries_tagged.
  apply (get_fold_update reportdeepseek_v3.new_batting
           (fun d => batsman_of (ball_data d))
           (fun d => v3_bat_step (batsman_runs_of (ball_data d)))).
Qed.

Lemma v3_loop_bowling_get (data : MatchRecord) (name : string) :
  get name (reportdeepseek_v3.bowling (v3_loop data)) =
  match filter (bowled_by name) (all_deliveries data) with
  | [] => None
  | mine =>
      Some (fold_left
              (fun v d => v3_bowl_step (total_runs_of (ball_data d))
                            (has_wicket (ball_data d)) v)
              mine reportdeepseek_v3.new_bowling)
  end.
Proof.
  unfold v3_loop. rewrite v3_fold_bowling_deliveries, all_deliveries_tagged.
  apply (get_fold_update reportdeepseek_v3.new_bowling
           (fun d => bowler_of (ball_data d))
           (fun d => v3_bowl_step (total_runs_of (ball_data d))
                       (has_wicket (ball_data d)))).
Qed.

(** * The claims *)

(** C1.  For every delivery processed, [update_batting_stats] adds the
    delivery's batsman runs to the batsman's runs and exactly 1 to the balls;
    the fours grow by 1 exactly when the batsman runs equal 4 and the sixes by
    1 exactly when they equal 6, so that 5 moves neither counter; no other
    batsman's entry changes.  The loop body of [process_match_data], which
    keeps no boundary counters, returns on a delivery that also names its
    bowler and its total runs, and has then updated runs and balls the same
    way. *)
Theorem batting_update_per_delivery :
  forall (bd : BallData) (b : string) (rs : Runs) (r : Z),
    batsman bd = Some b -> runs bd = Some rs -> runs_batsman rs = Some r ->
    (forall stats, exists stats',
        reportdeepseek_v3.update_batting_stats stats bd = Ok stats' /\
        (let old := get_default reportdeepseek_v3.new_batting b stats in
         get b stats' =
         Some {| reportdeepseek_v3.bat_runs := reportdeepseek_v3.bat_runs old + r;
                 reportdeepseek_v3.bat_balls := reportdeepseek_v3.bat_balls old + 1;
                 reportdeepseek_v3.bat_4s :=
                   reportdeepseek_v3.bat_4s old + (if r =? 4 then 1 else 0);
                 reportdeepseek_v3.bat_6s :=
                   reportdeepseek_v3.bat_6s old + (if r =? 6 then 1 else 0);
                 reportdeepseek_v3.strike_rate :=
                   reportdeepseek_v3.strike_rate old |}) /\
        (forall b', b' <> b -> get b' stats' = get b' stats)) /\
    (forall (bw : string) (t : Z) team s d,
        ball_data d = bd -> bowler bd = Some bw -> runs_total rs = Some t ->
        exists s',
          yamlopenrouteragent.process_delivery team s d = Ok s' /\
          (let old := get_default yamlopenrouteragent.new_batting b
                        (yamlopenrouteragent.batting s) in
           get b (yamlopenrouteragent.batting s') =
           Some {| yamlopenrouteragent.bat_runs :=
                     yamlopenrouteragent.bat_runs old + r;
                   yamlopenrouteragent.bat_balls :=
                     yamlopenrouteragent.bat_balls old + 1;
                   yamlopenrouteragent.strike_rate :=
                     yamlopenrouteragent.strike_rate old |}) /\
          (forall b', b' <> b ->
             get b' (yamlopenrouteragent.batting s') =
             get b' (yamlopenrouteragent.batting s))).
Proof.
  intros bd b rs r Hb Hrs Hr. split.
  - intros stats. eexists. split; [| split].
    + apply (v3_update_batting_ok stats bd b rs r Hb Hrs Hr).
    + cbv zeta. rewrite get_update_same. reflexivity.
    + intros b' Hne. apply get_update_other. exact Hne.
  - intros bw t team s d Hd Hbw Ht. subst bd.
    assert (E : missing_key (ball_data d) = None)
      by (unfold missing_key; rewrite Hb, Hrs, Hr, Hbw, Ht; reflexivity).
    exists (yaml_apply s (team, d)).
    split; [apply (yaml_process_delivery_ok team s d E) |].
    cbn [yaml_apply yamlopenrouteragent.batting snd].
    unfold batsman_of, batsman_runs_of. rewrite Hb, Hrs, Hr.
    split.
    + cbv zeta. rewrite get_update_same. reflexivity.
    + intros b' Hne. apply get_update_other. exact Hne.
Qed.

Lemma batting_update_witness :
  (exists stats',
      reportdeepseek_v3.update_batting_stats []
        (ball_data (mk_ball "0.1" "P1" "B1" 4 4 None None)) = Ok stats' /\
      get "P1" stats' =
      Some {| reportdeepseek_v3.bat_runs := 4; reportdeepseek_v3.bat_balls := 1;
              reportdeepseek_v3.bat_4s := 1; reportdeepseek_v3.bat_6s := 0;
              reportdeepseek_v3.strike_rate := None |}) /\
  (exists s',
      yamlopenrouteragent.process_delivery "T1" yamlopenrouteragent.new_stats
        (mk_ball "0.1" "P1" "B1" 4 4 None None) = Ok s' /\
      get "P1" (yamlopenrouteragent.batting s') =
      Some {| yamlopenrouteragent.bat_runs := 4;
              yamlopenrouteragent.bat_balls := 1;
              yamlopenrouteragent.strike_rate := None |}).
Proof.
  destruct (batting_update_per_delivery
              (ball_data (mk_ball "0.1" "P1" "B1" 4 4 None None)) "P1"
              {| runs_batsman := Some 4; runs_extras := Some (4 - 4);
                 runs_total := Some 4 |} 4 eq_refl eq_refl eq_refl)
    as [Hv3 Hyaml].
  split.
  - destruct (Hv3 []) as (stats' & Hrun & Hget & _).
    exists stats'. split; [exact Hrun | exact Hget].
  - destruct (Hyaml "B1" 4 "T1" yamlopenrouteragent.new_stats
                (mk_ball "0.1" "P1" "B1" 4 4 None None)
                eq_refl eq_refl eq_refl) as (s' & Hrun & Hget & _).
    exists s'. split; [exact Hrun | exact Hget].
Defined.

(** C3.  For every well-formed record both aggregators return a snapshot in
    which the team scores add up to the sum of the total-runs field of every
    delivery of every innings. *)
Theorem team_scores_sum_to_total_runs :
  forall data : MatchRecord,
    well_formed data ->
    (exists s, reportdeepseek_v3.process_stats data = Ok s /\
               sum (values (reportdeepseek_v3.team_scores s)) =
               total_runs_sum data) /\
    (exists s, yamlopenrouteragent.process_match_data data = Ok s /\
               sum (values (yamlopenrouteragent.team_scores s)) =
               total_runs_sum data).
Proof.
  intros data Hwf.
  destruct (v3_process_stats_total data Hwf) as (s & Hrun & Hcalc).
  destruct (v3_calculate_fields _ _ Hcalc) as (Hteam & _ & _).
  assert (Hsum : sum (values (reportdeepseek_v3.team_scores s)) =
                 total_runs_sum data)
    by (rewrite Hteam; apply v3_loop_team_scores).
  split.
  - exists s. split; [exact Hrun | exact Hsum].
  - eexists. split.
    + rewrite yaml_refines_v3, Hrun. reflexivity.
    + exact Hsum.
Qed.

Lemma team_scores_witness :
  (exists s, reportdeepseek_v3.process_stats scenario_A = Ok s /\
             sum (values (reportdeepseek_v3.team_scores s)) =
             total_runs_sum scenario_A) /\
  (exists s, yamlopenrouteragent.process_match_data scenario_A = Ok s /\
             sum (values (yamlopenrouteragent.team_scores s)) =
             total_runs_sum scenario_A).
Proof.
  apply (team_scores_sum_to_total_runs scenario_A).
  split; [repeat constructor | reflexivity].
Defined.

(** C2.  For every well-formed record both aggregators return a snapshot in
    which the batsman and the bowler of every delivery have an entry, every
    batsman has [balls > 0] and a strike rate equal to
    [round(runs / balls * 100, 2)], and every bowler has [balls > 0] and an
    economy equal to [round(runs / (balls / 6), 2)]; the first aggregator also
    stores [overs = round(balls / 6, 1)].  Its guards give the int [0] as the
    rate of an entry whose [balls] is 0. *)
Theorem derived_rates_follow_formulas :
  forall data : MatchRecord,
    well_formed data ->
    (exists s,
        reportdeepseek_v3.process_stats data = Ok s /\
        (forall d, In d (all_deliveries data) ->
            exists e,
              get (batsman_of (ball_data d)) (reportdeepseek_v3.batting s) =
              Some e) /\
        (forall name e,
            get name (reportdeepseek_v3.batting s) = Some e ->
            0 < reportdeepseek_v3.bat_balls e /\
            exists v,
              spec_strike_rate (reportdeepseek_v3.bat_runs e)
                (reportdeepseek_v3.bat_balls e) = Ok v /\
              reportdeepseek_v3.strike_rate e = Some v) /\
        (forall d, In d (all_deliveries data) ->
            exists e,
              get (bowler_of (ball_data d)) (reportdeepseek_v3.bowling s) =
              Some e) /\
        (forall name e,
            get name (reportdeepseek_v3.bowling s) = Some e ->
            0 < reportdeepseek_v3.bowl_balls e /\
            exists ec ov,
              spec_economy (reportdeepseek_v3.bowl_runs e)
                (reportdeepseek_v3.bowl_balls e) = Ok ec /\
              spec_overs (reportdeepseek_v3.bowl_balls e) = Ok ov /\
              reportdeepseek_v3.economy e = Some ec /\
              reportdeepseek_v3.overs e = Some ov)) /\
    (exists s,
        yamlopenrouteragent.process_match_data data = Ok s /\
        (forall d, In d (all_deliveries data) ->
            exists e,
              get (batsman_of (ball_data d)) (yamlopenrouteragent.batting s) =
              Some e) /\
        (forall name e,
            get name (yamlopenrouteragent.batting s) = Some e ->
            0 < yamlopenrouteragent.bat_balls e /\
            exists v,
              spec_strike_rate (yamlopenrouteragent.bat_runs e)
                (yamlopenrouteragent.bat_balls e) = Ok v /\
              yamlopenrouteragent.strike_rate e = Some v) /\
        (forall d, In d (all_deliveries data) ->
            exists e,
              get (bowler_of (ball_data d)) (yamlopenrouteragent.bowling s) =
              Some e) /\
        (forall name e,
            get name (yamlopenrouteragent.bowling s) = Some e ->
            0 < yamlopenrouteragent.bowl_balls e /\
            exists ec,
              spec_economy (yamlopenrouteragent.bowl_runs e)
                (yamlopenrouteragent.bowl_balls e) = Ok ec /\
              yamlopenrouteragent.economy e = Some ec)) /\
    (forall e, reportdeepseek_v3.bat_balls e = 0 ->
       reportdeepseek_v3.derive_batting e =
       Ok (reportdeepseek_v3.set_strike_rate (Int 0) e)) /\
    (forall e, reportdeepseek_v3.bowl_balls e = 0 ->
       exists ov,
         reportdeepseek_v3.derive_bowling e =
         Ok (reportdeepseek_v3.set_economy_overs (Int 0) ov e)).
Proof.
  intros data Hwf.
  destruct (v3_process_stats_total data Hwf) as (s & Hrun & Hcalc).
  destruct (v3_calculate_fields _ _ Hcalc) as (_ & Hbat & Hbowl).
  destruct (v3_loop_bounded data) as [Ibat Ibowl].
  rewrite Forall_forall in Ibat, Ibowl.
  assert (Ebat : forall d, In d (all_deliveries data) ->
             exists e,
               get (batsman_of (ball_data d)) (reportdeepseek_v3.batting s) =
               Some e).
  { intros d Hin.
    pose proof (map_values_lookup _ _ _ (batsman_of (ball_data d)) Hbat) as Hl.
    rewrite v3_loop_batting_get in Hl.
    destruct (filter (faced_by (batsman_of (ball_data d))) (all_deliveries data))
      as [| x l] eqn:Ef.
    - assert (Hd : In d []); [| contradiction].
      rewrite <- Ef. apply filter_In. split; [exact Hin |].
      apply String.eqb_refl.
    - destruct Hl as (w & _ & Hw). eauto. }
  assert (Ebowl : forall d, In d (all_deliveries data) ->
             exists e,
               get (bowler_of (ball_data d)) (reportdeepseek_v3.bowling s) =
               Some e).
  { intros d Hin.
    pose proof (map_values_lookup _ _ _ (bowler_of (ball_data d)) Hbowl) as Hl.
    rewrite v3_loop_bowling_get in Hl.
    destruct (filter (bowled_by (bowler_of (ball_data d))) (all_deliveries data))
      as [| x l] eqn:Ef.
    - assert (Hd : In d []); [| contradiction].
      rewrite <- Ef. apply filter_In. split; [exact Hin |].
      apply String.eqb_refl.
    - destruct Hl as (w & _ & Hw). eauto. }
  assert (Pbat : forall name e,
             get name (reportdeepseek_v3.batting s) = Some e ->
             0 < reportdeepseek_v3.bat_balls e /\
             exists v,
               spec_strike_rate (reportdeepseek_v3.bat_runs e)
                 (reportdeepseek_v3.bat_balls e) = Ok v /\
               reportdeepseek_v3.strike_rate e = Some v).
  { intros name e Hget.
    destruct (map_values_get _ _ _ _ _ Hbat Hget) as (e0 & Hget0 & Hder).
    destruct (Ibat e0 (get_In_values _ _ _ Hget0)) as [Hballs _].
    rewrite v3_derive_batting_spec in Hder.
    destruct (spec_strike_rate _ _) as [v |] eqn:Ev; [| discriminate].
    inversion Hder; subst e. cbn. split; [lia | eauto]. }
  assert (Pbowl : forall name e,
             get name (reportdeepseek_v3.bowling s) = Some e ->
             0 < reportdeepseek_v3.bowl_balls e /\
             exists ec ov,
               spec_economy (reportdeepseek_v3.bowl_runs e)
                 (reportdeepseek_v3.bowl_balls e) = Ok ec /\
               spec_overs (reportdeepseek_v3.bowl_balls e) = Ok ov /\
               reportdeepseek_v3.economy e = Some ec /\
               reportdeepseek_v3.overs e = Some ov).
  { intros name e Hget.
    destruct (map_values_get _ _ _ _ _ Hbowl Hget) as (e0 & Hget0 & Hder).
    destruct (Ibowl e0 (get_In_values _ _ _ Hget0)) as [Hballs _].
    rewrite v3_derive_bowling_spec in Hder by lia.
    destruct (spec_economy _ _) as [ec |] eqn:Ec; [| discriminate].
    destruct (spec_overs _) as [ov |] eqn:Eo; [| discriminate].
    inversion Hder; subst e. cbn. split; [lia | eauto 6]. }
  split; [exists s; auto |]. split.
  - eexists. split; [rewrite yaml_refines_v3, Hrun; reflexivity |].
    cbn [yaml_of_stats yamlopenrouteragent.batting yamlopenrouteragent.bowling].
    split; [| split; [| split]].
    + intros d Hin. destruct (Ebat d Hin) as [e He].
      rewrite get_map_dict, He. cbn [option_map]. eauto.
    + intros name e Hget. rewrite get_map_dict in Hget.
      destruct (get name (reportdeepseek_v3.batting s)) as [e0 |] eqn:E0;
        [| discriminate].
      inversion Hget; subst e. cbn. exact (Pbat name e0 E0).
    + intros d Hin. destruct (Ebowl d Hin) as [e He].
      rewrite get_map_dict, He. cbn [option_map]. eauto.
    + intros name e Hget. rewrite get_map_dict in Hget.
      destruct (get name (reportdeepseek_v3.bowling s)) as [e0 |] eqn:E0;
        [| discriminate].
      inversion Hget; subst e. cbn.
      destruct (Pbowl name e0 E0) as (Hb & ec & ov & H1 & _ & H2 & _). eauto.
  - split.
    + intros e He. unfold reportdeepseek_v3.derive_batting. rewrite He.
      reflexivity.
    + intros e He. unfold reportdeepseek_v3.derive_bowling. rewrite He.
      eexists. reflexivity.
Qed.

Lemma derived_rates_witness :
  (exists s eb ew,
      reportdeepseek_v3.process_stats scenario_A = Ok s /\
      get "P1" (reportdeepseek_v3.batting s) = Some eb /\
      reportdeepseek_v3.bat_runs eb = 4 /\
      reportdeepseek_v3.bat_balls eb = 1 /\
      reportdeepseek_v3.strike_rate eb = Some (Float float_400_0) /\
      get "B1" (reportdeepseek_v3.bowling s) = Some ew /\
      reportdeepseek_v3.bowl_runs ew = 4 /\
      reportdeepseek_v3.bowl_balls ew = 1 /\
      reportdeepseek_v3.economy ew = Some (Float float_24_0) /\
      reportdeepseek_v3.overs ew = Some (Float float_0_2)) /\
  (exists s eb ew,
      yamlopenrouteragent.process_match_data scenario_A = Ok s /\
      get "P1" (yamlopenrouteragent.batting s) = Some eb /\
      yamlopenrouteragent.bat_runs eb = 4 /\
      yamlopenrouteragent.bat_balls eb = 1 /\
      yamlopenrouteragent.strike_rate eb = Some (Float float_400_0) /\
      get "B1" (yamlopenrouteragent.bowling s) = Some ew /\
      yamlopenrouteragent.bowl_runs ew = 4 /\
      yamlopenrouteragent.bowl_balls ew = 1 /\
      yamlopenrouteragent.economy ew = Some (Float float_24_0)).
Proof.
  destruct (derived_rates_follow_formulas scenario_A)
    as [(s & Hrun & Ebat & Hbat & Ebowl & Hbowl)
          [(sy & Hruny & Ebaty & Hbaty & Ebowly & Hbowly) _]].
  - split; [repeat constructor | reflexivity].
  - split.
    + destruct (Ebat (mk_ball "0.1" "P1" "B1" 4 4 None None)
                  (or_introl eq_refl)) as [eb Hgb].
      destruct (Ebowl (mk_ball "0.1" "P1" "B1" 4 4 None None)
                  (or_introl eq_refl)) as [ew Hgw].
      destruct (Hbat _ eb Hgb) as (_ & v & Hv & Hsr).
      destruct (Hbowl _ ew Hgw) as (_ & ec & ov & Hec & Hov & Heco & Hove).
      exists s, eb, ew.
      rewrite scenario_A_snapshot in Hrun. injection Hrun as Hs. subst s.
      vm_compute in Hgb. injection Hgb as Hb. subst eb.
      vm_compute in Hgw. injection Hgw as Hw. subst ew.
      vm_compute in Hv. injection Hv as Hv. subst v.
      vm_compute in Hec. injection Hec as Hec. subst ec.
      vm_compute in Hov. injection Hov as Hov. subst ov.
      split; [exact scenario_A_snapshot |].
      repeat split; try reflexivity; assumption.
    + destruct (Ebaty (mk_ball "0.1" "P1" "B1" 4 4 None None)
                  (or_introl eq_refl)) as [eb Hgb].
      destruct (Ebowly (mk_ball "0.1" "P1" "B1" 4 4 None None)
                  (or_introl eq_refl)) as [ew Hgw].
      destruct (Hbaty _ eb Hgb) as (_ & v & Hv & Hsr).
      destruct (Hbowly _ ew Hgw) as (_ & ec & Hec & Heco).
      exists sy, eb, ew.
      split; [exact Hruny |].
      vm_compute in Hruny. injection Hruny as Hs. subst sy.
      vm_compute in Hgb. injection Hgb as Hb. subst eb.
      vm_compute in Hgw. injection Hgw as Hw. subst ew.
      vm_compute in Hv. injection Hv as Hv. subst v.
      vm_compute in Hec. injection Hec as Hec. subst ec.
      repeat split; try reflexivity; assumption.
Defined.

(** C8.  Neither aggregator raises [ZeroDivisionError], on any record: the
    first guards its divisions, and the second divides only in entries that a
    processed delivery created, whose [balls] is at least 1. *)
Theorem no_division_by_zero :
  forall data : MatchRecord,
    reportdeepseek_v3.process_stats data <> Raise ZeroDivisionError /\
    yamlopenrouteragent.process_match_data data <> Raise ZeroDivisionError /\
    (forall s, yamlopenrouteragent.process_match_data data = Ok s ->
       (forall name e, get name (yamlopenrouteragent.batting s) = Some e ->
          1 <= yamlopenrouteragent.bat_balls e) /\
       (forall name e, get name (yamlopenrouteragent.bowling s) = Some e ->
          1 <= yamlopenrouteragent.bowl_balls e)).
Proof.
  intros data.
  assert (Hv3 : reportdeepseek_v3.process_stats data <> Raise ZeroDivisionError).
  { destruct (first_missing (all_deliveries data)) as [k |] eqn:E.
    - rewrite (v3_process_stats_raise data k E). discriminate.
    - apply first_missing_none in E. rewrite (v3_process_stats_ok data E).
      intros H. apply v3_calculate_raise in H. discriminate. }
  split; [exact Hv3 |]. split.
  - rewrite yaml_refines_v3.
    destruct (reportdeepseek_v3.process_stats data) as [s |] eqn:E;
      [discriminate | congruence].
  - intros sy Hy.
    destruct (first_missing (all_deliveries data)) as [k |] eqn:E.
    { rewrite (yaml_process_match_data_raise data k E) in Hy. discriminate. }
    apply first_missing_none in E.
    rewrite yaml_refines_v3, (v3_process_stats_ok data E) in Hy.
    destruct (reportdeepseek_v3.calculate_derived_metrics (v3_loop data))
      as [s |] eqn:Hcalc; [| discriminate].
    inversion Hy; subst sy.
    destruct (v3_calculate_fields _ _ Hcalc) as (_ & Hbat & Hbowl).
    destruct (v3_loop_bounded data) as [Ibat Ibowl].
    rewrite Forall_forall in Ibat, Ibowl.
    cbn [yaml_of_stats yamlopenrouteragent.batting yamlopenrouteragent.bowling].
    split; intros name e Hget; rewrite get_map_dict in Hget.
    + destruct (get name (reportdeepseek_v3.batting s)) as [e1 |] eqn:E1;
        [| discriminate].
      inversion Hget; subst e. cbn.
      destruct (map_values_get _ _ _ _ _ Hbat E1) as (e0 & Hget0 & Hder).
      destruct (Ibat e0 (get_In_values _ _ _ Hget0)) as [Hballs _].
      rewrite v3_derive_batting_spec in Hder.
      destruct (spec_strike_rate _ _); [| discriminate].
      inversion Hder; subst e1. exact Hballs.
    + destruct (get name (reportdeepseek_v3.bowling s)) as [e1 |] eqn:E1;
        [| discriminate].
      inversion Hget; subst e. cbn.
      destruct (map_values_get _ _ _ _ _ Hbowl E1) as (e0 & Hget0 & Hder).
      destruct (Ibowl e0 (get_In_values _ _ _ Hget0)) as [Hballs _].
      rewrite v3_derive_bowling_spec in Hder by lia.
      destruct (spec_economy _ _); [| discriminate].
      destruct (spec_overs _); [| discriminate].
      inversion Hder; subst e1. exact Hballs.
Qed.

(** C4.  For every delivery processed, [update_bowling_stats] adds the
    delivery's total runs (not the batsman's) to the bowler's runs and exactly
    1 to the balls, and adds 1 to the wickets if and only if the delivery has
    a wicket marker; no other bowler's entry changes.  For an innings of six
    deliveries bowled by B1, one total run each and a wicket on the fourth,
    [process_stats] returns for B1 runs 6, balls 6, wickets 1, overs 1.0 and
    economy 6.0.  The loop body of [process_match_data] returns on a delivery
    that also names its batsman and his runs, and has then updated runs and
    balls the same way, but it leaves the wickets as they were, marker or no
    marker: on such an innings [process_match_data] returns for B1 runs 6,
    balls 6 and economy 6.0 with wickets 0. *)
Theorem bowling_update_and_scenario_D :
  (forall (bd : BallData) (b : string) (rs : Runs) (t : Z),
      bowler bd = Some b -> runs bd = Some rs -> runs_total rs = Some t ->
      (forall stats, exists stats',
          reportdeepseek_v3.update_bowling_stats stats bd = Ok stats' /\
          (let old := get_default reportdeepseek_v3.new_bowling b stats in
           get b stats' =
           Some {| reportdeepseek_v3.bowl_runs :=
                     reportdeepseek_v3.bowl_runs old + t;
                   reportdeepseek_v3.bowl_wickets :=
                     reportdeepseek_v3.bowl_wickets old +
                     match wicket bd with Some _ => 1 | None => 0 end;
                   reportdeepseek_v3.bowl_balls :=
                     reportdeepseek_v3.bowl_balls old + 1;
                   reportdeepseek_v3.economy := reportdeepseek_v3.economy old;
                   reportdeepseek_v3.overs := reportdeepseek_v3.overs old |}) /\
          (forall b', b' <> b -> get b' stats' = get b' stats)) /\
      (forall (bt : string) (r : Z) team s d,
          ball_data d = bd -> batsman bd = Some bt -> runs_batsman rs = Some r ->
          exists s',
            yamlopenrouteragent.process_delivery team s d = Ok s' /\
            (let old := get_default yamlopenrouteragent.new_bowling b
                          (yamlopenrouteragent.bowling s) in
             get b (yamlopenrouteragent.bowling s') =
             Some {| yamlopenrouteragent.bowl_runs :=
                       yamlopenrouteragent.bowl_runs old + t;
                     yamlopenrouteragent.bowl_wickets :=
                       yamlopenrouteragent.bowl_wickets old;
                     yamlopenrouteragent.bowl_balls :=
                       yamlopenrouteragent.bowl_balls old + 1;
                     yamlopenrouteragent.economy :=
                       yamlopenrouteragent.economy old |}) /\
            (forall b', b' <> b ->
               get b' (yamlopenrouteragent.bowling s') =
               get b' (yamlopenrouteragent.bowling s)))) /\
  (forall (name t : string) (ds : list Delivery),
      let data :=
        {| innings := [ {| inns_name := name;
                           inns_data := {| team := t; deliveries := ds |} |} ] |}
      in
      scenario_D_over ds -> well_formed data ->
      (exists s,
          reportdeepseek_v3.process_stats data = Ok s /\
          get "B1" (reportdeepseek_v3.bowling s) =
          Some {| reportdeepseek_v3.bowl_runs := 6;
                  reportdeepseek_v3.bowl_wickets := 1;
                  reportdeepseek_v3.bowl_balls := 6;
                  reportdeepseek_v3.economy := Some (Float float_6_0);
                  reportdeepseek_v3.overs := Some (Float float_1_0) |}) /\
      (exists s,
          yamlopenrouteragent.process_match_data data = Ok s /\
          get "B1" (yamlopenrouteragent.bowling s) =
          Some {| yamlopenrouteragent.bowl_runs := 6;
                  yamlopenrouteragent.bowl_wickets := 0;
                  yamlopenrouteragent.bowl_balls := 6;
                  yamlopenrouteragent.economy := Some (Float float_6_0) |})).
Proof.
  split.
  - intros bd b rs t Hb Hrs Ht. split.
    + intros stats. eexists. split; [| split].
      * apply (v3_update_bowling_ok stats bd b rs t Hb Hrs Ht).
      * cbv zeta. rewrite get_update_same. unfold has_wicket.
        destruct (wicket bd); reflexivity.
      * intros b' Hne. apply get_update_other. exact Hne.
    + intros bt r team s d Hd Hbt Hr. subst bd.
      assert (E : missing_key (ball_data d) = None)
        by (unfold missing_key; rewrite Hbt, Hrs, Hr, Hb, Ht; reflexivity).
      exists (yaml_apply s (team, d)).
      split; [apply (yaml_process_delivery_ok team s d E) |].
      cbn [yaml_apply yamlopenrouteragent.bowling snd].
      unfold bowler_of, total_runs_of. rewrite Hb, Hrs, Ht.
      split.
      * cbv zeta. rewrite get_update_same. reflexivity.
      * intros b' Hne. apply get_update_other. exact Hne.
  - intros name t ds data Hover Hwf.
    destruct (v3_process_stats_total data Hwf) as (s & Hrun & Hcalc).
    assert (HB1 : get "B1" (reportdeepseek_v3.bowling s) =
                  Some {| reportdeepseek_v3.bowl_runs := 6;
                          reportdeepseek_v3.bowl_wickets := 1;
                          reportdeepseek_v3.bowl_balls := 6;
                          reportdeepseek_v3.economy := Some (Float float_6_0);
                          reportdeepseek_v3.overs := Some (Float float_1_0) |}).
    { destruct (v3_calculate_fields _ _ Hcalc) as (_ & _ & Hbowl).
      destruct Hover as [Hall Hw].
      destruct ds as [| d1 [| d2 [| d3 [| d4 [| d5 [| d6 [| d7 ds]]]]]]];
        try discriminate Hw.
      repeat match goal with
             | H : Forall _ (_ :: _) |- _ =>
                 let Hd := fresh "Hd" in
                 let Hb := fresh "Hb" in
                 let Ht := fresh "Ht" in
                 inversion H as [| ? ? Hd ?]; subst; clear H;
                 destruct Hd as [Hb Ht]
             end.
      injection Hw as W1 W2 W3 W4 W5 W6.
      unfold v3_loop, tagged_deliveries in Hbowl.
      rewrite v3_fold_bowling in Hbowl.
      cbn [data innings inns_data deliveries team flat_map map app fold_left snd
           reportdeepseek_v3.bowling reportdeepseek_v3.new_stats] in Hbowl.
      unfold bowler_of in Hbowl.
      repeat match goal with
             | H : bowler _ = Some _ |- _ => rewrite H in Hbowl; clear H
             | H : total_runs_of _ = 1 |- _ => rewrite H in Hbowl; clear H
             | H : has_wicket _ = _ |- _ => rewrite H in Hbowl; clear H
             end.
      remember (reportdeepseek_v3.bowling s) as bs eqn:Ebs. clear Ebs.
      vm_compute in Hbowl. inversion Hbowl; subst bs. reflexivity. }
    split.
    + exists s. split; [exact Hrun | exact HB1].
    + eexists. split; [rewrite yaml_refines_v3, Hrun; reflexivity |].
      cbn [yaml_of_stats yamlopenrouteragent.bowling].
      rewrite get_map_dict, HB1. reflexivity.
Qed.

Lemma bowling_scenario_D_witness :
  (exists stats',
      reportdeepseek_v3.update_bowling_stats [] (ball_data leg_bye_and_out) =
      Ok stats' /\
      get "B1" stats' =
      Some {| reportdeepseek_v3.bowl_runs := 1;
              reportdeepseek_v3.bowl_wickets := 1;
              reportdeepseek_v3.bowl_balls := 1;
              reportdeepseek_v3.economy := None;
              reportdeepseek_v3.overs := None |}) /\
  (exists s',
      yamlopenrouteragent.process_delivery "T1" yamlopenrouteragent.new_stats
        leg_bye_and_out = Ok s' /\
      get "B1" (yamlopenrouteragent.bowling s') =
      Some {| yamlopenrouteragent.bowl_runs := 1;
              yamlopenrouteragent.bowl_wickets := 0;
              yamlopenrouteragent.bowl_balls := 1;
              yamlopenrouteragent.economy := None |}) /\
  (exists s,
      reportdeepseek_v3.process_stats scenario_D = Ok s /\
      get "B1" (reportdeepseek_v3.bowling s) =
      Some {| reportdeepseek_v3.bowl_runs := 6;
              reportdeepseek_v3.bowl_wickets := 1;
              reportdeepseek_v3.bowl_balls := 6;
              reportdeepseek_v3.economy := Some (Float float_6_0);
              reportdeepseek_v3.overs := Some (Float float_1_0) |}) /\
  (exists s,
      yamlopenrouteragent.process_match_data scenario_D = Ok s /\
      get "B1" (yamlopenrouteragent.bowling s) =
      Some {| yamlopenrouteragent.bowl_runs := 6;
              yamlopenrouteragent.bowl_wickets := 0;
              yamlopenrouteragent.bowl_balls := 6;
              yamlopenrouteragent.economy := Some (Float float_6_0) |}).
Proof.
  destruct bowling_update_and_scenario_D as [Hstep HD].
  destruct (Hstep (ball_data leg_bye_and_out) "B1"
              {| runs_batsman := Some 0; runs_extras := Some (1 - 0);
                 runs_total := Some 1 |} 1 eq_refl eq_refl eq_refl)
    as [Hv3 Hyaml].
  split; [| split].
  - destruct (Hv3 []) as (stats' & Hrun & Hget & _).
    exists stats'. split; [exact Hrun | exact Hget].
  - destruct (Hyaml "P1" 0 "T1" yamlopenrouteragent.new_stats leg_bye_and_out
                eq_refl eq_refl eq_refl) as (s' & Hrun & Hget & _).
    exists s'. split; [exact Hrun | exact Hget].
  - apply (HD "1st innings" "T1" scenario_D_deliveries).
    + split; [repeat constructor | reflexivity].
    + split; [repeat constructor | reflexivity].
Defined.

(** C5, as the code has it.  When some delivery of a record lacks a required
    field, both aggregators stop at the first such delivery and raise the
    [KeyError] of the missing key, one of ['batsman'], ['bowler'], ['runs']
    and ['total']; the exception carries no innings or delivery index, and no
    snapshot is returned. *)
Theorem missing_field_raises_KeyError :
  forall data : MatchRecord,
    (exists d, In d (all_deliveries data) /\
               lacks_required_field (ball_data d)) ->
    exists k,
      In k required_keys /\
      first_missing (all_deliveries data) = Some k /\
      reportdeepseek_v3.process_stats data = Raise (KeyError k) /\
      yamlopenrouteragent.process_match_data data = Raise (KeyError k).
Proof.
  intros data Hex.
  destruct (first_missing_required _ Hex) as (k & Hk & Hreq).
  exists k. split; [exact Hreq |]. split; [exact Hk |]. split.
  - apply v3_process_stats_raise. exact Hk.
  - apply yaml_process_match_data_raise. exact Hk.
Qed.

Lemma missing_field_witness :
  exists k,
    In k required_keys /\
    first_missing (all_deliveries scenario_C) = Some k /\
    reportdeepseek_v3.process_stats scenario_C = Raise (KeyError k) /\
    yamlopenrouteragent.process_match_data scenario_C = Raise (KeyError k).
Proof.
  apply (missing_field_raises_KeyError scenario_C).
  exists no_bowler. split.
  - simpl. auto.
  - right. left. reflexivity.
Defined.

(** C5, as the specification states it, fails on Scenario C: the delivery
    without a bowler makes both aggregators raise [KeyError 'bowler'], not an
    exception of class MalformedDeliveryError. *)
Lemma no_MalformedDeliveryError :
  (exists d, In d (all_deliveries scenario_C) /\
             lacks_required_field (ball_data d)) /\
  reportdeepseek_v3.process_stats scenario_C = Raise (KeyError "bowler") /\
  yamlopenrouteragent.process_match_data scenario_C =
    Raise (KeyError "bowler") /\
  ~ raises_class "MalformedDeliveryError"
      (reportdeepseek_v3.process_stats scenario_C) /\
  ~ raises_class "MalformedDeliveryError"
      (yamlopenrouteragent.process_match_data scenario_C).
Proof.
  split.
  { exists no_bowler. split; [simpl; auto | right; left; reflexivity]. }
  split; [reflexivity |]. split; [reflexivity |].
  split; intros (e & He & Hc); vm_compute in He; inversion He; subst e;
    discriminate Hc.
Qed.

(** C6, as the code has it.  For a record whose innings list is empty both
    aggregators raise nothing and return the snapshot whose mappings are all
    empty. *)
Theorem empty_innings_returns_empty_snapshot :
  forall data : MatchRecord,
    innings data = [] ->
    reportdeepseek_v3.process_stats data = Ok reportdeepseek_v3.new_stats /\
    yamlopenrouteragent.process_match_data data =
      Ok yamlopenrouteragent.new_stats.
Proof.
  intros data H.
  unfold reportdeepseek_v3.process_stats,
    yamlopenrouteragent.process_match_data.
  rewrite H. split; reflexivity.
Qed.

Lemma empty_innings_witness :
  reportdeepseek_v3.process_stats scenario_B = Ok reportdeepseek_v3.new_stats /\
  yamlopenrouteragent.process_match_data scenario_B =
    Ok yamlopenrouteragent.new_stats.
Proof.
  apply (empty_innings_returns_empty_snapshot scenario_B). reflexivity.
Defined.

(** C6, as the specification states it, fails on Scenario B: with no innings
    neither aggregator raises an exception of class EmptyMatchError; both
    return. *)
Lemma no_EmptyMatchError :
  innings scenario_B = [] /\
  ~ raises_class "EmptyMatchError" (reportdeepseek_v3.process_stats scenario_B) /\
  ~ raises_class "EmptyMatchError"
      (yamlopenrouteragent.process_match_data scenario_B).
Proof.
  split; [reflexivity |].
  split; intros (e & He & _); vm_compute in He; discriminate He.
Qed.

(** C7.  For every delivery the second aggregator processes, the count of each
    extra type grows by the number of times the type is present on the
    delivery (once, the types being the keys of a mapping), and the count
    under ['total'] grows by one more per extra type present; the run values
    of the extras do not enter, and a delivery without extras changes no
    count. *)
Theorem extras_count_occurrences :
  forall (team : string) (s s' : yamlopenrouteragent.Stats) (d : Delivery),
    yamlopenrouteragent.process_delivery team s d = Ok s' ->
    forall k,
      get_default 0 k (yamlopenrouteragent.extras_count s') =
      get_default 0 k (yamlopenrouteragent.extras_count s) +
      occurrences k (extra_types_of (ball_data d)) +
      (if String.eqb k "total"
       then Z.of_nat (List.length (extra_types_of (ball_data d)))
       else 0).
Proof.
  intros team s s' d Hrun k.
  destruct (missing_key (ball_data d)) as [k0 |] eqn:E.
  - rewrite (yaml_process_delivery_raise team s d k0 E) in Hrun. discriminate.
  - rewrite (yaml_process_delivery_ok team s d E) in Hrun.
    inversion Hrun; subst s'.
    cbn [yaml_apply yamlopenrouteragent.extras_count snd].
    unfold yamlopenrouteragent.count_extras, extra_types_of.
    destruct (extras (ball_data d)) as [ex |].
    + apply count_extras_fold.
    + unfold occurrences. simpl. destruct (String.eqb k "total"); lia.
Qed.

Lemma extras_count_witness :
  yamlopenrouteragent.process_delivery "T1" yamlopenrouteragent.new_stats
    leg_bye_and_out =
    Ok (yaml_apply yamlopenrouteragent.new_stats ("T1", leg_bye_and_out)) /\
  get_default 0 "legbyes"
    (yamlopenrouteragent.extras_count
       (yaml_apply yamlopenrouteragent.new_stats ("T1", leg_bye_and_out))) = 1 /\
  get_default 0 "total"
    (yamlopenrouteragent.extras_count
       (yaml_apply yamlopenrouteragent.new_stats ("T1", leg_bye_and_out))) = 1 /\
  get_default 0 "wides"
    (yamlopenrouteragent.extras_count
       (yaml_apply yamlopenrouteragent.new_stats ("T1", leg_bye_and_out))) = 0.
Proof.
  split; [reflexivity |].
  pose proof (extras_count_occurrences "T1" yamlopenrouteragent.new_stats
                (yaml_apply yamlopenrouteragent.new_stats
                   ("T1", leg_bye_and_out))
                leg_bye_and_out eq_refl) as H.
  split; [exact (H "legbyes") |]. split; [exact (H "total") | exact (H "wides")].
Defined.

(** C10, at the record [one_wicket].  Both aggregators return; the first
    reports one wicket for the bowler and the second reports none. *)
Theorem wickets_diverge :
  match reportdeepseek_v3.process_stats one_wicket,
        yamlopenrouteragent.process_match_data one_wicket with
  | Ok sv, Ok sy =>
      option_map reportdeepseek_v3.bowl_wickets
        (get "B1" (reportdeepseek_v3.bowling sv)) = Some 1 /\
      option_map yamlopenrouteragent.bowl_wickets
        (get "B1" (yamlopenrouteragent.bowling sy)) = Some 0
  | _, _ => False
  end.
Proof. vm_compute. split; reflexivity. Qed.

(** * Beyond the claims *)

(** X1.  In the snapshot [process_stats] returns for a well-formed record, a
    batsman has an entry exactly when he faced a delivery, and the entry
    holds the sum of his batsman runs, the number of deliveries he faced, and
    the numbers of them on which he scored exactly 4 and exactly 6. *)
Theorem batting_entry_totals :
  forall data : MatchRecord,
    well_formed data ->
    exists s,
      reportdeepseek_v3.process_stats data = Ok s /\
      forall name,
        let mine := filter (faced_by name) (all_deliveries data) in
        match get name (reportdeepseek_v3.batting s) with
        | None => mine = []
        | Some e =>
            mine <> [] /\
            reportdeepseek_v3.bat_runs e =
              sum (map (fun d => batsman_runs_of (ball_data d)) mine) /\
            reportdeepseek_v3.bat_balls e = Z.of_nat (List.length mine) /\
            reportdeepseek_v3.bat_4s e =
              count_if (fun d => batsman_runs_of (ball_data d) =? 4) mine /\
            reportdeepseek_v3.bat_6s e =
              count_if (fun d => batsman_runs_of (ball_data d) =? 6) mine
        end.
Proof.
  intros data Hwf.
  destruct (v3_snapshot data Hwf) as (s & Hrun & _ & Hbat & _).
  exists s. split; [exact Hrun |]. intros name mine.
  pose proof (map_values_lookup _ _ _ name Hbat) as Hget.
  rewrite v3_loop_batting_get in Hget. fold mine in Hget.
  destruct mine as [| d rest] eqn:Emine.
  - rewrite Hget. reflexivity.
  - destruct Hget as (e & Hder & ->).
    destruct (v3_derive_batting_fields _ _ Hder) as (F1 & F2 & F3 & F4).
    destruct (v3_bat_steps (d :: rest) reportdeepseek_v3.new_batting)
      as (S1 & S2 & S3 & S4 & _).
    cbv zeta in S1, S2, S3, S4.
    rewrite F1, F2, F3, F4, S1, S2, S3, S4.
    split; [discriminate |]. cbn [reportdeepseek_v3.new_batting
      reportdeepseek_v3.bat_runs reportdeepseek_v3.bat_balls
      reportdeepseek_v3.bat_4s reportdeepseek_v3.bat_6s].
    repeat split; lia.
Qed.

Lemma batting_entry_totals_witness :
  exists s,
    reportdeepseek_v3.process_stats scenario_D = Ok s /\
    forall name,
      let mine := filter (faced_by name) (all_deliveries scenario_D) in
      match get name (reportdeepseek_v3.batting s) with
      | None => mine = []
      | Some e =>
          mine <> [] /\
          reportdeepseek_v3.bat_runs e =
            sum (map (fun d => batsman_runs_of (ball_data d)) mine) /\
          reportdeepseek_v3.bat_balls e = Z.of_nat (List.length mine) /\
          reportdeepseek_v3.bat_4s e =
            count_if (fun d => batsman_runs_of (ball_data d) =? 4) mine /\
          reportdeepseek_v3.bat_6s e =
            count_if (fun d => batsman_runs_of (ball_data d) =? 6) mine
      end.
Proof.
  apply (batting_entry_totals scenario_D).
  split; [repeat constructor | reflexivity].
Defined.

(** X2.  In the snapshot [process_stats] returns for a well-formed record, a
    bowler has an entry exactly when he bowled a delivery, and the entry
    holds the sum of the total runs of his deliveries, their number, and the
    number of them that carry a wicket. *)
Theorem bowling_entry_totals :
  forall data : MatchRecord,
    well_formed data ->
    exists s,
      reportdeepseek_v3.process_stats data = Ok s /\
      forall name,
        let mine := filter (bowled_by name) (all_deliveries data) in
        match get name (reportdeepseek_v3.bowling s) with
        | None => mine = []
        | Some e =>
            mine <> [] /\
            reportdeepseek_v3.bowl_runs e =
              sum (map (fun d => total_runs_of (ball_data d)) mine) /\
            reportdeepseek_v3.bowl_balls e = Z.of_nat (List.length mine) /\
            reportdeepseek_v3.bowl_wickets e =
              count_if (fun d => has_wicket (ball_data d)) mine
        end.
Proof.
  intros data Hwf.
  destruct (v3_snapshot data Hwf) as (s & Hrun & _ & _ & Hbowl).
  exists s. split; [exact Hrun |]. intros name mine.
  pose proof (map_values_lookup _ _ _ name Hbowl) as Hget.
  rewrite v3_loop_bowling_get in Hget. fold mine in Hget.
  destruct mine as [| d rest] eqn:Emine.
  - rewrite Hget. reflexivity.
  - destruct Hget as (e & Hder & ->).
    destruct (v3_derive_bowling_fields _ _ Hder) as (F1 & F2 & F3).
    destruct (v3_bowl_steps (d :: rest) reportdeepseek_v3.new_bowling)
      as (S1 & S2 & S3).
    cbv zeta in S1, S2, S3.
    rewrite F1, F2, F3, S1, S2, S3.
    split; [discriminate |]. cbn [reportdeepseek_v3.new_bowling
      reportdeepseek_v3.bowl_runs reportdeepseek_v3.bowl_balls
      reportdeepseek_v3.bowl_wickets].
    repeat split; lia.
Qed.

Lemma bowling_entry_totals_witness :
  exists s,
    reportdeepseek_v3.process_stats scenario_D = Ok s /\
    forall name,
      let mine := filter (bowled_by name) (all_deliveries scenario_D) in
      match get name (reportdeepseek_v3.bowling s) with
      | None => mine = []
      | Some e =>
          mine <> [] /\
          reportdeepseek_v3.bowl_runs e =
            sum (map (fun d => total_runs_of (ball_data d)) mine) /\
          reportdeepseek_v3.bowl_balls e = Z.of_nat (List.length mine) /\
          reportdeepseek_v3.bowl_wickets e =
            count_if (fun d => has_wicket (ball_data d)) mine
      end.
Proof.
  apply (bowling_entry_totals scenario_D).
  split; [repeat constructor | reflexivity].
Defined.

Lemma fold_add_totals (mine : list (string * Delivery)) (v : Z) :
  fold_left (fun v td => v + total_runs_of (ball_data (snd td))) mine v =
  v + sum (map (fun td => total_runs_of (ball_data (snd td))) mine).
Proof.
  revert v. induction mine as [| td mine IH]; intros v; simpl; [lia |].
  rewrite IH. unfold sum. lia.
Qed.

Lemma v3_loop_team_get (data : MatchRecord) (name : string) :
  get name (reportdeepseek_v3.team_scores (v3_loop data)) =
  match filter (batted_by name) (tagged_deliveries data) with
  | [] => None
  | mine =>
      Some (sum (map (fun td => total_runs_of (ball_data (snd td))) mine))
  end.
Proof.
  unfold v3_loop. rewrite v3_fold_teams.
  rewrite (get_fold_update 0 fst
             (fun td v => v + total_runs_of (ball_data (snd td)))).
  fold (batted_by name).
  destruct (filter (batted_by name) (tagged_deliveries data)); [reflexivity |].
  rewrite fold_add_totals. reflexivity.
Qed.

(** X3.  In the snapshot either aggregator returns for a well-formed record, a
    team has a score exactly when a delivery was bowled in one of its
    innings, and the score is the sum of the total runs of the deliveries of
    all the innings the team batted in. *)
Theorem team_score_per_team :
  forall data : MatchRecord,
    well_formed data ->
    exists sv sy,
      reportdeepseek_v3.process_stats data = Ok sv /\
      yamlopenrouteragent.process_match_data data = Ok sy /\
      forall name,
        let score :=
          match filter (batted_by name) (tagged_deliveries data) with
          | [] => None
          | mine =>
              Some (sum (map (fun td => total_runs_of (ball_data (snd td)))
                           mine))
          end in
        get name (reportdeepseek_v3.team_scores sv) = score /\
        get name (yamlopenrouteragent.team_scores sy) = score.
Proof.
  intros data Hwf.
  destruct (v3_snapshot data Hwf) as (s & Hrun & Hteam & _ & _).
  exists s. eexists. split; [exact Hrun |].
  split; [rewrite yaml_refines_v3, Hrun; reflexivity |].
  intros name. cbn [yaml_of_stats yamlopenrouteragent.team_scores].
  rewrite Hteam, v3_loop_team_get. split; reflexivity.
Qed.

Lemma team_score_per_team_witness :
  exists sv sy,
    reportdeepseek_v3.process_stats scenario_D = Ok sv /\
    yamlopenrouteragent.process_match_data scenario_D = Ok sy /\
    forall name,
      let score :=
        match filter (batted_by name) (tagged_deliveries scenario_D) with
        | [] => None
        | mine =>
            Some (sum (map (fun td => total_runs_of (ball_data (snd td)))
                         mine))
        end in
      get name (reportdeepseek_v3.team_scores sv) = score /\
      get name (yamlopenrouteragent.team_scores sy) = score.
Proof.
  apply (team_score_per_team scenario_D).
  split; [repeat constructor | reflexivity].
Defined.

Lemma filter_all {A : Type} (l : list A) : filter (fun _ => true) l = l.
Proof. induction l as [| x l IH]; simpl; [| rewrite IH]; reflexivity. Qed.

Lemma first_seen_In (l : list string) (k : string) :
  In k (first_seen l) <-> In k l.
Proof.
  induction l as [| x l IH]; simpl; [tauto |].
  rewrite filter_In, IH. split.
  - intros [H | [H _]]; auto.
  - intros [H | H]; [auto |].
    destruct (String.eqb_spec k x) as [-> | Hne]; [auto |].
    right. split; [exact H | reflexivity].
Qed.

Lemma first_seen_NoDup (l : list string) : NoDup (first_seen l).
Proof.
  induction l as [| x l IH]; simpl; constructor.
  - rewrite filter_In. intros [_ H]. rewrite String.eqb_refl in H.
    discriminate.
  - apply NoDup_filter. exact IH.
Qed.

Lemma keys_map_dict {V W : Type} (p : V -> W) (d : dict V) :
  keys (map_dict p d) = keys d.
Proof. unfold keys, map_dict. rewrite map_map. reflexivity. Qed.

(** X4.  The dictionaries of the snapshot [process_stats] returns for a
    well-formed record list their keys without repetition in the order of
    first appearance: the batsmen and the bowlers in the order they first
    occur in the deliveries, the teams in the order of their first innings
    that has a delivery. *)
Theorem snapshot_keys_in_first_seen_order :
  forall data : MatchRecord,
    well_formed data ->
    exists s,
      reportdeepseek_v3.process_stats data = Ok s /\
      keys (reportdeepseek_v3.batting s) =
        first_seen (map (fun d => batsman_of (ball_data d))
                      (all_deliveries data)) /\
      keys (reportdeepseek_v3.bowling s) =
        first_seen (map (fun d => bowler_of (ball_data d))
                      (all_deliveries data)) /\
      keys (reportdeepseek_v3.team_scores s) =
        first_seen (map fst (tagged_deliveries data)) /\
      NoDup (keys (reportdeepseek_v3.batting s)) /\
      NoDup (keys (reportdeepseek_v3.bowling s)) /\
      NoDup (keys (reportdeepseek_v3.team_scores s)).
Proof.
  intros data Hwf.
  destruct (v3_snapshot data Hwf) as (s & Hrun & Hteam & Hbat & Hbowl).
  exists s. split; [exact Hrun |].
  assert (K1 : keys (reportdeepseek_v3.batting s) =
               first_seen (map (fun d => batsman_of (ball_data d))
                             (all_deliveries data))).
  { rewrite (map_values_keys _ _ _ Hbat). unfold v3_loop.
    rewrite v3_fold_batting, all_deliveries_tagged.
    rewrite (keys_fold_update reportdeepseek_v3.new_batting
               (fun d => batsman_of (ball_data d))
               (fun d => v3_bat_step (batsman_runs_of (ball_data d)))).
    simpl. apply filter_all. }
  assert (K2 : keys (reportdeepseek_v3.bowling s) =
               first_seen (map (fun d => bowler_of (ball_data d))
                             (all_deliveries data))).
  { rewrite (map_values_keys _ _ _ Hbowl). unfold v3_loop.
    rewrite v3_fold_bowling_deliveries, all_deliveries_tagged.
    rewrite (keys_fold_update reportdeepseek_v3.new_bowling
               (fun d => bowler_of (ball_data d))
               (fun d => v3_bowl_step (total_runs_of (ball_data d))
                           (has_wicket (ball_data d)))).
    simpl. apply filter_all. }
  assert (K3 : keys (reportdeepseek_v3.team_scores s) =
               first_seen (map fst (tagged_deliveries data))).
  { rewrite Hteam. unfold v3_loop. rewrite v3_fold_teams.
    rewrite (keys_fold_update 0 fst
               (fun td v => v + total_runs_of (ball_data (snd td)))).
    simpl. apply filter_all. }
  rewrite K1, K2, K3.
  repeat split; apply first_seen_NoDup.
Qed.

Lemma snapshot_keys_witness :
  exists s,
    reportdeepseek_v3.process_stats scenario_D = Ok s /\
    keys (reportdeepseek_v3.batting s) = ["P1"; "P2"; "P3"] /\
    keys (reportdeepseek_v3.bowling s) = ["B1"] /\
    keys (reportdeepseek_v3.team_scores s) = ["T1"].
Proof.
  destruct (snapshot_keys_in_first_seen_order scenario_D)
    as (s & Hrun & K1 & K2 & K3 & _).
  - split; [repeat constructor | reflexivity].
  - exists s. split; [exact Hrun |].
    split; [exact K1 |]. split; [exact K2 | exact K3].
Defined.

Lemma map_values_sum {V W : Type} (f : V -> result W) (g : V -> Z)
  (h : W -> Z) (d : dict V) (d' : dict W) :
  (forall v w, f v = Ok w -> h w = g v) ->
  map_values f d = Ok d' ->
  sum (map h (values d')) = sum (map g (values d)).
Proof.
  intros Hf. unfold values. revert d'.
  induction d as [| [k v] d IH]; simpl; intros d' H.
  - inversion H. reflexivity.
  - destruct (f v) as [w |] eqn:Ef; [| discriminate]. cbn [bind] in H.
    destruct (map_values f d) as [d0 |]; [| discriminate]. cbn [bind] in H.
    inversion H; subst d'. simpl. rewrite (Hf v w Ef), (IH d0 eq_refl).
    reflexivity.
Qed.

(** X5.  In the snapshot [process_stats] returns for a well-formed record
    nothing is lost or counted twice: the runs conceded by the bowlers add up
    to the total runs of the match, the runs of the batsmen to the batsman
    runs of the match, and the balls faced and the balls bowled each add up
    to the number of deliveries. *)
Theorem snapshot_conserves_runs_and_balls :
  forall data : MatchRecord,
    well_formed data ->
    exists s,
      reportdeepseek_v3.process_stats data = Ok s /\
      sum (map reportdeepseek_v3.bowl_runs
             (values (reportdeepseek_v3.bowling s))) =
        total_runs_sum data /\
      sum (map reportdeepseek_v3.bat_runs
             (values (reportdeepseek_v3.batting s))) =
        sum (map (fun d => batsman_runs_of (ball_data d))
               (all_deliveries data)) /\
      sum (map reportdeepseek_v3.bat_balls
             (values (reportdeepseek_v3.batting s))) =
        Z.of_nat (List.length (all_deliveries data)) /\
      sum (map reportdeepseek_v3.bowl_balls
             (values (reportdeepseek_v3.bowling s))) =
        Z.of_nat (List.length (all_deliveries data)).
Proof.
  intros data Hwf.
  destruct (v3_snapshot data Hwf) as (s & Hrun & _ & Hbat & Hbowl).
  exists s. split; [exact Hrun |].
  assert (Hones : forall l : list Delivery,
             sum (map (fun _ => 1) l) = Z.of_nat (List.length l)).
  { induction l as [| d l IH]; [reflexivity |].
    cbn [map sum fold_right List.length] in *. unfold sum in IH. lia. }
  unfold total_runs_sum.
  rewrite (map_values_sum _ reportdeepseek_v3.bowl_runs _ _ _
             (fun v w H => proj1 (v3_derive_bowling_fields v w H)) Hbowl).
  rewrite (map_values_sum _ reportdeepseek_v3.bowl_balls _ _ _
             (fun v w H =>
                proj1 (proj2 (v3_derive_bowling_fields v w H))) Hbowl).
  rewrite (map_values_sum _ reportdeepseek_v3.bat_runs _ _ _
             (fun v w H => proj1 (v3_derive_batting_fields v w H)) Hbat).
  rewrite (map_values_sum _ reportdeepseek_v3.bat_balls _ _ _
             (fun v w H =>
                proj1 (proj2 (v3_derive_batting_fields v w H))) Hbat).
  unfold v3_loop.
  rewrite v3_fold_batting, v3_fold_bowling_deliveries, all_deliveries_tagged.
  set (ds := map snd (tagged_deliveries data)).
  rewrite <- (Hones ds).
  rewrite (sum_fold_update reportdeepseek_v3.new_bowling
             (fun d => bowler_of (ball_data d))
             (fun d => v3_bowl_step (total_runs_of (ball_data d))
                         (has_wicket (ball_data d)))
             reportdeepseek_v3.bowl_runs
             (fun d => total_runs_of (ball_data d)))
    by (intros; reflexivity).
  rewrite (sum_fold_update reportdeepseek_v3.new_bowling
             (fun d => bowler_of (ball_data d))
             (fun d => v3_bowl_step (total_runs_of (ball_data d))
                         (has_wicket (ball_data d)))
             reportdeepseek_v3.bowl_balls (fun _ => 1))
    by (intros; reflexivity).
  rewrite (sum_fold_update reportdeepseek_v3.new_batting
             (fun d => batsman_of (ball_data d))
             (fun d => v3_bat_step (batsman_runs_of (ball_data d)))
             reportdeepseek_v3.bat_runs
             (fun d => batsman_runs_of (ball_data d)))
    by (intros; reflexivity).
  rewrite (sum_fold_update reportdeepseek_v3.new_batting
             (fun d => batsman_of (ball_data d))
             (fun d => v3_bat_step (batsman_runs_of (ball_data d)))
             reportdeepseek_v3.bat_balls (fun _ => 1))
    by (intros; reflexivity).
  cbn. repeat split; reflexivity.
Qed.

Lemma snapshot_conserves_witness :
  exists s,
    reportdeepseek_v3.process_stats scenario_D = Ok s /\
    sum (map reportdeepseek_v3.bowl_runs
           (values (reportdeepseek_v3.bowling s))) = 6 /\
    sum (map reportdeepseek_v3.bat_balls
           (values (reportdeepseek_v3.batting s))) = 6.
Proof.
  destruct (snapshot_conserves_runs_and_balls scenario_D)
    as (s & Hrun & H1 & _ & H3 & _).
  - split; [repeat constructor | reflexivity].
  - exists s. split; [exact Hrun |]. split; [exact H1 | exact H3].
Defined.

(** ** The second aggregator over a whole match *)

Lemma yaml_fold_extras (tds : list (string * Delivery))
  (s : yamlopenrouteragent.Stats) :
  yamlopenrouteragent.extras_count (fold_left yaml_apply tds s) =
  fold_left yamlopenrouteragent.count_extra
    (flat_map (fun d => extra_types_of (ball_data d)) (map snd tds))
    (yamlopenrouteragent.extras_count s).
Proof.
  revert s. induction tds as [| td tds IH]; intros s; simpl; [reflexivity |].
  rewrite IH, fold_left_app. f_equal.
  cbn [yaml_apply yamlopenrouteragent.extras_count].
  unfold yamlopenrouteragent.count_extras, extra_types_of.
  destruct (extras (ball_data (snd td))); reflexivity.
Qed.

Lemma yaml_returned_extras (data : MatchRecord)
  (s : yamlopenrouteragent.Stats) :
  yamlopenrouteragent.process_match_data data = Ok s ->
  yamlopenrouteragent.extras_count s =
  fold_left yamlopenrouteragent.count_extra (all_extra_types data) [].
Proof.
  intros H. rewrite yaml_refines_v3 in H.
  destruct (reportdeepseek_v3.process_stats data); [| discriminate].
  inversion H. cbn [yaml_of_stats yamlopenrouteragent.extras_count].
  unfold yaml_loop, all_extra_types.
  rewrite yaml_fold_extras, all_deliveries_tagged. reflexivity.
Qed.

(** X6.  In every snapshot [process_match_data] returns, the count stored for
    an extra type is the number of deliveries of the match that carry it, and
    the count under ['total'] is the number of extra tags of the whole match
    (an extra type that is itself called 'total' adds its own count to it). *)
Theorem extras_over_the_match :
  forall (data : MatchRecord) (s : yamlopenrouteragent.Stats),
    yamlopenrouteragent.process_match_data data = Ok s ->
    forall k,
      get_default 0 k (yamlopenrouteragent.extras_count s) =
      occurrences k (all_extra_types data) +
      (if String.eqb k "total"
       then Z.of_nat (List.length (all_extra_types data))
       else 0).
Proof.
  intros data s H k.
  rewrite (yaml_returned_extras data s H), count_extras_fold.
  reflexivity.
Qed.

Lemma extras_over_the_match_witness :
  exists s,
    yamlopenrouteragent.process_match_data scenario_D = Ok s /\
    get_default 0 "legbyes" (yamlopenrouteragent.extras_count s) = 1 /\
    get_default 0 "total" (yamlopenrouteragent.extras_count s) = 1 /\
    get_default 0 "wides" (yamlopenrouteragent.extras_count s) = 0.
Proof.
  destruct (yamlopenrouteragent.process_match_data scenario_D) as [s |] eqn:E;
    [| vm_compute in E; discriminate E].
  exists s. split; [reflexivity |].
  pose proof (extras_over_the_match scenario_D s E) as H.
  split; [exact (H "legbyes") |]. split; [exact (H "total") | exact (H "wides")].
Defined.

Lemma v3_batting_core (data : MatchRecord) (bat : dict reportdeepseek_v3.BattingEntry)
  (name : string) :
  map_values reportdeepseek_v3.derive_batting
    (reportdeepseek_v3.batting (v3_loop data)) = Ok bat ->
  let mine := filter (faced_by name) (all_deliveries data) in
  match get name bat with
  | None => mine = []
  | Some e =>
      mine <> [] /\
      reportdeepseek_v3.bat_runs e =
        sum (map (fun d => batsman_runs_of (ball_data d)) mine) /\
      reportdeepseek_v3.bat_balls e = Z.of_nat (List.length mine)
  end.
Proof.
  intros Hbat mine.
  pose proof (map_values_lookup _ _ _ name Hbat) as Hget.
  rewrite v3_loop_batting_get in Hget. fold mine in Hget.
  destruct mine as [| d rest] eqn:Emine.
  - rewrite Hget. reflexivity.
  - destruct Hget as (e & Hder & ->).
    destruct (v3_derive_batting_fields _ _ Hder) as (F1 & F2 & _).
    destruct (v3_bat_steps (d :: rest) reportdeepseek_v3.new_batting)
      as (S1 & S2 & _).
    cbv zeta in S1, S2. rewrite F1, F2, S1, S2.
    split; [discriminate |]. cbn [reportdeepseek_v3.new_batting
      reportdeepseek_v3.bat_runs reportdeepseek_v3.bat_balls].
    split; lia.
Qed.

Lemma v3_bowling_core (data : MatchRecord) (bowl : dict reportdeepseek_v3.BowlingEntry)
  (name : string) :
  map_values reportdeepseek_v3.derive_bowling
    (reportdeepseek_v3.bowling (v3_loop data)) = Ok bowl ->
  let mine := filter (bowled_by name) (all_deliveries data) in
  match get name bowl with
  | None => mine = []
  | Some e =>
      mine <> [] /\
      reportdeepseek_v3.bowl_runs e =
        sum (map (fun d => total_runs_of (ball_data d)) mine) /\
      reportdeepseek_v3.bowl_balls e = Z.of_nat (List.length mine)
  end.
Proof.
  intros Hbowl mine.
  pose proof (map_values_lookup _ _ _ name Hbowl) as Hget.
  rewrite v3_loop_bowling_get in Hget. fold mine in Hget.
  destruct mine as [| d rest] eqn:Emine.
  - rewrite Hget. reflexivity.
  - destruct Hget as (e & Hder & ->).
    destruct (v3_derive_bowling_fields _ _ Hder) as (F1 & F2 & _).
    destruct (v3_bowl_steps (d :: rest) reportdeepseek_v3.new_bowling)
      as (S1 & S2 & _).
    cbv zeta in S1, S2. rewrite F1, F2, S1, S2.
    split; [discriminate |]. cbn [reportdeepseek_v3.new_bowling
      reportdeepseek_v3.bowl_runs reportdeepseek_v3.bowl_balls].
    split; lia.
Qed.

(** X7.  In the snapshot [process_match_data] returns for a well-formed
    record, a batsman has an entry exactly when he faced a delivery and a
    bowler exactly when he bowled one; the entries hold the sum of the
    batsman runs and the number of deliveries faced, the sum of the total
    runs and the number of deliveries bowled; and the wickets of every bowler
    are 0, whatever the deliveries carry. *)
Theorem yaml_entry_totals :
  forall data : MatchRecord,
    well_formed data ->
    exists s,
      yamlopenrouteragent.process_match_data data = Ok s /\
      (forall name,
          let mine := filter (faced_by name) (all_deliveries data) in
          match get name (yamlopenrouteragent.batting s) with
          | None => mine = []
          | Some e =>
              mine <> [] /\
              yamlopenrouteragent.bat_runs e =
                sum (map (fun d => batsman_runs_of (ball_data d)) mine) /\
              yamlopenrouteragent.bat_balls e = Z.of_nat (List.length mine)
          end) /\
      (forall name,
          let mine := filter (bowled_by name) (all_deliveries data) in
          match get name (yamlopenrouteragent.bowling s) with
          | None => mine = []
          | Some e =>
              mine <> [] /\
              yamlopenrouteragent.bowl_runs e =
                sum (map (fun d => total_runs_of (ball_data d)) mine) /\
              yamlopenrouteragent.bowl_balls e = Z.of_nat (List.length mine) /\
              yamlopenrouteragent.bowl_wickets e = 0
          end).
Proof.
  intros data Hwf.
  destruct (v3_snapshot data Hwf) as (sv & Hrun & _ & Hbat & Hbowl).
  eexists. split; [rewrite yaml_refines_v3, Hrun; reflexivity |].
  cbn [yaml_of_stats yamlopenrouteragent.batting yamlopenrouteragent.bowling].
  split; intros name; rewrite get_map_dict.
  - pose proof (v3_batting_core data _ name Hbat) as H. cbv zeta in H.
    destruct (get name (reportdeepseek_v3.batting sv)); exact H.
  - pose proof (v3_bowling_core data _ name Hbowl) as H. cbv zeta in H.
    destruct (get name (reportdeepseek_v3.bowling sv)) as [e |]; [| exact H].
    destruct H as (H0 & H1 & H2). cbn. auto.
Qed.

Lemma yaml_entry_totals_witness :
  exists s,
    yamlopenrouteragent.process_match_data scenario_D = Ok s /\
    forall name,
      let mine := filter (bowled_by name) (all_deliveries scenario_D) in
      match get name (yamlopenrouteragent.bowling s) with
      | None => mine = []
      | Some e =>
          mine <> [] /\
          yamlopenrouteragent.bowl_runs e =
            sum (map (fun d => total_runs_of (ball_data d)) mine) /\
          yamlopenrouteragent.bowl_balls e = Z.of_nat (List.length mine) /\
          yamlopenrouteragent.bowl_wickets e = 0
      end.
Proof.
  destruct (yaml_entry_totals scenario_D) as (s & Hrun & _ & Hbowl).
  - split; [repeat constructor | reflexivity].
  - exists s. split; [exact Hrun | exact Hbowl].
Defined.

(** ** Sorting in descending order *)

Section SortedReverse.
Context {A : Type}.
Variable key : A -> Z.

Lemma insert_desc_perm (x : A) (l : list A) :
  Permutation (insert_desc key x l) (x :: l).
Proof.
  induction l as [| y l IH]; simpl; [apply Permutation_refl |].
  destruct (key x <? key y); [| apply Permutation_refl].
  apply perm_trans with (y :: x :: l); [| apply perm_swap].
  apply perm_skip. exact IH.
Qed.

Lemma sorted_reverse_perm (l : list A) : Permutation (sorted_reverse key l) l.
Proof.
  unfold sorted_reverse. induction l as [| x l IH]; simpl; [constructor |].
  apply perm_trans with (x :: fold_right (insert_desc key) [] l).
  - apply insert_desc_perm.
  - apply perm_skip. exact IH.
Qed.

Lemma insert_desc_sorted (x : A) (l : list A) :
  StronglySorted (fun a b => key b <= key a) l ->
  StronglySorted (fun a b => key b <= key a) (insert_desc key x l).
Proof.
  induction l as [| y l IH]; simpl; intros Hs.
  - constructor; constructor.
  - inversion Hs as [| ? ? Hl Hy]; subst.
    destruct (Z.ltb_spec (key x) (key y)) as [Hlt | Hge].
    + constructor; [apply IH; exact Hl |].
      apply Forall_forall. intros z Hz.
      apply (Permutation_in _ (insert_desc_perm x l)) in Hz.
      destruct Hz as [<- | Hz]; [lia |].
      rewrite Forall_forall in Hy. apply Hy. exact Hz.
    + constructor; [exact Hs |].
      constructor; [lia |].
      eapply Forall_impl; [| exact Hy]. cbv beta. intros z Hz. lia.
Qed.

Lemma sorted_reverse_sorted (l : list A) :
  StronglySorted (fun a b => key b <= key a) (sorted_reverse key l).
Proof.
  unfold sorted_reverse. induction l as [| x l IH]; simpl; [constructor |].
  apply insert_desc_sorted. exact IH.
Qed.

Lemma insert_desc_filter (c : Z) (x : A) (l : list A) :
  filter (fun a => key a =? c) (insert_desc key x l) =
  filter (fun a => key a =? c) (x :: l).
Proof.
  induction l as [| y l IH]; simpl; [reflexivity |].
  destruct (Z.ltb_spec (key x) (key y)) as [Hlt | Hge]; [| reflexivity].
  simpl. rewrite IH. simpl.
  destruct (Z.eqb_spec (key x) c) as [Ex | Ex];
    destruct (Z.eqb_spec (key y) c) as [Ey | Ey]; try reflexivity.
  lia.
Qed.

(** Stability: the items of one key come out in the order they went in. *)
Lemma sorted_reverse_stable (c : Z) (l : list A) :
  filter (fun a => key a =? c) (sorted_reverse key l) =
  filter (fun a => key a =? c) l.
Proof.
  unfold sorted_reverse. induction l as [| x l IH]; simpl; [reflexivity |].
  rewrite insert_desc_filter. simpl. rewrite IH. reflexivity.
Qed.

Lemma sorted_reverse_constant (c : Z) (l : list A) :
  Forall (fun a => key a = c) l -> sorted_reverse key l = l.
Proof.
  unfold sorted_reverse. induction 1 as [| x l Hx Hl IH]; simpl;
    [reflexivity |].
  rewrite IH. destruct l as [| y l']; simpl; [reflexivity |].
  inversion Hl; subst.
  destruct (Z.ltb_spec (key x) (key y)); [lia | reflexivity].
Qed.
End SortedReverse.

Lemma StronglySorted_app_inv {A : Type} (R : A -> A -> Prop) (l1 l2 : list A) :
  StronglySorted R (l1 ++ l2) ->
  StronglySorted R l1 /\
  (forall a b, In a l1 -> In b l2 -> R a b).
Proof.
  induction l1 as [| x l1 IH]; simpl; intros H.
  - split; [constructor | intros a b []].
  - inversion H as [| ? ? Hs Hx]; subst.
    destruct (IH Hs) as [Hs1 Hcross].
    rewrite Forall_app in Hx. destruct Hx as [Hx1 Hx2].
    split; [constructor; assumption |].
    intros a b [<- | Ha] Hb.
    + rewrite Forall_forall in Hx2. apply Hx2. exact Hb.
    + apply Hcross; assumption.
Qed.

(** X8.  The batting leaders of [generate_match_report] are the first three
    items, or all of them when there are fewer, of the batting entries sorted
    by runs in descending order: together with the items left out they are a
    rearrangement of the entries, they are in descending order of runs, no
    item left out has more runs than a leader, and items of equal runs keep
    the order they have in the snapshot. *)
Theorem batting_leaders_are_top_three :
  forall stats : yamlopenrouteragent.Stats,
    let runs_of :=
      fun x : string * yamlopenrouteragent.BattingEntry =>
        yamlopenrouteragent.bat_runs (snd x) in
    exists rest,
      Permutation (batting_leaders stats ++ rest)
        (yamlopenrouteragent.batting stats) /\
      List.length (batting_leaders stats) =
        Nat.min 3 (List.length (yamlopenrouteragent.batting stats)) /\
      StronglySorted (fun a b => runs_of b <= runs_of a)
        (batting_leaders stats) /\
      (forall a b, In a (batting_leaders stats) -> In b rest ->
                   runs_of b <= runs_of a) /\
      (forall c,
          filter (fun x => runs_of x =? c) (batting_leaders stats ++ rest) =
          filter (fun x => runs_of x =? c)
            (yamlopenrouteragent.batting stats)).
Proof.
  intros stats runs_of. unfold batting_leaders. fold runs_of.
  set (sorted := sorted_reverse runs_of (yamlopenrouteragent.batting stats)).
  exists (skipn 3 sorted).
  assert (Hcat : (firstn 3 sorted ++ skipn 3 sorted)%list = sorted)
    by apply firstn_skipn.
  pose proof (sorted_reverse_perm runs_of (yamlopenrouteragent.batting stats))
    as Hperm. fold sorted in Hperm.
  pose proof (sorted_reverse_sorted runs_of (yamlopenrouteragent.batting stats))
    as Hsorted. fold sorted in Hsorted.
  rewrite <- Hcat in Hsorted.
  destruct (StronglySorted_app_inv _ _ _ Hsorted) as [Hs1 Hcross].
  split; [rewrite Hcat; exact Hperm |].
  split.
  { rewrite length_firstn, (Permutation_length Hperm). reflexivity. }
  split; [exact Hs1 |].
  split; [exact Hcross |].
  intros c. rewrite Hcat. apply sorted_reverse_stable.
Qed.

Lemma yaml_returned_wickets (data : MatchRecord)
  (s : yamlopenrouteragent.Stats) :
  yamlopenrouteragent.process_match_data data = Ok s ->
  Forall (fun x => yamlopenrouteragent.bowl_wickets (snd x) = 0)
    (yamlopenrouteragent.bowling s).
Proof.
  intros H. rewrite yaml_refines_v3 in H.
  destruct (reportdeepseek_v3.process_stats data) as [sv |]; [| discriminate].
  inversion H. cbn [yaml_of_stats yamlopenrouteragent.bowling].
  unfold map_dict. apply Forall_map. apply Forall_forall. intros x _.
  reflexivity.
Qed.

(** X9.  On every snapshot [process_match_data] returns, the bowling leaders
    of [generate_match_report] are the first three bowlers in the order they
    first bowled: all wickets being 0, the sort by wickets moves nothing. *)
Theorem bowling_leaders_are_first_three :
  forall (data : MatchRecord) (s : yamlopenrouteragent.Stats),
    yamlopenrouteragent.process_match_data data = Ok s ->
    bowling_leaders s = firstn 3 (yamlopenrouteragent.bowling s).
Proof.
  intros data s H. unfold bowling_leaders. f_equal.
  apply sorted_reverse_constant with (c := 0).
  apply (yaml_returned_wickets data s H).
Qed.

Lemma bowling_leaders_witness :
  exists s,
    yamlopenrouteragent.process_match_data four_bowlers = Ok s /\
    keys (yamlopenrouteragent.bowling s) = ["B1"; "B2"; "B3"; "B4"] /\
    keys (bowling_leaders s) = ["B1"; "B2"; "B3"].
Proof.
  destruct (yamlopenrouteragent.process_match_data four_bowlers) as [s |] eqn:E;
    [| vm_compute in E; discriminate E].
  exists s. split; [reflexivity |].
  rewrite (bowling_leaders_are_first_three four_bowlers s E).
  vm_compute in E. inversion E. split; reflexivity.
Defined.

(** ** The analysis section *)

Lemma split_lines_nonempty (s : string) : split_lines s <> [].
Proof.
  destruct s as [| c s]; simpl; [discriminate |].
  destruct (Ascii.eqb c newline); [discriminate |].
  destruct (split_lines s); discriminate.
Qed.

Lemma join_split_lines (s : string) : join_lines (split_lines s) = s.
Proof.
  induction s as [| c s IH]; [reflexivity |].
  cbn [split_lines].
  destruct (Ascii.eqb_spec c newline) as [-> | Hne].
  - pose proof (split_lines_nonempty s) as Hn.
    destruct (split_lines s) as [| l ls]; [contradiction |].
    change (join_lines (EmptyString :: l :: ls))
      with (String newline (join_lines (l :: ls))).
    rewrite IH. reflexivity.
  - pose proof (split_lines_nonempty s) as Hn.
    destruct (split_lines s) as [| l ls]; [contradiction |].
    destruct ls as [| l' ls].
    + change (String c l = String c s). f_equal. exact IH.
    + change (String c (join_lines (l :: l' :: ls)) = String c s).
      f_equal. exact IH.
Qed.

Lemma split_lines_length (s : string) :
  List.length (split_lines s) =
  S (count_occ Ascii.ascii_dec (list_ascii_of_string s) newline).
Proof.
  induction s as [| c s IH]; [reflexivity |].
  cbn [split_lines list_ascii_of_string count_occ].
  destruct (Ascii.eqb_spec c newline) as [-> | Hne].
  - destruct (Ascii.ascii_dec newline newline) as [_ | C]; [| contradiction].
    cbn [List.length]. rewrite IH. reflexivity.
  - destruct (Ascii.ascii_dec c newline) as [C | _]; [contradiction |].
    pose proof (split_lines_nonempty s) as Hn.
    destruct (split_lines s) as [| l ls]; [contradiction |].
    cbn [List.length] in *. exact IH.
Qed.

Section AnalysisSection.
Context {E P : Type}.
Variable Paragraph : string -> string -> E + P.
Variable inch : float.

Lemma analysis_loop_returns (lines : list string)
  (section section' : list (flowable P)) :
  analysis_loop Paragraph inch lines section = inr section' <->
  exists ps,
    Forall2 (fun line p => line_paragraph Paragraph line = inr p) lines ps /\
    section' = (section ++ line_elements inch ps)%list.
Proof.
  revert section. induction lines as [| line rest IH]; intros section.
  - cbn [analysis_loop]. split.
    + intros H. injection H as <-. exists []. split; [constructor |].
      unfold line_elements. cbn [flat_map]. rewrite app_nil_r. reflexivity.
    + intros (ps & Hall & ->). inversion Hall; subst.
      unfold line_elements. cbn [flat_map]. rewrite app_nil_r. reflexivity.
  - cbn [analysis_loop]. unfold analysis_line.
    destruct (line_paragraph Paragraph line) as [e | p] eqn:Ep.
    + split; [discriminate |].
      intros (ps & Hall & _). inversion Hall; subst. congruence.
    + rewrite IH. split.
      * intros (ps & Hall & ->). exists (p :: ps).
        split; [constructor; assumption |].
        unfold line_elements. cbn [flat_map]. rewrite <- app_assoc.
        reflexivity.
      * intros (ps & Hall & ->). inversion Hall as [| ? p' ? ps' Hp Hrest];
          subst. assert (p' = p) by congruence. subst p'.
        exists ps'. split; [exact Hrest |].
        unfold line_elements. cbn [flat_map]. rewrite <- app_assoc.
        reflexivity.
Qed.

Lemma analysis_loop_raises (lines : list string)
  (section : list (flowable P)) (e : E) :
  analysis_loop Paragraph inch lines section = inl e <->
  exists before line after ps,
    lines = (before ++ line :: after)%list /\
    Forall2 (fun l p => line_paragraph Paragraph l = inr p) before ps /\
    line_paragraph Paragraph line = inl e.
Proof.
  revert section. induction lines as [| line rest IH]; intros section.
  - cbn [analysis_loop]. split; [discriminate |].
    intros (before & l & after & ps & Hl & _). destruct before; discriminate.
  - cbn [analysis_loop]. unfold analysis_line.
    destruct (line_paragraph Paragraph line) as [e0 | p] eqn:Ep.
    + split.
      * intros H. injection H as <-. exists [], line, rest, [].
        split; [reflexivity |]. split; [constructor | exact Ep].
      * intros (before & l & after & ps & Hl & Hall & He).
        destruct before as [| b before].
        -- injection Hl as <- _. congruence.
        -- injection Hl as <- _. inversion Hall; subst. congruence.
    + rewrite IH. split.
      * intros (before & l & after & ps & -> & Hall & He).
        exists (line :: before), l, after, (p :: ps).
        split; [reflexivity |]. split; [constructor; assumption | exact He].
      * intros (before & l & after & ps & Hl & Hall & He).
        destruct before as [| b before].
        -- injection Hl as <- _. congruence.
        -- injection Hl as <- ->. inversion Hall; subst.
           eexists before, l, after, _. split; [reflexivity |].
           split; [eassumption | exact He].
Qed.

Lemma paragraphs_line_elements (ps : list P) :
  paragraphs (line_elements inch ps) = ps.
Proof.
  unfold paragraphs, line_elements.
  induction ps as [| p ps IH]; [reflexivity |].
  cbn [flat_map app]. rewrite IH. reflexivity.
Qed.

Lemma line_elements_length (ps : list P) :
  List.length (line_elements inch ps) = (2 * List.length ps)%nat.
Proof.
  unfold line_elements. induction ps as [| p ps IH]; [reflexivity |].
  cbn [flat_map app List.length]. rewrite IH. lia.
Qed.

Lemma line_paragraph_plain (line : string) :
  String.prefix "## " line = false -> String.prefix "**" line = false ->
  line_paragraph Paragraph line = Paragraph line "Analysis".
Proof. intros H1 H2. unfold line_paragraph. rewrite H1, H2. reflexivity. Qed.

Lemma line_paragraph_bold (line : string) :
  String.prefix "**" line = true ->
  line_paragraph Paragraph line = Paragraph (remove_bold line) "Header2".
Proof.
  intros Hp. unfold line_paragraph. rewrite Hp.
  replace (String.prefix "## " line) with false; [reflexivity |].
  destruct line as [| c line]; [discriminate Hp |].
  cbn [String.prefix] in Hp |- *.
  destruct (Ascii.ascii_dec _ c) as [E1 | _] in |- *; [| reflexivity].
  subst c.
  destruct (Ascii.ascii_dec _ _) as [E2 | _] in Hp; discriminate.
Qed.

End AnalysisSection.

(** X10.  [create_analysis_section] asks the library for one paragraph for
    the heading and one for every line of the text, in order, the empty lines
    too.  It returns exactly when every one of them is built: the section is
    then the heading and its spacer, a paragraph and a spacer for every line,
    and a page break, [2 * (n + 1) + 3] elements for a text with [n]
    newlines.  It raises exactly what the first refused paragraph raised, the
    heading's or that of the first line the library refuses. *)
Theorem analysis_section_layout :
  forall (E P : Type) (Paragraph : string -> string -> E + P) (inch : float)
         (analysis : string),
    (forall section,
        create_analysis_section Paragraph inch analysis = inr section <->
        exists heading ps,
          Paragraph "Expert Analysis" "Header1" = inr heading /\
          Forall2 (fun line p => line_paragraph Paragraph line = inr p)
            (split_lines analysis) ps /\
          List.length ps =
            S (count_occ Ascii.ascii_dec (list_ascii_of_string analysis)
                 newline) /\
          List.length section = (2 * List.length ps + 3)%nat /\
          section =
            ([Para heading; Spacer 1 (SFmul prec emax float_0_1 inch)] ++
             line_elements inch ps ++ [PageBreak])%list) /\
    (forall e,
        create_analysis_section Paragraph inch analysis = inl e <->
        Paragraph "Expert Analysis" "Header1" = inl e \/
        exists heading before line after ps,
          Paragraph "Expert Analysis" "Header1" = inr heading /\
          split_lines analysis = (before ++ line :: after)%list /\
          Forall2 (fun l p => line_paragraph Paragraph l = inr p) before ps /\
          line_paragraph Paragraph line = inl e).
Proof.
  intros E P Paragraph inch analysis. unfold create_analysis_section.
  remember (SFmul prec emax float_0_1 inch) as gap eqn:Egap. clear Egap. split.
  - intros section.
    destruct (Paragraph "Expert Analysis" "Header1") as [e0 | heading].
    + split; [discriminate |]. intros (h & ps & C & _). discriminate C.
    + destruct (analysis_loop Paragraph inch (split_lines analysis) _)
        as [e1 | body] eqn:Eloop.
      * split; [discriminate |].
        intros (h & ps & Hh & Hall & _ & _ & _). exfalso.
        assert (Hr : analysis_loop Paragraph inch (split_lines analysis)
                       [Para heading; Spacer 1 gap] =
                     inr ([Para heading; Spacer 1 gap] ++
                          line_elements inch ps)%list)
          by (apply analysis_loop_returns; eauto).
        congruence.
      * apply analysis_loop_returns in Eloop.
        destruct Eloop as (ps & Hall & ->).
        split.
        -- intros H. injection H as <-. exists heading, ps.
           split; [reflexivity |]. split; [exact Hall |].
           split; [| split].
           ++ rewrite <- (Forall2_length Hall). apply split_lines_length.
           ++ cbn [List.length]. rewrite length_app, line_elements_length.
              cbn [List.length]. lia.
           ++ reflexivity.
        -- intros (h & ps' & Hh & Hall' & _ & _ & ->).
           injection Hh as <-. f_equal. rewrite <- app_assoc.
           f_equal. f_equal. f_equal.
           clear - Hall Hall'. revert ps' Hall'.
           induction Hall as [| l p ls ps Hp _ IH]; intros ps' Hall'.
           ++ inversion Hall'. reflexivity.
           ++ inversion Hall' as [| ? p' ? ps'' Hp' Hrest]; subst.
              f_equal; [congruence | apply IH; exact Hrest].
  - intros e.
    destruct (Paragraph "Expert Analysis" "Header1") as [e0 | heading].
    + split.
      * intros H. injection H as <-. left. reflexivity.
      * intros [H | (h & before & line & after & ps & C & _)];
          [injection H as <-; reflexivity | discriminate C].
    + destruct (analysis_loop Paragraph inch (split_lines analysis) _)
        as [e1 | body] eqn:Eloop.
      * apply analysis_loop_raises in Eloop.
        destruct Eloop as (before & line & after & ps & Hl & Hall & He).
        split.
        -- intros H. injection H as <-. right.
           exists heading, before, line, after, ps. auto.
        -- intros [C | (h & before' & line' & after' & ps' & _ & Hl' & Hall' & He')];
             [discriminate C |].
           f_equal.
           assert (Hr : analysis_loop Paragraph inch (split_lines analysis)
                          [Para heading; Spacer 1 gap] = inl e)
             by (apply analysis_loop_raises; eauto 8).
           assert (Hr1 : analysis_loop Paragraph inch (split_lines analysis)
                           [Para heading; Spacer 1 gap] = inl e1)
             by (apply analysis_loop_raises; eauto 8).
           congruence.
      * split; [discriminate |].
        intros [C | (h & before & line & after & ps & _ & Hl & Hall & He)];
          [discriminate C |]. exfalso.
        assert (Hr : analysis_loop Paragraph inch (split_lines analysis)
                       [Para heading; Spacer 1 gap] = inl e)
          by (apply analysis_loop_raises; eauto 8).
        congruence.
Qed.

Lemma analysis_section_witness :
  create_analysis_section sample_Paragraph float_1_0 plain_analysis =
    inr [Para ("Expert Analysis", "Header1");
         Spacer 1 (SFmul prec emax float_0_1 float_1_0);
         Para ("Good match.", "Analysis");
         Spacer 1 (SFmul prec emax float_0_05 float_1_0);
         Para ("Team A won.", "Analysis");
         Spacer 1 (SFmul prec emax float_0_05 float_1_0);
         PageBreak] /\
  create_analysis_section sample_Paragraph float_1_0 tagged_analysis =
    inl "ValueError".
Proof.
  destruct (analysis_section_layout string (string * string) sample_Paragraph
              float_1_0 plain_analysis) as [Hret _].
  destruct (analysis_section_layout string (string * string) sample_Paragraph
              float_1_0 tagged_analysis) as [_ Hraise].
  split.
  - apply Hret.
    exists ("Expert Analysis", "Header1"),
           [("Good match.", "Analysis"); ("Team A won.", "Analysis")].
    split; [reflexivity |]. split; [repeat constructor |].
    split; [reflexivity |]. split; reflexivity.
  - apply Hraise. right.
    exists ("Expert Analysis", "Header1"), ["Good match."], "<b>unclosed", [],
           [("Good match.", "Analysis")].
    split; [reflexivity |]. split; [reflexivity |].
    split; [repeat constructor | reflexivity].
Defined.

(** X11.  A text in which no line begins with ["## "] or ["**"] reaches the
    library unchanged: when [create_analysis_section] returns, the paragraphs
    after the heading were built from the lines of the text as they are, in
    order and in the style 'Analysis', and the lines joined with newlines are
    the text. *)
Theorem plain_analysis_preserved :
  forall (E P : Type) (Paragraph : string -> string -> E + P) (inch : float)
         (analysis : string) (section : list (flowable P)),
    Forall (fun l => String.prefix "## " l = false /\
                     String.prefix "**" l = false) (split_lines analysis) ->
    create_analysis_section Paragraph inch analysis = inr section ->
    exists heading ps,
      paragraphs section = heading :: ps /\
      Paragraph "Expert Analysis" "Header1" = inr heading /\
      Forall2 (fun line p => Paragraph line "Analysis" = inr p)
        (split_lines analysis) ps /\
      join_lines (split_lines analysis) = analysis.
Proof.
  intros E P Paragraph inch analysis section Hplain Hrun.
  unfold create_analysis_section in Hrun.
  destruct (Paragraph "Expert Analysis" "Header1") as [e0 | heading];
    [discriminate |].
  destruct (analysis_loop Paragraph inch (split_lines analysis) _)
    as [e1 | body] eqn:Eloop; [discriminate |].
  injection Hrun as <-.
  apply analysis_loop_returns in Eloop. destruct Eloop as (ps & Hall & ->).
  exists heading, ps. split; [| split; [reflexivity | split]].
  - unfold paragraphs. rewrite !flat_map_app. cbn [flat_map app].
    rewrite app_nil_r. f_equal. apply paragraphs_line_elements.
  - clear - Hplain Hall. induction Hall as [| l p ls ps Hp _ IH];
      [constructor |].
    inversion Hplain as [| ? ? [H1 H2] Hrest]; subst.
    constructor; [| apply IH; exact Hrest].
    rewrite <- Hp. symmetry. apply line_paragraph_plain; assumption.
  - apply join_split_lines.
Qed.

Lemma plain_analysis_witness :
  exists heading ps,
    paragraphs
      [Para ("Expert Analysis", "Header1");
       Spacer 1 (SFmul prec emax float_0_1 float_1_0);
       Para ("Good match.", "Analysis");
       Spacer 1 (SFmul prec emax float_0_05 float_1_0);
       Para ("Team A won.", "Analysis");
       Spacer 1 (SFmul prec emax float_0_05 float_1_0);
       PageBreak] = heading :: ps /\
    sample_Paragraph "Expert Analysis" "Header1" = inr heading /\
    Forall2 (fun line p => sample_Paragraph line "Analysis" = inr p)
      (split_lines plain_analysis) ps /\
    join_lines (split_lines plain_analysis) = plain_analysis.
Proof.
  apply (plain_analysis_preserved string (string * string) sample_Paragraph
           float_1_0 plain_analysis).
  - repeat constructor.
  - reflexivity.
Defined.

Lemma remove_bold_head (c : Ascii.ascii) (s : string) :
  Ascii.eqb c star = false ->
  exists r, remove_bold (String c s) = String c r.
Proof.
  intros Hc. destruct s as [| c' s]; cbn [remove_bold].
  - eauto.
  - rewrite Hc. cbn [andb]. eauto.
Qed.

Lemma remove_bold_step (c c' : Ascii.ascii) (s : string) :
  remove_bold (String c (String c' s)) =
  if Ascii.eqb c star && Ascii.eqb c' star then remove_bold s
  else String c (remove_bold (String c' s)).
Proof. reflexivity. Qed.

Lemma has_bold_step (c d : Ascii.ascii) (r : string) :
  has_bold (String c (String d r)) =
  (Ascii.eqb c star && Ascii.eqb d star) || has_bold (String d r).
Proof. reflexivity. Qed.

Lemma remove_bold_spec (n : nat) (s : string) :
  (String.length s <= n)%nat ->
  has_bold (remove_bold s) = false /\
  filter (fun c => negb (Ascii.eqb c star))
    (list_ascii_of_string (remove_bold s)) =
  filter (fun c => negb (Ascii.eqb c star)) (list_ascii_of_string s).
Proof.
  revert s. induction n as [| n IH]; intros s Hlen.
  - destruct s; [split; reflexivity | simpl in Hlen; lia].
  - destruct s as [| c [| c' s'']]; [split; reflexivity | split; reflexivity |].
    cbn [String.length] in Hlen.
    rewrite remove_bold_step.
    destruct (Ascii.eqb c star && Ascii.eqb c' star) eqn:Eboth.
    + destruct (IH s'' ltac:(lia)) as [H1 H2].
      split; [exact H1 |]. rewrite H2.
      apply andb_true_iff in Eboth. destruct Eboth as [E1 E2].
      cbn [list_ascii_of_string filter]. rewrite E1, E2. reflexivity.
    + destruct (IH (String c' s'') ltac:(cbn [String.length]; lia))
        as [H1 H2].
      split.
      * destruct (remove_bold (String c' s'')) as [| d r] eqn:Er;
          [reflexivity |].
        rewrite has_bold_step, H1, orb_false_r.
        destruct (Ascii.eqb c star) eqn:Ec; [| reflexivity].
        cbn [andb] in Eboth |- *.
        destruct (remove_bold_head c' s'' Eboth) as [r' Hr'].
        rewrite Hr' in Er. inversion Er; subst. exact Eboth.
      * cbn [list_ascii_of_string filter].
        cbn [list_ascii_of_string] in H2. rewrite H2. reflexivity.
Qed.



Example bold_line_paragraph :
  line_paragraph sample_Paragraph bold_line =
  inr ("Key moments: two", "Header2").
Proof. reflexivity. Qed.

Example remove_bold_example : remove_bold bold_line = "Key moments: two".
Proof. reflexivity. Qed.

Example remove_bold_three_stars : remove_bold "***" = "*".
Proof. reflexivity. Qed.

(** ** The callers *)



(** X14.  [analyze_cricket_match] turns a delivery that lacks a required
    field into the text ["Error: "] followed by [str] of the [KeyError] of
    the first missing key, and never calls [generate_match_report] then; an
    exception of opening or parsing the file is reported the same way. *)
Theorem analyze_cricket_match_reports_the_key :
  forall (str_of_exn : exn -> string) (data : MatchRecord),
    (exists d, In d (all_deliveries data) /\
               lacks_required_field (ball_data d)) ->
    exists k,
      In k required_keys /\
      first_missing (all_deliveries data) = Some k /\
      (forall generate_match_report,
          analyze_cricket_match str_of_exn (Ok data) generate_match_report =
          "Error: " ++ str_of_exn (KeyError k)) /\
      (forall e generate_match_report,
          analyze_cricket_match str_of_exn (Raise e) generate_match_report =
          "Error: " ++ str_of_exn e).
Proof.
  intros str data Hex.
  destruct (first_missing_required _ Hex) as (k & Hk & Hreq).
  exists k. split; [exact Hreq |]. split; [exact Hk |]. split.
  - intros gen. unfold analyze_cricket_match. cbn [bind].
    rewrite (yaml_process_match_data_raise data k Hk). reflexivity.
  - intros e gen. reflexivity.
Qed.

Lemma analyze_cricket_match_witness :
  analyze_cricket_match
    (fun e => match e with
              | KeyError k => "'" ++ k ++ "'"
              | _ => exn_class e
              end)
    (Ok scenario_C) (fun _ _ => Ok "report") = "Error: 'bowler'".
Proof.
  destruct (analyze_cricket_match_reports_the_key
              (fun e => match e with
                        | KeyError k => "'" ++ k ++ "'"
                        | _ => exn_class e
                        end) scenario_C) as (k & _ & Hk & H & _).
  - exists no_bowler. split; [simpl; auto | right; left; reflexivity].
  - vm_compute in Hk. inversion Hk; subst k.
    apply (H (fun _ _ => Ok "report")).
Defined.

(** ** The order of the deliveries *)

Lemma filter_perm {A : Type} (p : A -> bool) (l l' : list A) :
  Permutation l l' -> Permutation (filter p l) (filter p l').
Proof.
  induction 1 as [| x l l' _ IH | x y l | l l' l'' _ IH1 _ IH2]; simpl.
  - constructor.
  - destruct (p x); [apply perm_skip |]; exact IH.
  - destruct (p x), (p y); try apply Permutation_refl. apply perm_swap.
  - eapply perm_trans; eassumption.
Qed.

Lemma fold_left_perm {A V : Type} (step : V -> A -> V) (l l' : list A) :
  (forall v a b, step (step v a) b = step (step v b) a) ->
  Permutation l l' -> forall v, fold_left step l v = fold_left step l' v.
Proof.
  intros Hcomm.
  induction 1 as [| x l l' _ IH | x y l | l l' l'' _ IH1 _ IH2]; intros v;
    simpl.
  - reflexivity.
  - apply IH.
  - rewrite Hcomm. reflexivity.
  - rewrite IH1. apply IH2.
Qed.

Lemma sum_perm (l l' : list Z) : Permutation l l' -> sum l = sum l'.
Proof.
  unfold sum.
  induction 1 as [| x l l' _ IH | x y l | l l' l'' _ IH1 _ IH2]; simpl; lia.
Qed.

Lemma map_values_same_lookup {V W : Type} (f : V -> result W)
  (d1 d2 : dict V) (d1' d2' : dict W) (k : string) :
  map_values f d1 = Ok d1' -> map_values f d2 = Ok d2' ->
  get k d1 = get k d2 -> get k d1' = get k d2'.
Proof.
  intros H1 H2 E.
  pose proof (map_values_lookup f d1 d1' k H1) as L1.
  pose proof (map_values_lookup f d2 d2' k H2) as L2.
  rewrite <- E in L2. destruct (get k d1) as [v |].
  - destruct L1 as (w1 & F1 & ->). destruct L2 as (w2 & F2 & ->). congruence.
  - congruence.
Qed.

Lemma fold_over_permuted {A V : Type} (step : V -> A -> V) (v : V)
  (l l' : list A) :
  (forall v a b, step (step v a) b = step (step v b) a) ->
  Permutation l l' ->
  match l with [] => None | x :: r => Some (fold_left step (x :: r) v) end =
  match l' with [] => None | x :: r => Some (fold_left step (x :: r) v) end.
Proof.
  intros Hcomm Hp. pose proof (fold_left_perm step l l' Hcomm Hp v) as Hf.
  destruct l as [| x l]; destruct l' as [| y l']; try reflexivity.
  - apply Permutation_nil in Hp. discriminate.
  - apply Permutation_sym, Permutation_nil in Hp. discriminate.
  - rewrite Hf. reflexivity.
Qed.

(** X15.  The statistics do not depend on the order of the deliveries: two
    records whose deliveries, each with the team of its innings, are
    rearrangements of one another get from [process_stats] the same entry for
    every batsman, every bowler and every team.  Only the order of the keys
    can differ. *)
Theorem statistics_ignore_delivery_order :
  forall data1 data2 : MatchRecord,
    well_formed data1 ->
    Permutation (tagged_deliveries data1) (tagged_deliveries data2) ->
    exists s1 s2,
      reportdeepseek_v3.process_stats data1 = Ok s1 /\
      reportdeepseek_v3.process_stats data2 = Ok s2 /\
      forall name,
        get name (reportdeepseek_v3.batting s1) =
          get name (reportdeepseek_v3.batting s2) /\
        get name (reportdeepseek_v3.bowling s1) =
          get name (reportdeepseek_v3.bowling s2) /\
        get name (reportdeepseek_v3.team_scores s1) =
          get name (reportdeepseek_v3.team_scores s2).
Proof.
  intros data1 data2 Hwf Hperm.
  assert (Hall : Permutation (all_deliveries data1) (all_deliveries data2))
    by (rewrite !all_deliveries_tagged; apply Permutation_map; exact Hperm).
  assert (Hwf2 : well_formed data2).
  { destruct Hwf as [Hok Hmag]. split.
    - eapply Permutation_Forall; eassumption.
    - unfold magnitude in *.
      rewrite <- (sum_perm _ _ (Permutation_map _ Hall)). exact Hmag. }
  destruct (v3_snapshot data1 Hwf) as (s1 & Hrun1 & Ht1 & Hb1 & Hw1).
  destruct (v3_snapshot data2 Hwf2) as (s2 & Hrun2 & Ht2 & Hb2 & Hw2).
  exists s1, s2. split; [exact Hrun1 |]. split; [exact Hrun2 |].
  intros name. split; [| split].
  - apply (map_values_same_lookup _ _ _ _ _ name Hb1 Hb2).
    rewrite !v3_loop_batting_get.
    apply (fold_over_permuted
             (fun v d => v3_bat_step (batsman_runs_of (ball_data d)) v)
             reportdeepseek_v3.new_batting
             (filter (faced_by name) (all_deliveries data1))
             (filter (faced_by name) (all_deliveries data2)));
      [| apply filter_perm; exact Hall].
    intros v a b. unfold v3_bat_step. cbn. f_equal; lia.
  - apply (map_values_same_lookup _ _ _ _ _ name Hw1 Hw2).
    rewrite !v3_loop_bowling_get.
    apply (fold_over_permuted
             (fun v d => v3_bowl_step (total_runs_of (ball_data d))
                           (has_wicket (ball_data d)) v)
             reportdeepseek_v3.new_bowling
             (filter (bowled_by name) (all_deliveries data1))
             (filter (bowled_by name) (all_deliveries data2)));
      [| apply filter_perm; exact Hall].
    intros v a b. unfold v3_bowl_step. cbn. f_equal; lia.
  - rewrite Ht1, Ht2, !v3_loop_team_get.
    pose proof (filter_perm (batted_by name) _ _ Hperm) as Hf.
    pose proof (sum_perm _ _ (Permutation_map
                  (fun td => total_runs_of (ball_data (snd td))) Hf)) as Hs.
    destruct (filter (batted_by name) (tagged_deliveries data1)) as [| x l];
      destruct (filter (batted_by name) (tagged_deliveries data2)) as [| y l'];
      try reflexivity.
    + apply Permutation_nil in Hf. discriminate.
    + apply Permutation_sym, Permutation_nil in Hf. discriminate.
    + f_equal. exact Hs.
Qed.

Lemma statistics_ignore_order_witness :
  exists s1 s2,
    reportdeepseek_v3.process_stats scenario_D = Ok s1 /\
    reportdeepseek_v3.process_stats scenario_D_reversed = Ok s2 /\
    forall name,
      get name (reportdeepseek_v3.batting s1) =
        get name (reportdeepseek_v3.batting s2) /\
      get name (reportdeepseek_v3.bowling s1) =
        get name (reportdeepseek_v3.bowling s2) /\
      get name (reportdeepseek_v3.team_scores s1) =
        get name (reportdeepseek_v3.team_scores s2).
Proof.
  apply (statistics_ignore_delivery_order scenario_D scenario_D_reversed).
  - split; [repeat constructor | reflexivity].
  - change (tagged_deliveries scenario_D_reversed)
      with (rev (tagged_deliveries scenario_D)).
    apply Permutation_rev.
Defined.

(** ** The sign of the rates *)

Lemma binary_round_aux_ge0 (mx ex : Z) (lx : location) :
  0 <= mx -> float_ge0 (binary_round_aux prec emax false mx ex lx) = true.
Proof.
  intros Hmx.
  destruct (binary_round_aux_spec false mx ex lx Hmx)
    as (m3 & e2 & Hm3 & -> & _ & _).
  destruct m3 as [| p | p]; [reflexivity | | lia].
  destruct (e2 <=? emax - prec); reflexivity.
Qed.

Lemma SFdiv_ge0 (x : float) (my : positive) (ey : Z) :
  float_ge0 x = true ->
  float_ge0 (SFdiv prec emax x (S754_finite false my ey)) = true.
Proof.
  destruct x as [s | s | | s mx ex]; try destruct s; try discriminate;
    intros _; try reflexivity.
  unfold SFdiv, SFdiv_core_binary.
  set (m' := match _ - _ - _ with
             | 0 => Zpos mx
             | Zpos _ => Z.shiftl (Zpos mx) _
             | Zneg _ => 0
             end).
  assert (Hm' : 0 <= m').
  { unfold m'. destruct (_ - _ - _); try lia.
    apply Z.shiftl_nonneg. lia. }
  pose proof (Z.div_pos m' (Zpos my) Hm' ltac:(lia)) as Hq.
  unfold Z.div in Hq. destruct (Z.div_eucl m' (Zpos my)) as [q r].
  apply binary_round_aux_ge0. exact Hq.
Qed.

Lemma SFmul_ge0 (x : float) (my : positive) (ey : Z) :
  float_ge0 x = true ->
  float_ge0 (SFmul prec emax x (S754_finite false my ey)) = true.
Proof.
  destruct x as [s | s | | s mx ex]; try destruct s; try discriminate;
    intros _; try reflexivity.
  unfold SFmul. apply binary_round_aux_ge0. lia.
Qed.

Lemma round_ge0 (x : float) (ndigits : Z) :
  float_ge0 x = true -> float_ge0 (round x ndigits) = true.
Proof.
  destruct x as [s | s | | s m e]; try destruct s; try discriminate;
    intros _; try reflexivity.
  unfold round.
  destruct (if 0 <=? e then _ else _) as [| q | q]; try reflexivity.
  apply SFdiv_ge0. reflexivity.
Qed.

Lemma float_of_int_ge0 (a : Z) (f : float) :
  0 <= a -> float_of_int a = Ok f -> float_ge0 f = true.
Proof.
  intros Ha. unfold float_of_int.
  destruct a as [| p | p]; [| | lia]; cbn [binary_normalize].
  - intros H. inversion H. reflexivity.
  - unfold binary_round.
    destruct (shl_align p 0 _) as [mz ez].
    pose proof (binary_round_aux_ge0 (Zpos mz) ez loc_Exact ltac:(lia)) as Hg.
    destruct (binary_round_aux prec emax false (Zpos mz) ez loc_Exact);
      cbn [finite_or_overflow]; intros H; inversion H; subst; exact Hg.
Qed.

Lemma int_truediv_ge0 (a b : Z) (f : float) :
  0 <= a -> 0 < b -> int_truediv a b = Ok f -> float_ge0 f = true.
Proof.
  intros Ha Hb. unfold int_truediv.
  destruct (Z.eqb_spec b 0); [lia |].
  destruct b as [| pb | pb]; try lia. cbn [exact_of_int].
  pose proof (SFdiv_ge0 (exact_of_int a) pb 0) as Hg.
  assert (Hx : float_ge0 (exact_of_int a) = true)
    by (destruct a; [reflexivity | reflexivity | lia]).
  specialize (Hg Hx).
  destruct (SFdiv prec emax (exact_of_int a) (S754_finite false pb 0));
    cbn [finite_or_overflow]; intros H; inversion H; subst; exact Hg.
Qed.

Lemma overs_is_positive_finite (balls : Z) (o : float) :
  1 <= balls -> int_truediv balls 6 = Ok o ->
  exists m e, o = S754_finite false m e.
Proof.
  intros Hb Ho.
  destruct (overs_positive balls o Hb Ho) as [Hgt _].
  unfold int_truediv in Ho. cbn [Z.eqb] in Ho.
  destruct o as [s | s | | s m e]; try destruct s; try discriminate Hgt.
  - destruct (SFdiv prec emax (exact_of_int balls) (exact_of_int 6));
      discriminate Ho.
  - eauto.
Qed.

Lemma sum_nonneg (l : list Z) : Forall (fun z => 0 <= z) l -> 0 <= sum l.
Proof. unfold sum. induction 1; simpl; lia. Qed.

(** X16.  When no delivery of a well-formed record has a negative run value,
    every rate of the snapshot [process_stats] returns is a number that is
    not negative and not NaN: the strike rate of every batsman, the economy
    and the overs of every bowler. *)
Theorem rates_are_not_negative :
  forall data : MatchRecord,
    well_formed data -> runs_nonnegative data ->
    exists s,
      reportdeepseek_v3.process_stats data = Ok s /\
      (forall name e,
          get name (reportdeepseek_v3.batting s) = Some e ->
          rate_ge0 (reportdeepseek_v3.strike_rate e)) /\
      (forall name e,
          get name (reportdeepseek_v3.bowling s) = Some e ->
          rate_ge0 (reportdeepseek_v3.economy e) /\
          rate_ge0 (reportdeepseek_v3.overs e)).
Proof.
  intros data Hwf Hnn.
  destruct (v3_snapshot data Hwf) as (s & Hrun & _ & Hbat & Hbowl).
  exists s. split; [exact Hrun |].
  unfold runs_nonnegative in Hnn. rewrite Forall_forall in Hnn.
  split.
  - intros name e Hget.
    destruct (map_values_get _ _ _ _ _ Hbat Hget) as (e0 & Hget0 & Hder).
    rewrite v3_loop_batting_get in Hget0.
    destruct (filter (faced_by name) (all_deliveries data)) as [| d rest] eqn:Ef;
      [discriminate |].
    injection Hget0 as He0.
    assert (S : reportdeepseek_v3.bat_runs e0 =
                reportdeepseek_v3.bat_runs reportdeepseek_v3.new_batting +
                sum (map (fun x => batsman_runs_of (ball_data x)) (d :: rest)) /\
                reportdeepseek_v3.bat_balls e0 =
                reportdeepseek_v3.bat_balls reportdeepseek_v3.new_batting +
                Z.of_nat (List.length (d :: rest))).
    { rewrite <- He0.
      destruct (v3_bat_steps (d :: rest) reportdeepseek_v3.new_batting)
        as (S1 & S2 & _).
      split; [exact S1 | exact S2]. }
    destruct S as [S1 S2].
    assert (Hruns : 0 <= reportdeepseek_v3.bat_runs e0).
    { rewrite S1. cbn [reportdeepseek_v3.new_batting reportdeepseek_v3.bat_runs].
      apply Z.add_nonneg_nonneg; [lia |]. apply sum_nonneg.
      apply Forall_map, Forall_forall. intros x Hx.
      assert (Hin : In x (filter (faced_by name) (all_deliveries data)))
        by (rewrite Ef; exact Hx).
      apply filter_In in Hin. apply (Hnn x (proj1 Hin)). }
    assert (Hballs : 1 <= reportdeepseek_v3.bat_balls e0).
    { rewrite S2. cbn [reportdeepseek_v3.new_batting
        reportdeepseek_v3.bat_balls List.length]. lia. }
    unfold reportdeepseek_v3.derive_batting in Hder.
    destruct (Z.ltb_spec 0 (reportdeepseek_v3.bat_balls e0)) as [_ | C];
      [| lia].
    destruct (int_truediv _ _) as [q |] eqn:Eq; [| discriminate].
    cbn [bind] in Hder.
    assert (Hpos : 0 < reportdeepseek_v3.bat_balls e0) by lia.
    pose proof (int_truediv_ge0 _ _ q Hruns Hpos Eq) as Hq.
    unfold float_mul_int in Hder.
    destruct (float_of_int 100) as [f100 |] eqn:E100; [| discriminate].
    cbn [bind] in Hder. inversion Hder; subst e.
    cbn [reportdeepseek_v3.set_strike_rate reportdeepseek_v3.strike_rate
         rate_ge0].
    apply round_ge0.
    vm_compute in E100. inversion E100; subst f100.
    apply SFmul_ge0. exact Hq.
  - intros name e Hget.
    destruct (map_values_get _ _ _ _ _ Hbowl Hget) as (e0 & Hget0 & Hder).
    rewrite v3_loop_bowling_get in Hget0.
    destruct (filter (bowled_by name) (all_deliveries data)) as [| d rest] eqn:Ef;
      [discriminate |].
    injection Hget0 as He0.
    assert (S : reportdeepseek_v3.bowl_runs e0 =
                reportdeepseek_v3.bowl_runs reportdeepseek_v3.new_bowling +
                sum (map (fun x => total_runs_of (ball_data x)) (d :: rest)) /\
                reportdeepseek_v3.bowl_balls e0 =
                reportdeepseek_v3.bowl_balls reportdeepseek_v3.new_bowling +
                Z.of_nat (List.length (d :: rest))).
    { rewrite <- He0.
      destruct (v3_bowl_steps (d :: rest) reportdeepseek_v3.new_bowling)
        as (S1 & S2 & _).
      split; [exact S1 | exact S2]. }
    destruct S as [S1 S2].
    assert (Hruns : 0 <= reportdeepseek_v3.bowl_runs e0).
    { rewrite S1. cbn [reportdeepseek_v3.new_bowling
        reportdeepseek_v3.bowl_runs].
      apply Z.add_nonneg_nonneg; [lia |]. apply sum_nonneg.
      apply Forall_map, Forall_forall. intros x Hx.
      assert (Hin : In x (filter (bowled_by name) (all_deliveries data)))
        by (rewrite Ef; exact Hx).
      apply filter_In in Hin. apply (Hnn x (proj1 Hin)). }
    assert (Hballs : 1 <= reportdeepseek_v3.bowl_balls e0).
    { rewrite S2. cbn [reportdeepseek_v3.new_bowling
        reportdeepseek_v3.bowl_balls List.length]. lia. }
    unfold reportdeepseek_v3.derive_bowling in Hder.
    destruct (int_truediv (reportdeepseek_v3.bowl_balls e0) 6) as [o |] eqn:Eo;
      [| discriminate].
    cbn [bind] in Hder.
    destruct (overs_is_positive_finite _ o Hballs Eo) as (m & ex & ->).
    cbn [float_gt0 SFltb SFcompare] in Hder.
    unfold int_float_truediv, float_truediv in Hder.
    destruct (float_of_int (reportdeepseek_v3.bowl_runs e0)) as [x |] eqn:Ex;
      [| discriminate].
    cbn [bind float_is_zero] in Hder. injection Hder as He. subst e.
    cbn [reportdeepseek_v3.set_economy_overs reportdeepseek_v3.economy
         reportdeepseek_v3.overs rate_ge0].
    split.
    + apply round_ge0, SFdiv_ge0. apply (float_of_int_ge0 _ x Hruns Ex).
    + apply (round_ge0 (S754_finite false m ex) 1). reflexivity.
Qed.

Lemma rates_are_not_negative_witness :
  exists s,
    reportdeepseek_v3.process_stats scenario_D = Ok s /\
    (forall name e,
        get name (reportdeepseek_v3.batting s) = Some e ->
        rate_ge0 (reportdeepseek_v3.strike_rate e)) /\
    (forall name e,
        get name (reportdeepseek_v3.bowling s) = Some e ->
        rate_ge0 (reportdeepseek_v3.economy e) /\
        rate_ge0 (reportdeepseek_v3.overs e)).
Proof.
  apply (rates_are_not_negative scenario_D).
  - split; [repeat constructor | reflexivity].
  - repeat constructor; discriminate.
Defined.
